(** * A shallow embedding of fastq_demux (demux.py, parser.py, writer.py)

    Python dicts and [collections.Counter]s keep insertion order, and the
    order matters here ([Counter.most_common] breaks ties by it, and
    [list.index] picks the first matching known barcode), so dicts are
    association lists in insertion order.  Python [int]s are [Z].
    Exceptions are the constructors of [error]; a computation that may
    raise returns a [result]. *)

From Stdlib Require Import String Ascii List ZArith Bool Lia.
From Stdlib Require Import Permutation Sorted.
From Stdlib Require Import SpecFloat.
Import ListNotations.
Open Scope Z_scope.

(** ** Exceptions and results *)

Inductive error : Type :=
| KeyError
| IndexError
| AmbiguousBarcode (barcode : string) (mismatches : Z)
| RecursionError
| LengthMismatch (files : list string)
| ZeroDivisionError
| OverflowError.

Inductive result (A : Type) : Type :=
| Ok : A -> result A
| Err : error -> result A.
Arguments Ok {A} _.
Arguments Err {A} _.

Definition bind {A B} (m : result A) (k : A -> result B) : result B :=
  match m with Ok a => k a | Err e => Err e end.

Notation "x <- m ;; k" := (bind m (fun x => k))
  (at level 61, m at next level, right associativity).

(** [[f(x) for x in l]] for an [f] that may raise. *)
Fixpoint map_result {A B : Type} (f : A -> result B) (l : list A) : result (list B) :=
  match l with
  | [] => Ok []
  | x :: rest => y <- f x ;; ys <- map_result f rest ;; Ok (y :: ys)
  end.

(** ** Strings *)

(** [s.split(sep)] for a one-character separator. *)
Fixpoint split_aux (sep : ascii) (s cur : string) : list string :=
  match s with
  | EmptyString => [cur]
  | String c rest =>
      if Ascii.eqb c sep then cur :: split_aux sep rest EmptyString
      else split_aux sep rest (String.append cur (String c EmptyString))
  end.

Definition split (sep : ascii) (s : string) : list string :=
  split_aux sep s EmptyString.

(** [sep.join(l)] *)
Fixpoint join (sep : string) (l : list string) : string :=
  match l with
  | [] => EmptyString
  | [x] => x
  | x :: rest => String.append x (String.append sep (join sep rest))
  end.

Definition plus_char : ascii := "+"%char.
Definition plus_str : string := "+"%string.

(** ** Dicts and Counters as association lists in insertion order *)

Section Assoc.
Context {K V : Type} (eqb : K -> K -> bool).

(** [d.get(k)] *)
Fixpoint assoc_get (m : list (K * V)) (k : K) : option V :=
  match m with
  | [] => None
  | (k', v) :: rest => if eqb k' k then Some v else assoc_get rest k
  end.

(** [d[k] = v]: an existing key keeps its position, a new key goes last. *)
Fixpoint assoc_set (m : list (K * V)) (k : K) (v : V) : list (K * V) :=
  match m with
  | [] => [(k, v)]
  | (k', v') :: rest =>
      if eqb k' k then (k', v) :: rest else (k', v') :: assoc_set rest k v
  end.

(** [k in d] *)
Definition assoc_mem (m : list (K * V)) (k : K) : bool :=
  existsb (fun p => eqb (fst p) k) m.
End Assoc.

Section Counter.
Context {K : Type} (eqb : K -> K -> bool).

(** [c[k]] for a [Counter]: a missing key reads as 0. *)
Definition counter_get (c : list (K * Z)) (k : K) : Z :=
  match assoc_get eqb c k with Some v => v | None => 0 end.

(** [c[k] += n] *)
Definition counter_add (c : list (K * Z)) (k : K) (n : Z) : list (K * Z) :=
  assoc_set eqb c k (counter_get c k + n).

(** [sum(c.values())] *)
Definition counter_total (c : list (K * Z)) : Z :=
  fold_right (fun p acc => snd p + acc) 0 c.
End Counter.

(** ** FastqMismatchDemultiplexer: matching *)

(** [hamming_distance(str1, str2) = sum([int(s1 != s2) for (s1, s2) in zip(str1, str2)])] *)
Fixpoint hamming_distance (str1 str2 : string) : Z :=
  match str1, str2 with
  | String s1 r1, String s2 r2 =>
      (if Ascii.eqb s1 s2 then 0 else 1) + hamming_distance r1 r2
  | _, _ => 0
  end.

(** [distances.index(v)]: [None] stands for the [ValueError]. *)
Fixpoint index_of (v : Z) (l : list Z) : option nat :=
  match l with
  | [] => None
  | x :: rest =>
      if Z.eqb x v then Some O
      else match index_of v rest with Some i => Some (S i) | None => None end
  end.

(** [distances.count(v)] *)
Definition count_of (v : Z) (l : list Z) : nat :=
  length (filter (fun x => Z.eqb x v) l).

(** [list(set(l))], up to order (only its length is used). *)
Fixpoint dedup (l : list string) : list string :=
  match l with
  | [] => []
  | x :: rest =>
      if existsb (String.eqb x) rest then dedup rest else x :: dedup rest
  end.

(** [[known_barcodes[x] for x, d in enumerate(distances) if d == no_mm]] *)
Definition at_distance (no_mm : Z) (known_barcodes : list string)
    (distances : list Z) : list string :=
  map fst (filter (fun p => Z.eqb (snd p) no_mm) (combine known_barcodes distances)).

(** The body of the [while no_mm < self.mismatches] loop, [steps] being the
    number of iterations left. *)
Fixpoint scan_distances (mismatches : Z) (barcode : string)
    (known_barcodes : list string) (distances : list Z)
    (no_mm : Z) (steps : nat) : result (string * Z) :=
  match steps with
  | O => Ok (EmptyString, -1)
  | S steps' =>
      match index_of no_mm distances with
      | None =>
          scan_distances mismatches barcode known_barcodes distances (no_mm + 1) steps'
      | Some i =>
          if (1 <? count_of no_mm distances)%nat
             && (1 <? length (dedup (at_distance no_mm known_barcodes distances)))%nat
          then Err (AmbiguousBarcode barcode mismatches)
          else Ok (nth i known_barcodes EmptyString, no_mm)
      end
  end.

(** [match_mismatched_single_barcode]: [no_mm] starts at -1 and the loop
    body runs for [no_mm = 0, 1, ..., mismatches]. *)
Definition match_mismatched_single_barcode (mismatches : Z) (barcode : string)
    (known_barcodes : list string) : result (string * Z) :=
  let distances := map (fun x => hamming_distance x barcode) known_barcodes in
  scan_distances mismatches barcode known_barcodes distances 0
    (Z.to_nat (mismatches + 1)).

(** [[k.split("+")[ix] for k in keys if k != self.unknown_barcode]];
    a key with too few segments raises [IndexError]. *)
Fixpoint known_segments (unknown_barcode : string) (keys : list string)
    (ix : nat) : result (list string) :=
  match keys with
  | [] => Ok []
  | k :: rest =>
      if String.eqb k unknown_barcode then known_segments unknown_barcode rest ix
      else match nth_error (split plus_char k) ix with
           | None => Err IndexError
           | Some seg =>
               segs <- known_segments unknown_barcode rest ix ;;
               Ok (seg :: segs)
           end
  end.

(** The [for ix, sindex in enumerate(barcode.split("+"))] loop of
    [match_mismatched_barcode], returning [(matched_key, distance)]. *)
Fixpoint match_segments (unknown_barcode : string) (mismatches : Z)
    (keys : list string) (ix : nat) (sindexes : list string)
    (matched_key : list string) (distance : Z) : result (list string * Z) :=
  match sindexes with
  | [] => Ok (matched_key, distance)
  | sindex :: rest =>
      known_barcodes <- known_segments unknown_barcode keys ix ;;
      md <- match_mismatched_single_barcode mismatches sindex known_barcodes ;;
      match_segments unknown_barcode mismatches keys (S ix) rest
        (matched_key ++ [fst md]) (Z.max (snd md) distance)
  end.

(** The value [match_mismatched_barcode] stores in
    [self.mismatched_barcodes[barcode]]:
    [(matched_barcode, distance, counted_barcode)]. *)
Definition mismatched_resolution (unknown_barcode : string) (mismatches : Z)
    (keys : list string) (barcode : string) : result (string * Z * string) :=
  mkd <- match_segments unknown_barcode mismatches keys O
           (split plus_char barcode) [] 0 ;;
  let matched_barcode := join plus_str (fst mkd) in
  if existsb (String.eqb matched_barcode) keys
  then Ok (matched_barcode, snd mkd, matched_barcode)
  else Ok (unknown_barcode, 0, barcode).

(** ** DemultiplexResults *)

Record results : Type := mkResults {
  barcode_to_sample_mapping : list (string * string);
  barcode_counts : list (string * Z);
  (** the per-barcode Counters keyed by [str(distance)]; [str] is
      injective on [int], so the key is the distance itself *)
  barcode_mismatches_count : list (string * list (Z * Z))
}.

Definition mapping_keys (r : results) : list string :=
  map fst (barcode_to_sample_mapping r).

(** [DemultiplexResults.__init__] *)
Definition init_results (barcode_to_sample_mapping : list (string * string)) : results :=
  mkResults barcode_to_sample_mapping []
    (map (fun p => (fst p, [])) barcode_to_sample_mapping).

(** [DemultiplexResults.add]: the [KeyError] of the histogram update is
    caught and ignored. *)
Definition add (r : results) (barcode : string) (n distance : Z) : results :=
  let counts := counter_add String.eqb (barcode_counts r) barcode n in
  let hist :=
    match assoc_get String.eqb (barcode_mismatches_count r) barcode with
    | Some c =>
        assoc_set String.eqb (barcode_mismatches_count r) barcode
          (counter_add Z.eqb c distance n)
    | None => barcode_mismatches_count r
    end in
  mkResults (barcode_to_sample_mapping r) counts hist.

Definition in_mapping (r : results) (barcode : string) : bool :=
  assoc_mem String.eqb (barcode_to_sample_mapping r) barcode.

(** [known_barcode_counts] *)
Definition known_barcode_counts (r : results) : list (string * Z) :=
  filter (fun p => in_mapping r (fst p)) (barcode_counts r).

(** [unknown_barcode_counts] *)
Definition unknown_barcode_counts (r : results) : list (string * Z) :=
  filter (fun p => negb (in_mapping r (fst p))) (barcode_counts r).

(** ** FastqFileWriterHandler *)

(** [fastq_file_writers]: for each barcode, the number of
    [FastqFileWriter]s in its list (one per read of a record). *)
Definition writers := list (string * nat).

(** What has been written: (barcode, read number, the 4 lines). *)
Definition output := list (string * nat * list string).

(** [for read_no, record in enumerate(fastq_record):
       self.fastq_file_writers[barcode][read_no].write_record(record)] *)
Fixpoint write_reads (fw : writers) (barcode : string) (read_no : nat)
    (reads : list (list string)) (out : output) : result output :=
  match reads with
  | [] => Ok out
  | record :: rest =>
      match assoc_get String.eqb fw barcode with
      | None => Err KeyError
      | Some nwriters =>
          if (read_no <? nwriters)%nat
          then write_reads fw barcode (S read_no) rest (out ++ [(barcode, read_no, record)])
          else Err IndexError
      end
  end.

(** [write_fastq_record] *)
Definition write_fastq_record (fw : writers) (barcode : string)
    (fastq_record : list (list string)) (out : output) : result output :=
  write_reads fw barcode O fastq_record out.

(** ** FastqDemultiplexer and FastqMismatchDemultiplexer *)

(** The fields of a demultiplexer fixed at construction. *)
Record engine : Type := mkEngine {
  fastq_writer : writers;
  unknown_barcode : string;
  mismatches : Z
}.

(** The state a run mutates: the results, the output written so far and
    the memo [self.mismatched_barcodes]. *)
Record state : Type := mkState {
  demultiplex_results : results;
  written : output;
  mismatched_barcodes : list (string * (string * Z * string))
}.

Definition fastq_record := list (list string).

(** [FastqDemultiplexer.demultiplex_record] *)
Definition demultiplex_record_exact (e : engine) (s : state)
    (record : fastq_record) (barcode : string) : result state :=
  let finish out :=
    Ok (mkState (add (demultiplex_results s) barcode 1 0) out (mismatched_barcodes s)) in
  match write_fastq_record (fastq_writer e) barcode record (written s) with
  | Ok out => finish out
  | Err KeyError =>
      match write_fastq_record (fastq_writer e) (unknown_barcode e) record (written s) with
      | Ok out => finish out
      | Err err => Err err
      end
  | Err err => Err err
  end.

(** [FastqMismatchDemultiplexer.match_mismatched_barcode]: resolve and
    store in the memo. *)
Definition match_mismatched_barcode (e : engine) (s : state) (barcode : string)
    : result state :=
  v <- mismatched_resolution (unknown_barcode e) (mismatches e)
         (mapping_keys (demultiplex_results s)) barcode ;;
  Ok (mkState (demultiplex_results s) (written s)
        (assoc_set String.eqb (mismatched_barcodes s) barcode v)).

(** [FastqMismatchDemultiplexer.demultiplex_record].  The [except KeyError]
    branch catches both a memo miss and a [KeyError] of the writer, then
    recurses; [fuel] is the remaining Python recursion depth. *)
Fixpoint demultiplex_record_mismatch (fuel : nat) (e : engine) (s : state)
    (record : fastq_record) (barcode : string) : result state :=
  match fuel with
  | O => Err RecursionError
  | S fuel' =>
      let on_key_error :=
        s' <- match_mismatched_barcode e s barcode ;;
        demultiplex_record_mismatch fuel' e s' record barcode in
      match assoc_get String.eqb (mismatched_barcodes s) barcode with
      | None => on_key_error
      | Some (matched, distance, counted) =>
          match write_fastq_record (fastq_writer e) matched record (written s) with
          | Ok out =>
              Ok (mkState (add (demultiplex_results s) counted 1 distance) out
                    (mismatched_barcodes s))
          | Err KeyError => on_key_error
          | Err err => Err err
          end
      end
  end.

(** CPython's default recursion limit. *)
Definition recursion_limit : nat := 1000.

Inductive demultiplexer : Type :=
| FastqDemultiplexer (e : engine)
| FastqMismatchDemultiplexer (e : engine).

(** [FastqDemultiplexer.create_fastq_demultiplexer] *)
Definition create_fastq_demultiplexer (fw : writers) (unknown : string)
    (mm : Z) : demultiplexer :=
  if Z.eqb mm 0 then FastqDemultiplexer (mkEngine fw unknown mm)
  else FastqMismatchDemultiplexer (mkEngine fw unknown mm).

(** [self.demultiplex_record], dispatched on the class. *)
Definition demultiplex_record (d : demultiplexer) (s : state)
    (record : fastq_record) (barcode : string) : result state :=
  match d with
  | FastqDemultiplexer e => demultiplex_record_exact e s record barcode
  | FastqMismatchDemultiplexer e =>
      demultiplex_record_mismatch recursion_limit e s record barcode
  end.

(** [demultiplex]: the loop over the records the parser yields. *)
Fixpoint demultiplex (d : demultiplexer) (s : state)
    (records : list (fastq_record * string)) : result state :=
  match records with
  | [] => Ok s
  | (record, barcode) :: rest =>
      s' <- demultiplex_record d s record barcode ;;
      demultiplex d s' rest
  end.

Definition init_state (barcode_to_sample_mapping : list (string * string)) : state :=
  mkState (init_results barcode_to_sample_mapping) [] [].

(** ** FastqFileParser *)

(** [str.isspace()] on the characters 0-255: tab to carriage return,
    the separators 28-31, space, NEL (133) and no-break space (160). *)
Definition is_space (c : ascii) : bool :=
  match nat_of_ascii c with
  | 9 | 10 | 11 | 12 | 13 | 28 | 29 | 30 | 31 | 32 | 133 | 160 => true
  | _ => false
  end%nat.

Fixpoint lstrip (s : string) : string :=
  match s with
  | String c rest => if is_space c then lstrip rest else s
  | EmptyString => EmptyString
  end.

(** [str.strip()]: whitespace removed at both ends. *)
Definition strip (s : string) : string :=
  string_of_list_ascii
    (rev (list_ascii_of_string
            (lstrip (string_of_list_ascii (rev (list_ascii_of_string (lstrip s))))))).

(** An open input file: its name and the lines still to be read. *)
Definition handle := (string * list string)%type.

(** [[next(handle).strip() for _ in range(k)]]; [None] is the
    [StopIteration], after which the handle is exhausted. *)
Fixpoint next_lines (k : nat) (lines : list string) : option (list string) * list string :=
  match k with
  | O => (Some [], lines)
  | S k' =>
      match lines with
      | [] => (None, [])
      | l :: rest =>
          let (r, rest') := next_lines k' rest in
          (option_map (cons (strip l)) r, rest')
      end
  end.

(** [record_from_handle] *)
Definition record_from_handle (h : handle) : option (list string) * handle :=
  let (r, rest) := next_lines 4 (snd h) in (r, (fst h, rest)).

(** [[self.record_from_handle(handle) for handle in handles]]: the handles
    are read in order, so on [StopIteration] the earlier ones have been
    advanced and the later ones are untouched. *)
Fixpoint records_from_list (hs : list handle) : option (list (list string)) * list handle :=
  match hs with
  | [] => (Some [], [])
  | h :: rest =>
      match record_from_handle h with
      | (None, h') => (None, h' :: rest)
      | (Some r, h') =>
          let (rs, rest') := records_from_list rest in
          (option_map (cons r) rs, h' :: rest')
      end
  end.

Inductive parser_class : Type :=
| FastqFileParserHeaderIndex
| FastqFileParserI1
| FastqFileParserI2.

Record fastq_parser : Type := mkParser {
  parser_kind : parser_class;
  fastq_r1 : handle;
  fastq_r2 : option handle;
  fastq_i1 : option handle;
  fastq_i2 : option handle
}.

(** [FastqFileParser.create_fastq_file_parser] *)
Definition create_fastq_file_parser (r1 : handle) (r2 i1 i2 : option handle) : fastq_parser :=
  match i1, i2 with
  | None, _ => mkParser FastqFileParserHeaderIndex r1 r2 None None
  | Some _, None => mkParser FastqFileParserI1 r1 r2 i1 None
  | Some _, Some _ => mkParser FastqFileParserI2 r1 r2 i1 i2
  end.

(** [get_file_handles]: the read handles and the index handles. *)
Definition get_file_handles (p : fastq_parser) : list handle * list handle :=
  ([fastq_r1 p] ++ match fastq_r2 p with Some h => [h] | None => [] end,
   match fastq_i1 p with Some h => [h] | None => [] end
   ++ match fastq_i2 p with Some h => [h] | None => [] end).

Definition last_str (l : list string) : string := last l EmptyString.

Definition seq_line (r : list string) : string := nth 1 r EmptyString.

(** [barcode_from_record] of each class. *)
Definition barcode_from_record (k : parser_class) (record : list (list string)) : string :=
  match k with
  | FastqFileParserHeaderIndex =>
      last_str (split ":"%char (nth 0 (nth 0 record []) EmptyString))
  | FastqFileParserI1 => seq_line (last record [])
  | FastqFileParserI2 =>
      String.append (seq_line (nth (length record - 2) record []))
        (String.append plus_str (seq_line (last record [])))
  end.

(** [records_from_handles]: the header-index class takes the barcode from
    the reads, the others read the index handles after the read handles. *)
Definition records_from_handles (k : parser_class) (read_handles index_handles : list handle)
    : option (fastq_record * string) * (list handle * list handle) :=
  match records_from_list read_handles with
  | (None, rh) => (None, (rh, index_handles))
  | (Some records, rh) =>
      match k with
      | FastqFileParserHeaderIndex =>
          (Some (records, barcode_from_record k records), (rh, index_handles))
      | _ =>
          match records_from_list index_handles with
          | (None, ih) => (None, (rh, ih))
          | (Some idx, ih) => (Some (records, barcode_from_record k idx), (rh, ih))
          end
      end
  end.

(** [_ensure_generator_empty] for every handle, as [all([...])] evaluates
    the whole list: one [next] per handle. *)
Definition ensure_filehandles_empty (hs : list handle) : bool :=
  forallb (fun h => match snd h with [] => true | _ => false end) hs.

(** The [while True: yield ...] loop; [fuel] bounds the iterations. *)
Fixpoint yield_records (fuel : nat) (k : parser_class) (rh ih : list handle)
    : list (fastq_record * string) * (list handle * list handle) :=
  match fuel with
  | O => ([], (rh, ih))
  | S fuel' =>
      match records_from_handles k rh ih with
      | (None, hs) => ([], hs)
      | (Some y, (rh', ih')) =>
          let (ys, hs) := yield_records fuel' k rh' ih' in (y :: ys, hs)
      end
  end.

Definition file_names (p : fastq_parser) : list string :=
  map fst ([fastq_r1 p] ++ match fastq_r2 p with Some h => [h] | None => [] end
           ++ match fastq_i1 p with Some h => [h] | None => [] end
           ++ match fastq_i2 p with Some h => [h] | None => [] end).

(** [fastq_records]: what the generator yields, then whether it ends by
    raising.  Every successful iteration consumes four lines of R1, so
    one more iteration than R1 has lines always reaches the
    [StopIteration]. *)
Definition fastq_records (p : fastq_parser) : list (fastq_record * string) * option error :=
  let (rh, ih) := get_file_handles p in
  let (ys, hs) := yield_records (S (length (snd (fastq_r1 p)))) (parser_kind p) rh ih in
  if ensure_filehandles_empty (fst hs ++ snd hs) then (ys, None)
  else (ys, Some (LengthMismatch (file_names p))).

(** ** DemultiplexResults.summarize_counts *)

(** Python floats are IEEE binary64 numbers: SpecFloat's [spec_float]
    with 53 bits of precision and exponents below 1024, rounding to
    nearest, ties to even. *)
Definition float_prec : Z := 53.
Definition float_emax : Z := 1024.

(** [float(z)]: the double nearest to [z], ties to even, as CPython's
    [PyLong_AsDouble] rounds; an infinity when that rounds past the
    largest double. *)
Definition float_of_int (z : Z) : spec_float :=
  binary_normalize float_prec float_emax z 0 false.

(** The conversion of an [int] operand of float arithmetic, which raises
    [OverflowError] where the rounded value is not finite. *)
Definition py_float (z : Z) : result spec_float :=
  match float_of_int z with
  | S754_infinity _ => Err OverflowError
  | f => Ok f
  end.

Definition float_zero : spec_float := S754_zero false.

(** Rounding [num / den] ([den > 0]) to an integer, ties to even. *)
Definition div_round_half_even (num den : Z) : Z :=
  let q := num / den in
  let rm := num mod den in
  if 2 * rm <? den then q
  else if den <? 2 * rm then q + 1
  else if Z.even q then q else q + 1.

(** The double nearest to [k / 10], ties to even, with the sign [s]: the
    division core of SpecFloat's [SFdiv] followed by its rounding. *)
Definition nearest_tenths (s : bool) (k : positive) : spec_float :=
  let '(q, e, l) := SFdiv_core_binary float_prec float_emax (Zpos k) 0 10 0 in
  binary_round_aux float_prec float_emax s q e l.

(** [round(x, 1)] for a float: CPython rounds the exact binary value of
    [x] to one decimal, ties to even, and returns the double nearest to
    that decimal.  A finite [x] with a nonnegative exponent is an integer
    and is returned unchanged, as are zeros, infinities and NaNs; a result
    of zero tenths keeps the sign of [x]. *)
Definition py_round1 (x : spec_float) : spec_float :=
  match x with
  | S754_finite s m ex =>
      if ex <? 0 then
        match div_round_half_even (Zpos m * 10) (2 ^ (- ex)) with
        | Zpos k => nearest_tenths s k
        | _ => S754_zero s
        end
      else x
  | _ => x
  end.

(** [round(100. * count / total, 1)]: [100. * count] converts [count],
    then [/ total] converts [total] and raises [ZeroDivisionError] when it
    is [0.0]. *)
Definition percent (count total : Z) : result spec_float :=
  c <- py_float count ;;
  t <- py_float total ;;
  if SFeqb t float_zero then Err ZeroDivisionError
  else Ok (py_round1 (SFdiv float_prec float_emax
                        (SFmul float_prec float_emax (float_of_int 100) c) t)).

(** The value [percent] computes once both conversions succeed. *)
Definition percent_value (count total : Z) : spec_float :=
  py_round1 (SFdiv float_prec float_emax
               (SFmul float_prec float_emax (float_of_int 100) (float_of_int count))
               (float_of_int total)).

(** [sum(floats)]: [0 + p1 + p2 + ...], each sum rounded (Python 3.11; from
    3.12 [sum] compensates the rounding errors). *)
Definition py_sum (l : list spec_float) : spec_float :=
  fold_left (SFadd float_prec float_emax) l float_zero.

(** [sorted(items, key=itemgetter(1), reverse=True)] is a stable sort:
    an element goes before the first one whose count is not larger. *)
Fixpoint insert_desc (x : string * Z) (l : list (string * Z)) : list (string * Z) :=
  match l with
  | [] => [x]
  | y :: rest => if snd y <=? snd x then x :: y :: rest else y :: insert_desc x rest
  end.

Fixpoint sort_desc (l : list (string * Z)) : list (string * Z) :=
  match l with
  | [] => []
  | x :: rest => insert_desc x (sort_desc rest)
  end.

(** [Counter.most_common(n)]: with [n] given, [heapq.nlargest], which is
    [sorted(...)[:n]] ([n <= 0] gives []). *)
Definition most_common (c : list (string * Z)) (n_values : option Z) : list (string * Z) :=
  match n_values with
  | None => sort_desc c
  | Some n => firstn (Z.to_nat n) (sort_desc c)
  end.

(** [summarize_counts(barcode_set, n_values)]: [total] is an [int] sum;
    the rows are computed in order and the first that raises ends the
    call. *)
Definition summarize_counts (r : results) (barcode_set : string) (n_values : option Z)
    : result (list (string * Z * spec_float)) :=
  let total := counter_total (barcode_counts r) in
  let counter :=
    if String.eqb barcode_set "known" then known_barcode_counts r
    else if String.eqb barcode_set "unknown" then unknown_barcode_counts r
    else barcode_counts r in
  map_result (fun p => pc <- percent (snd p) total ;; Ok (fst p, snd p, pc))
    (most_common counter n_values).

(** ** Observations used in the statements *)

(** [self.barcode_mismatches_count[barcode][str(distance)]], 0 when the
    barcode has no histogram. *)
Definition hist_get (r : results) (barcode : string) (distance : Z) : Z :=
  match assoc_get String.eqb (barcode_mismatches_count r) barcode with
  | Some c => counter_get Z.eqb c distance
  | None => 0
  end.

(** The histogram dict has exactly the keys of the mapping, as
    [__init__] builds it. *)
Definition hist_keys_ok (r : results) : Prop :=
  forall b, assoc_mem String.eqb (barcode_mismatches_count r) b = in_mapping r b.

(** Every memo entry is what [match_mismatched_barcode] computes for its
    key. *)
Definition memo_ok (e : engine) (s : state) : Prop :=
  forall b v, assoc_get String.eqb (mismatched_barcodes s) b = Some v ->
  mismatched_resolution (unknown_barcode e) (mismatches e)
    (mapping_keys (demultiplex_results s)) b = Ok v.

(** The counter [summarize_counts] reads for a [barcode_set]. *)
Definition barcode_set_counts (r : results) (barcode_set : string) : list (string * Z) :=
  if String.eqb barcode_set "known" then known_barcode_counts r
  else if String.eqb barcode_set "unknown" then unknown_barcode_counts r
  else barcode_counts r.

(** ** Sample inputs *)

Definition sample_read (name seq : string) : list string :=
  [String.append "@" (String.append name (String.append ":N:0:" seq)); seq; "+"; "IIII"]%string.

Definition sample_mapping : list (string * string) :=
  [("ACGT", "sample1"); ("Unknown", "barcode")]%string.

Definition sample_writers : writers := [("ACGT"%string, 1%nat); ("Unknown"%string, 1%nat)].

Definition sample_records : list (fastq_record * string) :=
  [([sample_read "r1" "ACGT"], "ACGT"); ([sample_read "r2" "ACGA"], "ACGA");
   ([sample_read "r3" "TTTT"], "TTTT")]%string.

Definition sample_engine : engine := mkEngine sample_writers "Unknown"%string 1.

(** The dual-index sample sheet of the repository's tests. *)
Definition dual_mapping : list (string * string) :=
  [("AAAAAA+BBBBBB", "sample_1"); ("BBBBBB+CCCCCC", "sample_2");
   ("BCBCBC+CBCBCB", "sample_3"); ("Unknown", "barcode")]%string.

Definition dual_engine : engine :=
  mkEngine (map (fun p => (fst p, 1%nat)) dual_mapping) "Unknown"%string 1.

(** Counts [{A: 2, B: 1}] over the mapping [{A, B}]. *)
Definition two_barcode_results : results :=
  mkResults [("A", "s1"); ("B", "s2")]%string [("A"%string, 2); ("B"%string, 1)]
    [("A"%string, []); ("B"%string, [])].

(** Counts [{A: 2, C: 1, B: 1}] over the mapping [{A, B}]: [C] is an
    unknown barcode. *)
Definition mixed_results : results :=
  mkResults [("A", "s1"); ("B", "s2")]%string [("A"%string, 2); ("C"%string, 1); ("B"%string, 1)]
    [("A"%string, [(0, 2)]); ("B"%string, [(0, 1)])].

(** One barcode counted [2^1024] times, as [add("A", n=2**1024)] leaves it. *)
Definition huge_count_results : results :=
  mkResults [] [("A"%string, 2 ^ 1024)] [].

(** Six barcodes counted once each, none of them in the mapping. *)
Definition six_barcode_results : results :=
  mkResults [] [("A"%string, 1); ("B"%string, 1); ("C"%string, 1);
                ("D"%string, 1); ("E"%string, 1); ("F"%string, 1)] [].

(** ** SampleSheetParser *)

Definition tab_char : ascii := "009"%char.
Definition newline_char : ascii := "010"%char.
Definition newline_str : string := String newline_char EmptyString.
Definition cr_char : ascii := "013"%char.

(** [pcs = [r.strip() for r in row.strip().split("\t")]] *)
Definition samplesheet_fields (row : string) : list string :=
  map strip (split tab_char (strip row)).

(** What one row contributes: [barcode_to_sample["+".join(pcs[1:])] = pcs[0]]
    when [len(pcs) > 1 and all([len(p) > 0 for p in pcs])], nothing
    otherwise. *)
Definition samplesheet_entry (row : string) : option (string * string) :=
  let pcs := samplesheet_fields row in
  if (1 <? length pcs)%nat && forallb (fun p => (0 <? String.length p)%nat) pcs
  then Some (join plus_str (tl pcs), hd EmptyString pcs)
  else None.

(** [get_barcode_to_sample_mapping], over the lines of the sample sheet. *)
Definition get_barcode_to_sample_mapping (rows : list string) : list (string * string) :=
  fold_left (fun m row =>
      match samplesheet_entry row with
      | Some (barcode, sample) => assoc_set String.eqb m barcode sample
      | None => m
      end) rows [].

(** ** DemultiplexResults.barcode_mismatch_counts and stats_json *)

(** [sum(l)] over [int]s *)
Definition sum_z (l : list Z) : Z := fold_left Z.add l 0.

(** [barcode_mismatch_counts(barcode)]: [int(str(d))] is [d]. *)
Definition barcode_mismatch_counts (r : results) (barcode : string) : result (list Z) :=
  match assoc_get String.eqb (barcode_mismatches_count r) barcode with
  | None => Err KeyError
  | Some c =>
      let max_distance := fold_left Z.max (map fst c) 0 in
      Ok (map (fun d => counter_get Z.eqb c (Z.of_nat d))
              (seq 0 (Z.to_nat (max_distance + 1))))
  end.

(** [_sample_to_barcode].  [sample_order] is the iteration order of
    [set(list(self.barcode_to_sample_mapping.values()))], which Python
    leaves unspecified (string hashes are randomised per process); the
    statements below hold for every such order. *)
Definition sample_to_barcode (r : results) (sample_order : list string)
    : result (list (string * list string)) :=
  fold_left (fun acc p =>
      d <- acc ;;
      match assoc_get String.eqb d (snd p) with
      | Some barcodes => Ok (assoc_set String.eqb d (snd p) (barcodes ++ [fst p]))
      | None => Err KeyError
      end)
    (barcode_to_sample_mapping r) (Ok (map (fun s => (s, [])) sample_order)).

Record index_metrics : Type := mkIndexMetrics {
  IndexSequence : string;
  (** [{str(distance): count}], keyed by the distance itself *)
  MismatchCounts : list (Z * Z)
}.

Record sample_result : Type := mkSampleResult {
  SampleId : string;
  NumberReads : Z;
  IndexMetrics : list index_metrics
}.

(** The dict [stats_json] returns. *)
Record stats : Type := mkStats {
  DemuxResults : list sample_result;
  Undetermined_NumberReads : Z;
  UnknownBarcodes : list (string * Z)
}.

(** [{str(distance): self.barcode_mismatches_count[barcode][str(distance)]
      for distance, count in enumerate(self.barcode_mismatch_counts(barcode))}] *)
Definition mismatch_counts_dict (r : results) (barcode : string) : result (list (Z * Z)) :=
  counts <- barcode_mismatch_counts r barcode ;;
  match assoc_get String.eqb (barcode_mismatches_count r) barcode with
  | Some c =>
      Ok (map (fun d => (Z.of_nat d, counter_get Z.eqb c (Z.of_nat d))) (seq 0 (length counts)))
  | None => Err KeyError
  end.

(** One element of [demux_results]. *)
Definition sample_result_of (r : results) (sample : string) (barcodes : list string)
    : result sample_result :=
  let number_reads := sum_z (map (counter_get String.eqb (barcode_counts r)) barcodes) in
  metrics <- map_result (fun barcode =>
                 mc <- mismatch_counts_dict r barcode ;;
                 Ok (mkIndexMetrics barcode mc)) barcodes ;;
  Ok (mkSampleResult sample number_reads metrics).

(** [stats_json] *)
Definition stats_json (r : results) (sample_order : list string) : result stats :=
  s2b <- sample_to_barcode r sample_order ;;
  demux_results <- map_result (fun p => sample_result_of r (fst p) (snd p)) s2b ;;
  Ok (mkStats demux_results (sum_z (map snd (unknown_barcode_counts r)))
        (unknown_barcode_counts r)).

(** ** FastqFileWriterHandler: file names *)

(** [s.endswith(suffix)] *)
Definition ends_with (suffix s : string) : bool :=
  (String.length suffix <=? String.length s)%nat &&
  String.eqb (substring (String.length s - String.length suffix) (String.length suffix) s)
    suffix.

(** [os.path.join(a, b)] on POSIX. *)
Definition path_join (a b : string) : string :=
  match b with
  | String "/"%char _ => b
  | _ =>
      if String.eqb a EmptyString || ends_with "/" a then String.append a b
      else String.append a (String.append "/" b)
  end.

(** [str.replace('+', '-')] *)
Fixpoint replace_plus (s : string) : string :=
  match s with
  | EmptyString => EmptyString
  | String c rest => String (if Ascii.eqb c plus_char then "-"%char else c) (replace_plus rest)
  end.

(** [str(n)] for a one-digit [n] (the read numbers 1 and 2). *)
Definition digit_str (n : nat) : string := String (ascii_of_nat (48 + n)) EmptyString.

(** [FastqFileParser.open_func]: [true] stands for [gzip.open], [false]
    for [open]. *)
Definition open_func (input_file : string) : bool :=
  existsb (fun ext => ends_with ext input_file) [".gz"; ".gzip"]%string.

(** A [FastqFileWriterHandler]; a [FastqFileWriter] is identified by the
    file it writes. *)
Record writer_handler : Type := mkWriterHandler {
  prefix : string;
  outdir : string;
  is_single_end : bool;
  no_gzip_compression : bool;
  fastq_file_writers : option (list (string * list string))
}.

(** [fastq_file_name_from_sample_id] *)
Definition fastq_file_name_from_sample_id (h : writer_handler) (sample_id barcode : string)
    : list string :=
  let ext := if negb (no_gzip_compression h) then "fastq.gz"%string else "fastq"%string in
  map (fun read_no =>
         path_join (outdir h)
           (String.append (prefix h) (String.append sample_id (String.append "_"
              (String.append (replace_plus barcode) (String.append "_R"
                 (String.append (digit_str read_no) (String.append "." ext))))))))
      (seq 1 (2 - (if is_single_end h then 1 else 0))).

(** [fastq_file_writers_from_mapping]: [if not self.fastq_file_writers]
    holds for [None] and for an empty dict. *)
Definition fastq_file_writers_from_mapping (h : writer_handler) (m : list (string * string))
    : writer_handler * list (string * list string) :=
  match fastq_file_writers h with
  | Some ((_ :: _) as fw) => (h, fw)
  | _ =>
      let fw := fold_left (fun d p =>
                  assoc_set String.eqb d (fst p)
                    (fastq_file_name_from_sample_id h (snd p) (fst p))) m [] in
      (mkWriterHandler (prefix h) (outdir h) (is_single_end h) (no_gzip_compression h)
         (Some fw), fw)
  end.

(** The writer counts per barcode that [write_fastq_record] consults. *)
Definition writer_counts (fw : list (string * list string)) : writers :=
  map (fun p => (fst p, length (snd p))) fw.

(** [FastqFileWriter.write_record]: the text ["\n".join(record + [""])]. *)
Definition write_record_text (record : list string) : string :=
  join newline_str (record ++ [EmptyString]).

(** Reading a file in text mode ([newline=None]): ["\r\n"] and a lone
    ["\r"] are read as ["\n"]. *)
Fixpoint translate_newlines (s : string) : string :=
  match s with
  | EmptyString => EmptyString
  | String c rest =>
      if Ascii.eqb c cr_char then
        String newline_char
          (translate_newlines
             (match rest with
              | String d rest' => if Ascii.eqb d newline_char then rest' else rest
              | EmptyString => rest
              end))
      else String c (translate_newlines rest)
  end.

(** Iterating over the translated text: its lines, each with its ["\n"],
    the last one without it when the text does not end in a newline. *)
Fixpoint file_lines_aux (s cur : string) : list string :=
  match s with
  | EmptyString => if String.eqb cur EmptyString then [] else [cur]
  | String c rest =>
      if Ascii.eqb c newline_char
      then String.append cur newline_str :: file_lines_aux rest EmptyString
      else file_lines_aux rest (String.append cur (String c EmptyString))
  end.

Definition file_lines (text : string) : list string :=
  file_lines_aux (translate_newlines text) EmptyString.

(** [concat] of the texts written one after the other to one file. *)
Fixpoint concat_str (l : list string) : string :=
  match l with
  | [] => EmptyString
  | x :: rest => String.append x (concat_str rest)
  end.

(** The entries the rows of a sample sheet contribute, in file order. *)
Definition samplesheet_entries (rows : list string) : list (string * string) :=
  flat_map (fun row => match samplesheet_entry row with Some e => [e] | None => [] end) rows.

(** A string that does not contain the character [c]. *)
Definition lacks (c : ascii) (s : string) : Prop := ~ In c (list_ascii_of_string s).

(** The histograms agree with the counts: the count table has distinct
    keys, and each histogram has distinct nonnegative distances whose
    counts sum to its barcode's count. *)
Definition hist_inv (r : results) : Prop :=
  NoDup (map fst (barcode_counts r)) /\
  forall b c, assoc_get String.eqb (barcode_mismatches_count r) b = Some c ->
    NoDup (map fst c) /\ Forall (fun d => 0 <= d) (map fst c) /\
    counter_total c = counter_get String.eqb (barcode_counts r) b.

(** The memo invariant, for the class that has a memo. *)
Definition run_memo_ok (d : demultiplexer) (s : state) : Prop :=
  match d with
  | FastqDemultiplexer _ => True
  | FastqMismatchDemultiplexer e => memo_ok e s
  end.

(** An input file given as its records, each a block of lines. *)
Definition block_file := (string * list (list string))%type.

Definition mk_handle (f : block_file) : handle := (fst f, concat (snd f)).

(** A file holding [n] complete four-line records. *)
Definition well_formed_file (n : nat) (f : block_file) : Prop :=
  length (snd f) = n /\ Forall (fun b => length b = 4%nat) (snd f).

(** The [i]-th record of each file, its lines stripped. *)
Definition nth_records (fs : list block_file) (i : nat) : list (list string) :=
  map (fun f => map strip (nth i (snd f) [])) fs.

Definition opt_list {A} (o : option A) : list A :=
  match o with Some x => [x] | None => [] end.

Definition is_header_kind (k : parser_class) : bool :=
  match k with FastqFileParserHeaderIndex => true | _ => false end.

(** Whether a path is absolute. *)
Definition starts_slash (b : string) : bool :=
  match b with
  | String c _ => Ascii.eqb c "/"%char
  | EmptyString => false
  end.

(** The relative file name the writer joins to the output directory. *)
Definition fastq_base_name (h : writer_handler) (sample_id barcode : string) (read_no : nat)
    : string :=
  let ext := if negb (no_gzip_compression h) then "fastq.gz"%string else "fastq"%string in
  String.append (prefix h) (String.append sample_id (String.append "_"
    (String.append (replace_plus barcode) (String.append "_R"
       (String.append (digit_str read_no) (String.append "." ext)))))).

(** ** The [demultiplex] command *)

(** [barcode_to_sample_mapping[unknown_barcode] = "barcode"] on the
    mapping read from the sample sheet. *)
Definition cli_mapping (rows : list string) (unknown_barcode : string) : list (string * string) :=
  assoc_set String.eqb (get_barcode_to_sample_mapping rows) unknown_barcode "barcode"%string.

(** The command: the writers built from the mapping, the parser, the
    exact-match demultiplexer and its loop; the error of the record
    generator, if any, is raised once its records have been handled.  The
    writing of the stats file and of the summaries is left out. *)
Definition cli_demultiplex (rows : list string) (prefix outdir unknown_barcode : string)
    (no_gzip_compression : bool) (r1 : handle) (r2 i1 i2 : option handle) : result state :=
  let m := cli_mapping rows unknown_barcode in
  let file_writer_handler :=
    mkWriterHandler prefix outdir (match r2 with None => true | Some _ => false end)
      no_gzip_compression None in
  let (_, fw) := fastq_file_writers_from_mapping file_writer_handler m in
  let (records, err) := fastq_records (create_fastq_file_parser r1 r2 i1 i2) in
  match demultiplex (FastqDemultiplexer (mkEngine (writer_counts fw) unknown_barcode 0))
          (init_state m) records with
  | Ok s => match err with None => Ok s | Some e => Err e end
  | Err e => Err e
  end.

(** What writing one record to the writers of [target] adds to the output:
    read [i] to writer [i]. *)
Definition record_writes (target : string) (record : fastq_record) : output :=
  map (fun p => (target, fst p, snd p)) (combine (seq 0 (length record)) record).

(** ** Lemmas on dicts and Counters *)

Section AssocLemmas.
Context {K V : Type} (eqb : K -> K -> bool).
Hypothesis eqb_spec : forall x y, reflect (x = y) (eqb x y).

Lemma assoc_get_set_same (m : list (K * V)) k v :
  assoc_get eqb (assoc_set eqb m k v) k = Some v.
Proof.
  induction m as [|[k' v'] m IH]; simpl.
  - destruct (eqb_spec k k); congruence.
  - destruct (eqb_spec k' k) as [->|Hne]; simpl.
    + destruct (eqb_spec k k); congruence.
    + destruct (eqb_spec k' k); [contradiction|exact IH].
Qed.

Lemma assoc_get_set_other (m : list (K * V)) k k' v :
  k' <> k -> assoc_get eqb (assoc_set eqb m k v) k' = assoc_get eqb m k'.
Proof.
  intros Hne. induction m as [|[k0 v0] m IH]; simpl.
  - destruct (eqb_spec k k'); congruence.
  - destruct (eqb_spec k0 k) as [->|Hk]; simpl.
    + destruct (eqb_spec k k'); congruence.
    + destruct (eqb_spec k0 k'); [reflexivity|exact IH].
Qed.

Lemma assoc_get_none_mem (m : list (K * V)) k :
  assoc_get eqb m k = None <-> assoc_mem eqb m k = false.
Proof.
  unfold assoc_mem. induction m as [|[k0 v0] m IH]; simpl.
  - tauto.
  - destruct (eqb k0 k); simpl; [split; discriminate|exact IH].
Qed.

Lemma assoc_get_filter (P : K -> bool) (m : list (K * V)) k :
  assoc_get eqb (filter (fun p => P (fst p)) m) k =
  if P k then assoc_get eqb m k else None.
Proof.
  induction m as [|[k0 v0] m IH]; simpl.
  - destruct (P k); reflexivity.
  - destruct (eqb_spec k0 k) as [->|Hne].
    + destruct (P k); simpl; [destruct (eqb_spec k k); congruence|exact IH].
    + destruct (P k0); simpl; [destruct (eqb_spec k0 k); [contradiction|]|]; exact IH.
Qed.
End AssocLemmas.

Section CounterLemmas.
Context {K : Type} (eqb : K -> K -> bool).
Hypothesis eqb_spec : forall x y, reflect (x = y) (eqb x y).

Lemma counter_get_add_same (c : list (K * Z)) k n :
  counter_get eqb (counter_add eqb c k n) k = counter_get eqb c k + n.
Proof.
  unfold counter_add, counter_get at 1.
  rewrite (assoc_get_set_same eqb eqb_spec). reflexivity.
Qed.

Lemma counter_get_add_other (c : list (K * Z)) k k' n :
  k' <> k -> counter_get eqb (counter_add eqb c k n) k' = counter_get eqb c k'.
Proof.
  intros Hne. unfold counter_add, counter_get at 1.
  rewrite (assoc_get_set_other eqb eqb_spec) by exact Hne. reflexivity.
Qed.

Lemma counter_total_add (c : list (K * Z)) k n :
  counter_total (counter_add eqb c k n) = counter_total c + n.
Proof.
  unfold counter_add, counter_get.
  induction c as [|[k0 v0] c IH]; simpl.
  - lia.
  - destruct (eqb k0 k); simpl.
    + lia.
    + rewrite IH. lia.
Qed.

Lemma counter_total_app (c1 c2 : list (K * Z)) :
  counter_total (c1 ++ c2) = counter_total c1 + counter_total c2.
Proof.
  induction c1 as [|p c1 IH]; simpl; [reflexivity|]. rewrite IH. lia.
Qed.

Lemma counter_total_perm (c1 c2 : list (K * Z)) :
  Permutation c1 c2 -> counter_total c1 = counter_total c2.
Proof.
  induction 1; simpl; lia.
Qed.
End CounterLemmas.

Lemma filter_partition_perm {A} (f : A -> bool) (l : list A) :
  Permutation (filter f l ++ filter (fun x => negb (f x)) l) l.
Proof.
  induction l as [|x l IH]; simpl; [constructor|].
  destruct (f x); simpl.
  - constructor. exact IH.
  - rewrite <- Permutation_middle. constructor. exact IH.
Qed.

Lemma string_eqb_spec : forall x y : string, reflect (x = y) (String.eqb x y).
Proof. exact String.eqb_spec. Qed.

Lemma z_eqb_spec : forall x y : Z, reflect (x = y) (Z.eqb x y).
Proof. exact Z.eqb_spec. Qed.

(** ** Hamming distance *)

Lemma hamming_distance_nonneg a b : 0 <= hamming_distance a b.
Proof.
  revert b. induction a as [|c a IH]; intros [|d b]; simpl; try lia.
  specialize (IH b). destruct (Ascii.eqb c d); lia.
Qed.

(** C7: the Hamming distance is symmetric, compares only the common
    prefix of the two strings, is zero exactly when the strings agree on
    that prefix, and [hamming_distance "ABCD" "ABC" = 0]. *)
Theorem hamming_distance_symmetric_prefix :
  (forall a b : string,
     hamming_distance a b = hamming_distance b a /\
     (hamming_distance a b = 0 <->
      substring 0 (Nat.min (String.length a) (String.length b)) a =
      substring 0 (Nat.min (String.length a) (String.length b)) b)) /\
  hamming_distance "ABCD"%string "ABC"%string = 0.
Proof.
  split; [|reflexivity].
  induction a as [|c a IH]; intros [|d b]; simpl.
  - split; [reflexivity|tauto].
  - split; [reflexivity|tauto].
  - split; [reflexivity|tauto].
  - destruct (IH b) as [Hsym Hzero].
    rewrite Hsym, (Ascii.eqb_sym d c).
    split; [reflexivity|].
    pose proof (hamming_distance_nonneg b a) as Hnn.
    destruct (Ascii.eqb_spec c d) as [->|Hne].
    + rewrite <- Hsym. rewrite Hzero. split.
      * intros ->. reflexivity.
      * intros H. injection H. tauto.
    + split; [lia|]. intros H. injection H. intros _ ->. contradiction.
Qed.

(** ** DemultiplexResults.add *)

Lemma init_results_hist_keys_ok m : hist_keys_ok (init_results m).
Proof.
  intros b. unfold in_mapping, assoc_mem. simpl.
  induction m as [|[k v] m IH]; simpl; [reflexivity|]. rewrite IH. reflexivity.
Qed.

(** C9: [add(barcode, n, distance)] always adds [n] to the raw count of
    [barcode] (and to no other count); it adds [n] to the histogram
    bucket [distance] of [barcode] (and nowhere else) when [barcode] is a
    key of the mapping, and leaves the histograms untouched otherwise.
    [add] is total: the ignored [KeyError] raises nothing. *)
Theorem add_counts_and_histogram (r : results) (barcode : string) (n distance : Z) :
  hist_keys_ok r ->
  let r' := add r barcode n distance in
  counter_get String.eqb (barcode_counts r') barcode =
    counter_get String.eqb (barcode_counts r) barcode + n /\
  (forall b, b <> barcode ->
     counter_get String.eqb (barcode_counts r') b = counter_get String.eqb (barcode_counts r) b) /\
  (in_mapping r barcode = true ->
     hist_get r' barcode distance = hist_get r barcode distance + n /\
     (forall b d, (b, d) <> (barcode, distance) -> hist_get r' b d = hist_get r b d)) /\
  (in_mapping r barcode = false ->
     barcode_mismatches_count r' = barcode_mismatches_count r).
Proof.
  intros Hkeys r'. subst r'.
  split; [apply (counter_get_add_same _ string_eqb_spec)|].
  split; [intros b Hb; apply (counter_get_add_other _ string_eqb_spec); exact Hb|].
  specialize (Hkeys barcode).
  unfold add, hist_get; simpl.
  split.
  - intros Hin. rewrite Hin in Hkeys.
    destruct (assoc_get String.eqb (barcode_mismatches_count r) barcode) as [c|] eqn:Hc.
    + rewrite (assoc_get_set_same _ string_eqb_spec).
      split; [apply (counter_get_add_same _ z_eqb_spec)|].
      intros b d Hbd.
      destruct (String.eqb_spec b barcode) as [->|Hb].
      * rewrite (assoc_get_set_same _ string_eqb_spec), Hc.
        apply (counter_get_add_other _ z_eqb_spec). congruence.
      * rewrite (assoc_get_set_other _ string_eqb_spec) by exact Hb. reflexivity.
    + apply (assoc_get_none_mem String.eqb) in Hc. congruence.
  - intros Hout. rewrite Hout in Hkeys.
    apply (assoc_get_none_mem String.eqb) in Hkeys. rewrite Hkeys. reflexivity.
Qed.

Lemma add_counts_and_histogram_witness :
  hist_keys_ok (init_results [("ACGT"%string, "sample1"%string)]) /\
  (let r' := add (init_results [("ACGT"%string, "sample1"%string)]) "ACGT"%string 1 2 in
   counter_get String.eqb (barcode_counts r') "ACGT"%string =
     counter_get String.eqb (barcode_counts (init_results [("ACGT"%string, "sample1"%string)])) "ACGT"%string + 1 /\
   (forall b, b <> "ACGT"%string ->
      counter_get String.eqb (barcode_counts r') b =
      counter_get String.eqb (barcode_counts (init_results [("ACGT"%string, "sample1"%string)])) b) /\
   (in_mapping (init_results [("ACGT"%string, "sample1"%string)]) "ACGT"%string = true ->
      hist_get r' "ACGT"%string 2 = hist_get (init_results [("ACGT"%string, "sample1"%string)]) "ACGT"%string 2 + 1 /\
      (forall b d, (b, d) <> ("ACGT"%string, 2) ->
         hist_get r' b d = hist_get (init_results [("ACGT"%string, "sample1"%string)]) b d)) /\
   (in_mapping (init_results [("ACGT"%string, "sample1"%string)]) "ACGT"%string = false ->
      barcode_mismatches_count r' =
      barcode_mismatches_count (init_results [("ACGT"%string, "sample1"%string)]))).
Proof.
  split.
  - apply init_results_hist_keys_ok.
  - apply (add_counts_and_histogram (init_results [("ACGT"%string, "sample1"%string)])
             "ACGT"%string 1 2).
    apply init_results_hist_keys_ok.
Defined.

(** ** Every processed record adds exactly one count *)

Lemma demultiplex_record_exact_results e s record barcode s' :
  demultiplex_record_exact e s record barcode = Ok s' ->
  demultiplex_results s' = add (demultiplex_results s) barcode 1 0.
Proof.
  unfold demultiplex_record_exact.
  destruct (write_fastq_record _ barcode _ _) as [out|[]]; try discriminate;
    [intros H; injection H as <-; reflexivity|].
  destruct (write_fastq_record _ (unknown_barcode e) _ _) as [out|err]; try discriminate.
  intros H; injection H as <-; reflexivity.
Qed.

Lemma match_mismatched_barcode_results e s barcode s' :
  match_mismatched_barcode e s barcode = Ok s' ->
  demultiplex_results s' = demultiplex_results s /\ written s' = written s.
Proof.
  unfold match_mismatched_barcode, bind.
  destruct (mismatched_resolution _ _ _ _); [|discriminate].
  intros H; injection H as <-. split; reflexivity.
Qed.

Lemma demultiplex_record_mismatch_results fuel e s record barcode s' :
  demultiplex_record_mismatch fuel e s record barcode = Ok s' ->
  exists counted distance,
    demultiplex_results s' = add (demultiplex_results s) counted 1 distance.
Proof.
  revert s. induction fuel as [|fuel IH]; intros s; simpl; [discriminate|].
  assert (Hkey : (s1 <- match_mismatched_barcode e s barcode ;;
                  demultiplex_record_mismatch fuel e s1 record barcode) = Ok s' ->
                 exists counted distance,
                   demultiplex_results s' = add (demultiplex_results s) counted 1 distance).
  { unfold bind at 1.
    destruct (match_mismatched_barcode e s barcode) as [s1|] eqn:Hm; [|discriminate].
    intros H. apply match_mismatched_barcode_results in Hm as [Hr _].
    rewrite <- Hr. exact (IH s1 H). }
  destruct (assoc_get _ _ barcode) as [[[matched distance] counted]|]; [|exact Hkey].
  destruct (write_fastq_record _ _ _ _) as [out|[]]; try discriminate; [|exact Hkey].
  intros H; injection H as <-. exists counted, distance. reflexivity.
Qed.

Lemma demultiplex_record_results d s record barcode s' :
  demultiplex_record d s record barcode = Ok s' ->
  exists counted distance,
    demultiplex_results s' = add (demultiplex_results s) counted 1 distance.
Proof.
  destruct d as [e|e]; unfold demultiplex_record.
  - intros H. apply demultiplex_record_exact_results in H. eauto.
  - apply demultiplex_record_mismatch_results.
Qed.

Lemma demultiplex_total d s records s' :
  demultiplex d s records = Ok s' ->
  counter_total (barcode_counts (demultiplex_results s')) =
    counter_total (barcode_counts (demultiplex_results s)) + Z.of_nat (length records) /\
  barcode_to_sample_mapping (demultiplex_results s') =
    barcode_to_sample_mapping (demultiplex_results s).
Proof.
  revert s. induction records as [|[record barcode] records IH]; intros s; simpl.
  - intros H; injection H as <-. split; [lia|reflexivity].
  - unfold bind at 1.
    destruct (demultiplex_record d s record barcode) as [s1|] eqn:Hrec; [|discriminate].
    intros H. destruct (IH s1 H) as [Htot Hmap].
    apply demultiplex_record_results in Hrec as (counted & distance & Hr).
    rewrite Hr in Htot, Hmap. unfold add in Htot, Hmap; simpl in Htot, Hmap.
    rewrite (counter_total_add String.eqb) in Htot. split; [lia|exact Hmap].
Qed.

(** C8: after any run of either demultiplexer from a fresh state, the
    known and unknown views partition the count table (each counted
    barcode lies in exactly one view, with its count, and the two views
    together are a permutation of the table), their totals add up to the
    grand total, and the grand total is the number of records processed. *)
Theorem demultiplex_counts_partition (d : demultiplexer)
    (m : list (string * string)) (records : list (fastq_record * string)) (s : state) :
  demultiplex d (init_state m) records = Ok s ->
  let r := demultiplex_results s in
  Permutation (known_barcode_counts r ++ unknown_barcode_counts r) (barcode_counts r) /\
  (forall b v, assoc_get String.eqb (barcode_counts r) b = Some v ->
     (assoc_get String.eqb (known_barcode_counts r) b = Some v /\
      assoc_get String.eqb (unknown_barcode_counts r) b = None) \/
     (assoc_get String.eqb (known_barcode_counts r) b = None /\
      assoc_get String.eqb (unknown_barcode_counts r) b = Some v)) /\
  counter_total (known_barcode_counts r) + counter_total (unknown_barcode_counts r) =
    counter_total (barcode_counts r) /\
  counter_total (barcode_counts r) = Z.of_nat (length records).
Proof.
  intros Hrun r.
  assert (Hperm : Permutation (known_barcode_counts r ++ unknown_barcode_counts r)
                    (barcode_counts r))
    by apply filter_partition_perm.
  split; [exact Hperm|].
  split.
  - intros b v Hb. unfold known_barcode_counts, unknown_barcode_counts.
    rewrite (assoc_get_filter String.eqb string_eqb_spec (in_mapping r)).
    rewrite (assoc_get_filter String.eqb string_eqb_spec (fun b => negb (in_mapping r b))).
    rewrite Hb. destruct (in_mapping r b); simpl; tauto.
  - split.
    + rewrite <- (counter_total_app (K:=string)).
      apply counter_total_perm. exact Hperm.
    + apply demultiplex_total in Hrun as [Htot _]. exact Htot.
Qed.

Lemma demultiplex_counts_partition_witness :
  exists s,
    demultiplex (create_fastq_demultiplexer sample_writers "Unknown"%string 1)
      (init_state sample_mapping) sample_records = Ok s /\
    (let r := demultiplex_results s in
     Permutation (known_barcode_counts r ++ unknown_barcode_counts r) (barcode_counts r) /\
     (forall b v, assoc_get String.eqb (barcode_counts r) b = Some v ->
        (assoc_get String.eqb (known_barcode_counts r) b = Some v /\
         assoc_get String.eqb (unknown_barcode_counts r) b = None) \/
        (assoc_get String.eqb (known_barcode_counts r) b = None /\
         assoc_get String.eqb (unknown_barcode_counts r) b = Some v)) /\
     counter_total (known_barcode_counts r) + counter_total (unknown_barcode_counts r) =
       counter_total (barcode_counts r) /\
     counter_total (barcode_counts r) = Z.of_nat (length sample_records)).
Proof.
  eexists. split.
  - reflexivity.
  - apply (demultiplex_counts_partition
             (create_fastq_demultiplexer sample_writers "Unknown"%string 1)
             sample_mapping sample_records).
    reflexivity.
Defined.

(** ** The memo of FastqMismatchDemultiplexer *)

Lemma match_mismatched_barcode_memo e s barcode s1 :
  memo_ok e s -> match_mismatched_barcode e s barcode = Ok s1 ->
  memo_ok e s1 /\
  (forall b v, assoc_get String.eqb (mismatched_barcodes s) b = Some v ->
               assoc_get String.eqb (mismatched_barcodes s1) b = Some v) /\
  demultiplex_results s1 = demultiplex_results s /\ written s1 = written s.
Proof.
  intros Hok. unfold match_mismatched_barcode, bind.
  destruct (mismatched_resolution _ _ _ barcode) as [v|] eqn:Hv; [|discriminate].
  intros H; injection H as <-. simpl.
  split; [|split; [|split; reflexivity]].
  - intros b w Hb. cbn [demultiplex_results mismatched_barcodes] in *.
    destruct (String.eqb_spec b barcode) as [->|Hne].
    + rewrite (assoc_get_set_same _ string_eqb_spec) in Hb. congruence.
    + rewrite (assoc_get_set_other _ string_eqb_spec) in Hb by exact Hne. apply Hok, Hb.
  - intros b w Hb.
    destruct (String.eqb_spec b barcode) as [->|Hne].
    + rewrite (assoc_get_set_same _ string_eqb_spec).
      apply Hok in Hb. congruence.
    + rewrite (assoc_get_set_other _ string_eqb_spec) by exact Hne. exact Hb.
Qed.

Lemma demultiplex_record_mismatch_memo fuel e s record barcode s' :
  memo_ok e s -> demultiplex_record_mismatch fuel e s record barcode = Ok s' ->
  memo_ok e s' /\
  (forall b v, assoc_get String.eqb (mismatched_barcodes s) b = Some v ->
               assoc_get String.eqb (mismatched_barcodes s') b = Some v) /\
  barcode_to_sample_mapping (demultiplex_results s') =
    barcode_to_sample_mapping (demultiplex_results s) /\
  exists matched distance counted,
    mismatched_resolution (unknown_barcode e) (mismatches e)
      (mapping_keys (demultiplex_results s)) barcode = Ok (matched, distance, counted) /\
    assoc_get String.eqb (mismatched_barcodes s') barcode = Some (matched, distance, counted) /\
    demultiplex_results s' = add (demultiplex_results s) counted 1 distance /\
    write_fastq_record (fastq_writer e) matched record (written s) = Ok (written s').
Proof.
  revert s. induction fuel as [|fuel IH]; intros s Hok; simpl; [discriminate|].
  set (goal := fun s' : state =>
    memo_ok e s' /\
    (forall b v, assoc_get String.eqb (mismatched_barcodes s) b = Some v ->
                 assoc_get String.eqb (mismatched_barcodes s') b = Some v) /\
    barcode_to_sample_mapping (demultiplex_results s') =
      barcode_to_sample_mapping (demultiplex_results s) /\
    exists matched distance counted,
      mismatched_resolution (unknown_barcode e) (mismatches e)
        (mapping_keys (demultiplex_results s)) barcode = Ok (matched, distance, counted) /\
      assoc_get String.eqb (mismatched_barcodes s') barcode = Some (matched, distance, counted) /\
      demultiplex_results s' = add (demultiplex_results s) counted 1 distance /\
      write_fastq_record (fastq_writer e) matched record (written s) = Ok (written s')).
  assert (Hkey : (s1 <- match_mismatched_barcode e s barcode ;;
                  demultiplex_record_mismatch fuel e s1 record barcode) = Ok s' -> goal s').
  { unfold bind at 1.
    destruct (match_mismatched_barcode e s barcode) as [s1|] eqn:Hm; [|discriminate].
    intros H.
    destruct (match_mismatched_barcode_memo e s barcode s1 Hok Hm)
      as (Hok1 & Hmono1 & Hr1 & Hw1).
    destruct (IH s1 Hok1 H) as (Hok' & Hmono' & Hmap' & rest).
    rewrite Hr1, Hw1 in rest. rewrite Hr1 in Hmap'.
    split; [exact Hok'|]. split; [intros b v Hb; apply Hmono', Hmono1, Hb|].
    split; [exact Hmap'|exact rest]. }
  destruct (assoc_get String.eqb (mismatched_barcodes s) barcode)
    as [[[matched distance] counted]|] eqn:Hhit; [|exact Hkey].
  destruct (write_fastq_record (fastq_writer e) matched record (written s))
    as [out|[]] eqn:Hw; try discriminate; [|exact Hkey].
  intros H; injection H as <-.
  split; [exact Hok|]. split; [tauto|]. split; [reflexivity|].
  exists matched, distance, counted.
  split; [apply Hok, Hhit|]. split; [exact Hhit|]. split; [reflexivity|exact Hw].
Qed.

(** C6: with a fixed configuration, a successful mismatch-tolerant
    [demultiplex_record] step keeps the memo correct (each entry is what
    [match_mismatched_barcode] computes for its key), only adds to it
    (no entry is removed or changed), and resolves the barcode to that
    same triple [(matched_barcode, distance, counted_barcode)], writing to
    [matched_barcode]'s sink and counting [counted_barcode] with
    [distance]; so resolving an observed barcode again yields the same
    triple. *)
Theorem mismatch_memo_idempotent (e : engine) (s : state) (record : fastq_record)
    (barcode : string) (s1 s2 : state) :
  memo_ok e s ->
  demultiplex_record_mismatch recursion_limit e s record barcode = Ok s1 ->
  demultiplex_record_mismatch recursion_limit e s1 record barcode = Ok s2 ->
  memo_ok e s1 /\ memo_ok e s2 /\
  (forall b v, assoc_get String.eqb (mismatched_barcodes s) b = Some v ->
     assoc_get String.eqb (mismatched_barcodes s1) b = Some v /\
     assoc_get String.eqb (mismatched_barcodes s2) b = Some v) /\
  exists matched distance counted,
    mismatched_resolution (unknown_barcode e) (mismatches e)
      (mapping_keys (demultiplex_results s)) barcode = Ok (matched, distance, counted) /\
    assoc_get String.eqb (mismatched_barcodes s1) barcode = Some (matched, distance, counted) /\
    assoc_get String.eqb (mismatched_barcodes s2) barcode = Some (matched, distance, counted) /\
    demultiplex_results s1 = add (demultiplex_results s) counted 1 distance /\
    demultiplex_results s2 = add (demultiplex_results s1) counted 1 distance /\
    write_fastq_record (fastq_writer e) matched record (written s) = Ok (written s1) /\
    write_fastq_record (fastq_writer e) matched record (written s1) = Ok (written s2).
Proof.
  intros Hok H1 H2.
  destruct (demultiplex_record_mismatch_memo _ _ _ _ _ _ Hok H1)
    as (Hok1 & Hmono1 & Hmap1 & m1 & d1 & c1 & Hres1 & Hget1 & Hr1 & Hw1).
  destruct (demultiplex_record_mismatch_memo _ _ _ _ _ _ Hok1 H2)
    as (Hok2 & Hmono2 & Hmap2 & m2 & d2 & c2 & Hres2 & Hget2 & Hr2 & Hw2).
  assert (Hkeys : mapping_keys (demultiplex_results s1) = mapping_keys (demultiplex_results s))
    by (unfold mapping_keys; rewrite Hmap1; reflexivity).
  rewrite Hkeys, Hres1 in Hres2. injection Hres2 as <- <- <-.
  split; [exact Hok1|]. split; [exact Hok2|].
  split; [intros b v Hb; split; [apply Hmono1, Hb|apply Hmono2, Hmono1, Hb]|].
  exists m1, d1, c1. repeat split; assumption.
Qed.

Lemma mismatch_memo_idempotent_witness :
  memo_ok sample_engine (init_state sample_mapping) /\
  exists s1 s2,
    demultiplex_record_mismatch recursion_limit sample_engine (init_state sample_mapping)
      [sample_read "r2" "ACGA"] "ACGA"%string = Ok s1 /\
    demultiplex_record_mismatch recursion_limit sample_engine s1
      [sample_read "r2" "ACGA"] "ACGA"%string = Ok s2 /\
    (memo_ok sample_engine s1 /\ memo_ok sample_engine s2 /\
     (forall b v,
        assoc_get String.eqb (mismatched_barcodes (init_state sample_mapping)) b = Some v ->
        assoc_get String.eqb (mismatched_barcodes s1) b = Some v /\
        assoc_get String.eqb (mismatched_barcodes s2) b = Some v) /\
     exists matched distance counted,
       mismatched_resolution (unknown_barcode sample_engine) (mismatches sample_engine)
         (mapping_keys (demultiplex_results (init_state sample_mapping))) "ACGA"%string =
         Ok (matched, distance, counted) /\
       assoc_get String.eqb (mismatched_barcodes s1) "ACGA"%string =
         Some (matched, distance, counted) /\
       assoc_get String.eqb (mismatched_barcodes s2) "ACGA"%string =
         Some (matched, distance, counted) /\
       demultiplex_results s1 =
         add (demultiplex_results (init_state sample_mapping)) counted 1 distance /\
       demultiplex_results s2 = add (demultiplex_results s1) counted 1 distance /\
       write_fastq_record (fastq_writer sample_engine) matched [sample_read "r2" "ACGA"]
         (written (init_state sample_mapping)) = Ok (written s1) /\
       write_fastq_record (fastq_writer sample_engine) matched [sample_read "r2" "ACGA"]
         (written s1) = Ok (written s2)).
Proof.
  assert (H0 : memo_ok sample_engine (init_state sample_mapping))
    by (intros b v H; discriminate H).
  split; [exact H0|].
  eexists; eexists. split; [reflexivity|]. split; [reflexivity|].
  apply (mismatch_memo_idempotent sample_engine (init_state sample_mapping)
           [sample_read "r2" "ACGA"] "ACGA"%string); [exact H0|reflexivity|reflexivity].
Defined.

(** C2: when the ["+"]-join of the per-segment matches is not a key of
    the mapping, the barcode resolves to [(unknown_barcode, 0, barcode)];
    a successful mismatch-tolerant step then writes the record to the
    unknown sentinel's sink and counts the observed barcode itself, with
    distance 0. *)
Theorem mismatch_unmatched_join_is_unknown (e : engine) (s : state)
    (barcode : string) (matched_key : list string) (distance : Z) :
  match_segments (unknown_barcode e) (mismatches e) (mapping_keys (demultiplex_results s))
    O (split plus_char barcode) [] 0 = Ok (matched_key, distance) ->
  existsb (String.eqb (join plus_str matched_key)) (mapping_keys (demultiplex_results s)) = false ->
  mismatched_resolution (unknown_barcode e) (mismatches e)
    (mapping_keys (demultiplex_results s)) barcode = Ok (unknown_barcode e, 0, barcode) /\
  (memo_ok e s -> forall fuel record s',
     demultiplex_record_mismatch fuel e s record barcode = Ok s' ->
     demultiplex_results s' = add (demultiplex_results s) barcode 1 0 /\
     write_fastq_record (fastq_writer e) (unknown_barcode e) record (written s) = Ok (written s')).
Proof.
  intros Hseg Hjoin.
  assert (Hres : mismatched_resolution (unknown_barcode e) (mismatches e)
                   (mapping_keys (demultiplex_results s)) barcode =
                 Ok (unknown_barcode e, 0, barcode)).
  { unfold mismatched_resolution. rewrite Hseg. simpl. rewrite Hjoin. reflexivity. }
  split; [exact Hres|].
  intros Hok fuel record s' Hstep.
  destruct (demultiplex_record_mismatch_memo _ _ _ _ _ _ Hok Hstep)
    as (_ & _ & _ & m & d & c & Hres' & _ & Hr & Hw).
  rewrite Hres in Hres'. injection Hres' as <- <- <-.
  split; assumption.
Qed.

Lemma mismatch_unmatched_join_is_unknown_witness :
  match_segments (unknown_barcode dual_engine) (mismatches dual_engine)
    (mapping_keys (demultiplex_results (init_state dual_mapping)))
    O (split plus_char "BBCCBB+CCCCCC"%string) [] 0 = Ok (["";"CCCCCC"]%string, 0) /\
  existsb (String.eqb (join plus_str ["";"CCCCCC"]%string))
    (mapping_keys (demultiplex_results (init_state dual_mapping))) = false /\
  mismatched_resolution (unknown_barcode dual_engine) (mismatches dual_engine)
    (mapping_keys (demultiplex_results (init_state dual_mapping))) "BBCCBB+CCCCCC"%string =
    Ok (unknown_barcode dual_engine, 0, "BBCCBB+CCCCCC"%string) /\
  (memo_ok dual_engine (init_state dual_mapping) -> forall fuel record s',
     demultiplex_record_mismatch fuel dual_engine (init_state dual_mapping) record
       "BBCCBB+CCCCCC"%string = Ok s' ->
     demultiplex_results s' =
       add (demultiplex_results (init_state dual_mapping)) "BBCCBB+CCCCCC"%string 1 0 /\
     write_fastq_record (fastq_writer dual_engine) (unknown_barcode dual_engine) record
       (written (init_state dual_mapping)) = Ok (written s')).
Proof.
  split; [reflexivity|]. split; [reflexivity|].
  apply (mismatch_unmatched_join_is_unknown dual_engine (init_state dual_mapping)
           "BBCCBB+CCCCCC"%string ["";"CCCCCC"]%string 0); reflexivity.
Defined.

(** ** FastqDemultiplexer.demultiplex_record *)

Lemma write_reads_ok fw barcode nwriters read_no reads out :
  assoc_get String.eqb fw barcode = Some nwriters ->
  (read_no + length reads <= nwriters)%nat ->
  exists out', write_reads fw barcode read_no reads out = Ok out'.
Proof.
  intros Hget. revert read_no out.
  induction reads as [|r reads IH]; intros read_no out Hlen; cbn [write_reads]; [eauto|].
  rewrite Hget. simpl in Hlen.
  destruct (Nat.ltb_spec read_no nwriters); [|lia].
  apply IH. lia.
Qed.

Lemma write_fastq_record_missing fw barcode record out :
  assoc_mem String.eqb fw barcode = false -> record <> [] ->
  write_fastq_record fw barcode record out = Err KeyError.
Proof.
  intros Hmem Hne. apply (assoc_get_none_mem String.eqb) in Hmem.
  destruct record as [|r rest]; [congruence|].
  unfold write_fastq_record. cbn [write_reads]. rewrite Hmem. reflexivity.
Qed.

Lemma write_fastq_record_present fw barcode record out :
  assoc_mem String.eqb fw barcode = true ->
  (forall b n, assoc_get String.eqb fw b = Some n -> (length record <= n)%nat) ->
  exists out', write_fastq_record fw barcode record out = Ok out'.
Proof.
  intros Hmem Hlen.
  destruct (assoc_get String.eqb fw barcode) as [n|] eqn:Hget.
  - apply (write_reads_ok _ _ n); [exact Hget|]. simpl. apply (Hlen barcode), Hget.
  - apply (assoc_get_none_mem String.eqb) in Hget. congruence.
Qed.

(** One step of the exact-match demultiplexer: the record goes to the
    observed barcode's sink when one is registered, otherwise to the
    unknown sentinel's sink, and the observed barcode is counted with
    distance 0. *)
Lemma exact_step fw unknown s record barcode :
  record <> [] ->
  (forall b n, assoc_get String.eqb fw b = Some n -> (length record <= n)%nat) ->
  assoc_mem String.eqb fw unknown = true ->
  exists s',
    demultiplex_record (create_fastq_demultiplexer fw unknown 0) s record barcode = Ok s' /\
    write_fastq_record fw (if assoc_mem String.eqb fw barcode then barcode else unknown)
      record (written s) = Ok (written s') /\
    demultiplex_results s' = add (demultiplex_results s) barcode 1 0.
Proof.
  intros Hne Hlen Hunk. simpl. unfold demultiplex_record_exact. simpl.
  destruct (assoc_mem String.eqb fw barcode) eqn:Hmem.
  - destruct (write_fastq_record_present fw barcode record (written s) Hmem Hlen) as [out Hw].
    rewrite Hw. eexists. split; [reflexivity|]. split; reflexivity.
  - rewrite (write_fastq_record_missing fw barcode record (written s) Hmem Hne).
    destruct (write_fastq_record_present fw unknown record (written s) Hunk Hlen) as [out Hw].
    rewrite Hw. eexists. split; [reflexivity|]. split; reflexivity.
Qed.

Lemma counter_get_filter_key (P : string -> bool) (c : list (string * Z)) b :
  counter_get String.eqb (filter (fun p => P (fst p)) c) b =
  if P b then counter_get String.eqb c b else 0.
Proof.
  unfold counter_get. rewrite (assoc_get_filter String.eqb string_eqb_spec P).
  destruct (P b); reflexivity.
Qed.

(** C3 (as amended): with [mismatches = 0], a record (one or two reads,
    every registered sink having a writer per read, the unknown sentinel
    having a sink) is written to the sink registered for the observed
    barcode if there is one, and to the unknown sentinel's sink
    otherwise; either way the observed barcode is counted with distance
    0.  When the sinks are registered exactly for the mapping's keys and
    the sentinel (the set-up of the command line), the sink is the
    observed barcode's exactly when it is a key of the mapping. *)
Theorem exact_record_sink_and_count (fw : writers) (unknown : string) (s : state)
    (record : fastq_record) (barcode : string) :
  record <> [] ->
  (forall b n, assoc_get String.eqb fw b = Some n -> (length record <= n)%nat) ->
  assoc_mem String.eqb fw unknown = true ->
  let sink := if assoc_mem String.eqb fw barcode then barcode else unknown in
  exists s',
    demultiplex_record (create_fastq_demultiplexer fw unknown 0) s record barcode = Ok s' /\
    write_fastq_record fw sink record (written s) = Ok (written s') /\
    demultiplex_results s' = add (demultiplex_results s) barcode 1 0 /\
    ((forall b, assoc_mem String.eqb fw b =
                in_mapping (demultiplex_results s) b || String.eqb b unknown) ->
     sink = if in_mapping (demultiplex_results s) barcode then barcode else unknown).
Proof.
  intros Hne Hlen Hunk sink.
  destruct (exact_step fw unknown s record barcode Hne Hlen Hunk) as (s' & Hrun & Hw & Hr).
  exists s'. split; [exact Hrun|]. split; [exact Hw|]. split; [exact Hr|].
  intros Hsetup. subst sink. rewrite Hsetup.
  destruct (in_mapping (demultiplex_results s) barcode); simpl; [reflexivity|].
  destruct (String.eqb_spec barcode unknown); congruence.
Qed.

Lemma exact_record_sink_and_count_witness :
  [sample_read "r1" "ACGT"] <> [] /\
  (forall b n, assoc_get String.eqb sample_writers b = Some n ->
               (length [sample_read "r1" "ACGT"] <= n)%nat) /\
  assoc_mem String.eqb sample_writers "Unknown"%string = true /\
  (let sink := if assoc_mem String.eqb sample_writers "TTTT"%string then "TTTT"%string
               else "Unknown"%string in
   exists s',
     demultiplex_record (create_fastq_demultiplexer sample_writers "Unknown"%string 0)
       (init_state sample_mapping) [sample_read "r1" "ACGT"] "TTTT"%string = Ok s' /\
     write_fastq_record sample_writers sink [sample_read "r1" "ACGT"]
       (written (init_state sample_mapping)) = Ok (written s') /\
     demultiplex_results s' =
       add (demultiplex_results (init_state sample_mapping)) "TTTT"%string 1 0 /\
     ((forall b, assoc_mem String.eqb sample_writers b =
                 in_mapping (demultiplex_results (init_state sample_mapping)) b
                 || String.eqb b "Unknown"%string) ->
      sink = if in_mapping (demultiplex_results (init_state sample_mapping)) "TTTT"%string
             then "TTTT"%string else "Unknown"%string)).
Proof.
  assert (Hlen : forall b n, assoc_get String.eqb sample_writers b = Some n ->
                             (length [sample_read "r1" "ACGT"] <= n)%nat).
  { intros b n Hb. unfold sample_writers in Hb. cbn [assoc_get] in Hb.
    destruct (String.eqb "ACGT" b); [injection Hb as <-; simpl; lia|].
    destruct (String.eqb "Unknown" b); [injection Hb as <-; simpl; lia|discriminate]. }
  split; [discriminate|]. split; [exact Hlen|]. split; [reflexivity|].
  apply exact_record_sink_and_count; [discriminate|exact Hlen|reflexivity].
Defined.

(** C3 as stated fails: with [mismatches = 0], a barcode that is not a
    key of the mapping but has a registered sink is written to its own
    sink, not to the unknown sentinel's. *)
Lemma exact_record_sink_counterexample :
  in_mapping (init_results []) "ACGT"%string = false /\
  demultiplex_record (create_fastq_demultiplexer sample_writers "Unknown"%string 0)
    (init_state []) [sample_read "r1" "ACGT"] "ACGT"%string =
  Ok (mkState (add (init_results []) "ACGT"%string 1 0)
        [("ACGT"%string, O, sample_read "r1" "ACGT")] []) /\
  "ACGT"%string <> "Unknown"%string.
Proof.
  split; [reflexivity|]. split; [reflexivity|discriminate].
Qed.

(** C4 (as amended, for the exact-match demultiplexer): when no sink is
    registered for the observed barcode, the record is written to the
    unknown sentinel's sink and the step succeeds; the count goes to the
    observed barcode itself, which is in the unknown view exactly when
    it is not a key of the mapping. *)
Theorem exact_missing_sink_fallback (fw : writers) (unknown : string) (s : state)
    (record : fastq_record) (barcode : string) :
  record <> [] ->
  (forall b n, assoc_get String.eqb fw b = Some n -> (length record <= n)%nat) ->
  assoc_mem String.eqb fw unknown = true ->
  assoc_mem String.eqb fw barcode = false ->
  exists s',
    demultiplex_record (create_fastq_demultiplexer fw unknown 0) s record barcode = Ok s' /\
    write_fastq_record fw unknown record (written s) = Ok (written s') /\
    demultiplex_results s' = add (demultiplex_results s) barcode 1 0 /\
    counter_get String.eqb (unknown_barcode_counts (demultiplex_results s')) barcode =
      counter_get String.eqb (unknown_barcode_counts (demultiplex_results s)) barcode
      + (if in_mapping (demultiplex_results s) barcode then 0 else 1) /\
    counter_get String.eqb (known_barcode_counts (demultiplex_results s')) barcode =
      counter_get String.eqb (known_barcode_counts (demultiplex_results s)) barcode
      + (if in_mapping (demultiplex_results s) barcode then 1 else 0).
Proof.
  intros Hne Hlen Hunk Hmiss.
  destruct (exact_step fw unknown s record barcode Hne Hlen Hunk) as (s' & Hrun & Hw & Hr).
  rewrite Hmiss in Hw.
  exists s'. split; [exact Hrun|]. split; [exact Hw|]. split; [exact Hr|].
  unfold unknown_barcode_counts, known_barcode_counts.
  rewrite !(counter_get_filter_key (fun b => negb (in_mapping _ b))).
  rewrite !(counter_get_filter_key (fun b => in_mapping _ b)).
  rewrite Hr.
  assert (Hm : in_mapping (add (demultiplex_results s) barcode 1 0) barcode =
               in_mapping (demultiplex_results s) barcode) by reflexivity.
  assert (Hc : barcode_counts (add (demultiplex_results s) barcode 1 0) =
               counter_add String.eqb (barcode_counts (demultiplex_results s)) barcode 1)
    by reflexivity.
  rewrite Hm, Hc, (counter_get_add_same _ string_eqb_spec).
  destruct (in_mapping (demultiplex_results s) barcode); simpl; split; lia.
Qed.

Lemma exact_missing_sink_fallback_witness :
  [sample_read "r1" "ACGT"] <> [] /\
  (forall b n, assoc_get String.eqb [("Unknown"%string, 1%nat)] b = Some n ->
               (length [sample_read "r1" "ACGT"] <= n)%nat) /\
  assoc_mem String.eqb [("Unknown"%string, 1%nat)] "Unknown"%string = true /\
  assoc_mem String.eqb [("Unknown"%string, 1%nat)] "ACGT"%string = false /\
  exists s',
    demultiplex_record (create_fastq_demultiplexer [("Unknown"%string, 1%nat)] "Unknown"%string 0)
      (init_state sample_mapping) [sample_read "r1" "ACGT"] "ACGT"%string = Ok s' /\
    write_fastq_record [("Unknown"%string, 1%nat)] "Unknown"%string [sample_read "r1" "ACGT"]
      (written (init_state sample_mapping)) = Ok (written s') /\
    demultiplex_results s' =
      add (demultiplex_results (init_state sample_mapping)) "ACGT"%string 1 0 /\
    counter_get String.eqb (unknown_barcode_counts (demultiplex_results s')) "ACGT"%string =
      counter_get String.eqb
        (unknown_barcode_counts (demultiplex_results (init_state sample_mapping))) "ACGT"%string
      + (if in_mapping (demultiplex_results (init_state sample_mapping)) "ACGT"%string
         then 0 else 1) /\
    counter_get String.eqb (known_barcode_counts (demultiplex_results s')) "ACGT"%string =
      counter_get String.eqb
        (known_barcode_counts (demultiplex_results (init_state sample_mapping))) "ACGT"%string
      + (if in_mapping (demultiplex_results (init_state sample_mapping)) "ACGT"%string
         then 1 else 0).
Proof.
  assert (Hlen : forall b n, assoc_get String.eqb [("Unknown"%string, 1%nat)] b = Some n ->
                             (length [sample_read "r1" "ACGT"] <= n)%nat).
  { intros b n Hb. cbn [assoc_get] in Hb.
    destruct (String.eqb "Unknown" b); [injection Hb as <-; simpl; lia|discriminate]. }
  split; [discriminate|]. split; [exact Hlen|]. split; [reflexivity|]. split; [reflexivity|].
  apply exact_missing_sink_fallback; [discriminate|exact Hlen|reflexivity|reflexivity].
Defined.

(** C4 as stated fails: the missing sink of a barcode that is a key of
    the mapping sends the record to the unknown sentinel's sink, but the
    barcode is counted in the known view, not as unknown. *)
Lemma exact_missing_sink_counterexample :
  exists s',
    demultiplex_record (create_fastq_demultiplexer [("Unknown"%string, 1%nat)] "Unknown"%string 0)
      (init_state [("ACGT"%string, "sample1"%string)]) [sample_read "r1" "ACGT"] "ACGT"%string
      = Ok s' /\
    written s' = [("Unknown"%string, O, sample_read "r1" "ACGT")] /\
    unknown_barcode_counts (demultiplex_results s') = [] /\
    known_barcode_counts (demultiplex_results s') = [("ACGT"%string, 1)].
Proof.
  eexists. split; [reflexivity|]. split; [reflexivity|]. split; reflexivity.
Qed.

(** In the mismatch-tolerant demultiplexer the [except KeyError] around
    the write also catches the writer's [KeyError]: a resolved barcode
    without a sink is resolved and written again until the recursion
    limit is reached. *)
Lemma mismatch_missing_sink_recursion :
  demultiplex_record (create_fastq_demultiplexer [("Unknown"%string, 1%nat)] "Unknown"%string 1)
    (init_state [("ACGT"%string, "sample1"%string)]) [sample_read "r1" "ACGT"] "ACGT"%string
  = Err RecursionError.
Proof.
  vm_compute. reflexivity.
Qed.

(** ** FastqMismatchDemultiplexer.match_mismatched_single_barcode *)

Lemma index_of_none v l : index_of v l = None -> ~ In v l.
Proof.
  induction l as [|x l IH]; simpl; [tauto|].
  destruct (Z.eqb_spec x v); [discriminate|].
  destruct (index_of v l); [discriminate|]. intros _ [H|H]; [congruence|exact (IH eq_refl H)].
Qed.

Lemma index_of_some v l i : index_of v l = Some i -> nth_error l i = Some v.
Proof.
  revert i. induction l as [|x l IH]; intros i; simpl; [discriminate|].
  destruct (Z.eqb_spec x v) as [->|_]; [intros H; injection H as <-; reflexivity|].
  destruct (index_of v l) as [j|]; [|discriminate].
  intros H; injection H as <-. apply IH. reflexivity.
Qed.

Lemma at_distance_map (f : string -> Z) d known :
  at_distance d known (map f known) = filter (fun y => Z.eqb (f y) d) known.
Proof.
  unfold at_distance. induction known as [|y known IH]; simpl; [reflexivity|].
  destruct (Z.eqb (f y) d); simpl; [f_equal|]; exact IH.
Qed.

Lemma count_of_map (f : string -> Z) d known :
  count_of d (map f known) = length (filter (fun y => Z.eqb (f y) d) known).
Proof.
  unfold count_of. induction known as [|y known IH]; simpl; [reflexivity|].
  destruct (Z.eqb (f y) d); simpl; [f_equal|]; exact IH.
Qed.

Lemma dedup_in x l : In x (dedup l) <-> In x l.
Proof.
  induction l as [|y l IH]; simpl; [tauto|].
  destruct (existsb (String.eqb y) l) eqn:Hex; simpl.
  - apply existsb_exists in Hex as (z & Hz & Heq). apply String.eqb_eq in Heq. subst z.
    rewrite IH. split; [tauto|]. intros [->|H]; assumption.
  - rewrite IH. tauto.
Qed.

Lemma dedup_nodup l : NoDup (dedup l).
Proof.
  induction l as [|y l IH]; simpl; [constructor|].
  destruct (existsb (String.eqb y) l) eqn:Hex; [exact IH|].
  constructor; [|exact IH].
  rewrite dedup_in. intros Hin.
  assert (existsb (String.eqb y) l = true)
    by (apply existsb_exists; exists y; split; [exact Hin|apply String.eqb_refl]).
  congruence.
Qed.

Lemma dedup_length_le1 x l : (forall y, In y l -> y = x) -> (length (dedup l) <= 1)%nat.
Proof.
  intros Hall. change 1%nat with (length [x]).
  apply NoDup_incl_length; [apply dedup_nodup|].
  intros y Hy. apply dedup_in, Hall in Hy. left. congruence.
Qed.

Lemma dedup_length_ge2 x y l : In x l -> In y l -> x <> y -> (2 <= length (dedup l))%nat.
Proof.
  intros Hx Hy Hne. change 2%nat with (length [x; y]).
  apply NoDup_incl_length.
  - constructor; [simpl; intros [H|[]]; congruence|constructor; [simpl; tauto|constructor]].
  - intros z [<-|[<-|[]]]; apply dedup_in; assumption.
Qed.

Lemma two_distinct_length {A} (x y : A) l : In x l -> In y l -> x <> y -> (2 <= length l)%nat.
Proof.
  destruct l as [|a [|b l']]; simpl.
  - tauto.
  - intros [<-|[]] [<-|[]]; congruence.
  - lia.
Qed.

Section Scan.
Variables (mm : Z) (barcode : string) (known : list string).

Let dist (y : string) : Z := hamming_distance y barcode.
Let ds : list Z := map dist known.

Lemma scan_none_below start steps :
  (forall y, In y known -> start + Z.of_nat steps <= dist y) ->
  scan_distances mm barcode known ds start steps = Ok (EmptyString, -1).
Proof.
  revert start. induction steps as [|steps IH]; intros start Hbig; simpl; [reflexivity|].
  destruct (index_of start ds) eqn:Hi.
  - apply index_of_some, nth_error_In in Hi.
    apply in_map_iff in Hi as (y & Hy & Hin). apply Hbig in Hin. lia.
  - apply IH. intros y Hin. specialize (Hbig y Hin). lia.
Qed.

Lemma scan_reaches start steps d x :
  start <= d < start + Z.of_nat steps ->
  In x known -> dist x = d ->
  (forall y, In y known -> d <= dist y) ->
  scan_distances mm barcode known ds start steps =
  scan_distances mm barcode known ds d 1.
Proof.
  intros Hrange Hx Hxd Hmin. revert start Hrange.
  induction steps as [|steps IH]; intros start Hrange; [lia|].
  assert (Hfound : exists i, index_of d ds = Some i).
  { destruct (index_of d ds) eqn:Hi; [eauto|].
    apply index_of_none in Hi. exfalso. apply Hi, in_map_iff. eauto. }
  destruct (Z.eq_dec start d) as [->|Hne].
  - destruct Hfound as [i Hi]. simpl. rewrite Hi. reflexivity.
  - simpl. destruct (index_of start ds) eqn:Hs.
    + apply index_of_some, nth_error_In in Hs.
      apply in_map_iff in Hs as (y & Hy & Hin). apply Hmin in Hin. lia.
    + apply IH. lia.
Qed.
End Scan.

Lemma single_match_at mm barcode known d i :
  index_of d (map (fun x => hamming_distance x barcode) known) = Some i ->
  exists y, In y known /\ hamming_distance y barcode = d /\
    scan_distances mm barcode known (map (fun x => hamming_distance x barcode) known) d 1 =
    if (1 <? length (filter (fun z => Z.eqb (hamming_distance z barcode) d) known))%nat
       && (1 <? length (dedup (filter (fun z => Z.eqb (hamming_distance z barcode) d) known)))%nat
    then Err (AmbiguousBarcode barcode mm) else Ok (y, d).
Proof.
  intros Hi.
  pose proof (index_of_some _ _ _ Hi) as Hn. rewrite nth_error_map in Hn.
  destruct (nth_error known i) as [y|] eqn:Hy; [|discriminate].
  injection Hn as Hyd.
  exists y. split; [eapply nth_error_In; exact Hy|]. split; [exact Hyd|].
  simpl. rewrite Hi, count_of_map, at_distance_map.
  rewrite (nth_error_nth known i EmptyString Hy). reflexivity.
Qed.

(** C1 (as amended): the matcher scans the distances [0, 1, ..., k] in
    increasing order and decides at the first distance [d] achieved by a
    known segment: it returns that segment when every known segment at
    distance [d] is the same string (whatever composite barcodes they come
    from), and raises [AmbiguousBarcode] when two different segment
    strings achieve [d], without trying a larger distance; when no known
    segment is within [k], it returns [("", -1)]. *)
Theorem match_single_first_distance (mm : Z) (barcode : string) (known : list string) :
  ((forall y, In y known -> mm < hamming_distance y barcode) ->
     match_mismatched_single_barcode mm barcode known = Ok (EmptyString, -1)) /\
  (forall x d, 0 <= d <= mm -> In x known -> hamming_distance x barcode = d ->
     (forall y, In y known -> d <= hamming_distance y barcode) ->
     ((forall y, In y known -> hamming_distance y barcode = d -> y = x) ->
        match_mismatched_single_barcode mm barcode known = Ok (x, d)) /\
     ((exists y, In y known /\ hamming_distance y barcode = d /\ y <> x) ->
        match_mismatched_single_barcode mm barcode known = Err (AmbiguousBarcode barcode mm))).
Proof.
  unfold match_mismatched_single_barcode. split.
  - intros Hbig. apply scan_none_below.
    intros y Hy. specialize (Hbig y Hy).
    pose proof (hamming_distance_nonneg y barcode). lia.
  - intros x d Hd Hx Hxd Hmin.
    rewrite (scan_reaches mm barcode known 0 _ d x); try assumption;
      [|lia].
    assert (Hfound : exists i, index_of d (map (fun x => hamming_distance x barcode) known)
                               = Some i).
    { destruct (index_of d _) eqn:Hi; [eauto|].
      apply index_of_none in Hi. exfalso. apply Hi, in_map_iff. eauto. }
    destruct Hfound as [i Hi].
    destruct (single_match_at mm barcode known d i Hi) as (y & Hy & Hyd & ->).
    set (at_d := filter (fun z => Z.eqb (hamming_distance z barcode) d) known).
    assert (Hin : forall z, In z at_d <-> In z known /\ hamming_distance z barcode = d).
    { intros z. unfold at_d. rewrite filter_In. rewrite Z.eqb_eq. tauto. }
    split.
    + intros Huniq. rewrite (Huniq y Hy Hyd).
      assert (Hle : (length (dedup at_d) <= 1)%nat).
      { apply (dedup_length_le1 x). intros z Hz. apply Hin in Hz as [Hz Hzd]. auto. }
      destruct (Nat.ltb_spec 1 (length (dedup at_d))); [lia|].
      rewrite andb_false_r. reflexivity.
    + intros (z & Hz & Hzd & Hzx).
      assert (Hx' : In x at_d) by (apply Hin; auto).
      assert (Hz' : In z at_d) by (apply Hin; auto).
      pose proof (two_distinct_length x z at_d Hx' Hz' (not_eq_sym Hzx)) as H2.
      pose proof (dedup_length_ge2 x z at_d Hx' Hz' (not_eq_sym Hzx)) as H2'.
      destruct (Nat.ltb_spec 1 (length at_d)); [|lia].
      destruct (Nat.ltb_spec 1 (length (dedup at_d))); [|lia].
      reflexivity.
Qed.

Lemma match_single_first_distance_witness :
  (0 <= 2 <= 2 /\ In "BBBBBB"%string ["AAAAAA"; "BBBBBB"; "CCCCCCBCBCBC"]%string /\
   hamming_distance "BBBBBB" "BBCCBB" = 2 /\
   (forall y, In y ["AAAAAA"; "BBBBBB"; "CCCCCCBCBCBC"]%string ->
              2 <= hamming_distance y "BBCCBB") /\
   (forall y, In y ["AAAAAA"; "BBBBBB"; "CCCCCCBCBCBC"]%string ->
              hamming_distance y "BBCCBB" = 2 -> y = "BBBBBB"%string)) /\
  match_mismatched_single_barcode 2 "BBCCBB" ["AAAAAA"; "BBBBBB"; "CCCCCCBCBCBC"]%string
    = Ok ("BBBBBB"%string, 2).
Proof.
  assert (Hmin : forall y, In y ["AAAAAA"; "BBBBBB"; "CCCCCCBCBCBC"]%string ->
                           2 <= hamming_distance y "BBCCBB").
  { intros y [<-|[<-|[<-|[]]]]; simpl; lia. }
  assert (Huniq : forall y, In y ["AAAAAA"; "BBBBBB"; "CCCCCCBCBCBC"]%string ->
                            hamming_distance y "BBCCBB" = 2 -> y = "BBBBBB"%string).
  { intros y [<-|[<-|[<-|[]]]]; simpl; intros H; first [reflexivity|discriminate]. }
  assert (Hin : In "BBBBBB"%string ["AAAAAA"; "BBBBBB"; "CCCCCCBCBCBC"]%string)
    by (simpl; tauto).
  split; [repeat split; try lia; assumption|].
  destruct (match_single_first_distance 2 "BBCCBB" ["AAAAAA"; "BBBBBB"; "CCCCCCBCBCBC"]%string)
    as [_ Hfound].
  apply (Hfound "BBBBBB"%string 2); [lia|exact Hin|reflexivity|exact Hmin|exact Huniq].
Defined.

(** C1 as stated fails: two known composite barcodes that share their
    first segment give two known segments at distance 0 that map to
    different composite barcodes, yet no error is raised: the shared
    segment string is selected. *)
Lemma match_single_same_segment_counterexample :
  known_segments "Unknown" ["AAAA+CCCC"; "AAAA+GGGG"]%string O = Ok ["AAAA"; "AAAA"]%string /\
  "AAAA+CCCC"%string <> "AAAA+GGGG"%string /\
  match_mismatched_single_barcode 1 "AAAA" ["AAAA"; "AAAA"]%string = Ok ("AAAA"%string, 0) /\
  mismatched_resolution "Unknown" 1 ["AAAA+CCCC"; "AAAA+GGGG"]%string "AAAA+CCCC"
    = Ok ("AAAA+CCCC"%string, 0, "AAAA+CCCC"%string).
Proof.
  split; [reflexivity|]. split; [discriminate|]. split; reflexivity.
Qed.

(** ** FastqFileParser.fastq_records *)

(** C5 (a defect): when R1 holds exactly one record more than R2, the
    last R1 record is consumed while R2 raises [StopIteration], both
    handles are then empty, and the generator ends without the length
    error its docstring promises; the extra R1 record is dropped.  R1
    two records longer, or R2 longer, is detected. *)
Theorem fastq_records_one_extra_record_undetected :
  fastq_records
    (create_fastq_file_parser ("R1.fastq"%string, sample_read "r1" "ACGT" ++ sample_read "r2" "TTTT")
       (Some ("R2.fastq"%string, sample_read "r1" "ACGT")) None None)
  = ([([sample_read "r1" "ACGT"; sample_read "r1" "ACGT"], "ACGT"%string)], None) /\
  fastq_records
    (create_fastq_file_parser
       ("R1.fastq"%string, sample_read "r1" "ACGT" ++ sample_read "r2" "TTTT" ++ sample_read "r3" "GGGG")
       (Some ("R2.fastq"%string, sample_read "r1" "ACGT")) None None)
  = ([([sample_read "r1" "ACGT"; sample_read "r1" "ACGT"], "ACGT"%string)],
     Some (LengthMismatch ["R1.fastq"; "R2.fastq"]%string)) /\
  fastq_records
    (create_fastq_file_parser ("R1.fastq"%string, sample_read "r1" "ACGT")
       (Some ("R2.fastq"%string, sample_read "r1" "ACGT" ++ sample_read "r2" "TTTT")) None None)
  = ([([sample_read "r1" "ACGT"; sample_read "r1" "ACGT"], "ACGT"%string)],
     Some (LengthMismatch ["R1.fastq"; "R2.fastq"]%string)).
Proof.
  split; [|split]; vm_compute; reflexivity.
Qed.

(** ** Converting ints to floats *)

Lemma digits2_pos_size (p : positive) : digits2_pos p = Pos.size p.
Proof. induction p as [p IH|p IH|]; cbn; rewrite ?IH; reflexivity. Qed.

Lemma pos_size_bounds (p : positive) :
  2 ^ (Zpos (Pos.size p) - 1) <= Zpos p < 2 ^ Zpos (Pos.size p).
Proof.
  assert (Hgt : Zpos p < Zpos (2 ^ Pos.size p)) by exact (Pos.size_gt p).
  assert (Hle : Zpos (2 ^ Pos.size p) <= Zpos (p~0)) by exact (Pos.size_le p).
  rewrite Pos2Z.inj_pow in Hgt, Hle. rewrite (Pos2Z.inj_xO p) in Hle.
  split; [|exact Hgt].
  assert (H2 : 2 ^ Zpos (Pos.size p) = 2 * 2 ^ (Zpos (Pos.size p) - 1)).
  { rewrite <- Z.pow_succ_r by lia. f_equal. lia. }
  lia.
Qed.

Lemma pos_size_unique (p : positive) (n : Z) :
  1 <= n -> 2 ^ (n - 1) <= Zpos p < 2 ^ n -> Zpos (Pos.size p) = n.
Proof.
  intros Hn [Hlo Hhi]. pose proof (pos_size_bounds p) as [Hlo' Hhi'].
  destruct (Z.lt_trichotomy (Zpos (Pos.size p)) n) as [Hlt|[Heq|Hgt]]; [|exact Heq|].
  - assert (2 ^ Zpos (Pos.size p) <= 2 ^ (n - 1)) by (apply Z.pow_le_mono_r; lia). lia.
  - assert (2 ^ n <= 2 ^ (Zpos (Pos.size p) - 1)) by (apply Z.pow_le_mono_r; lia). lia.
Qed.

Lemma zdigits2_normal (m : Z) : 2 ^ 52 <= m < 2 ^ 53 -> Zdigits2 m = 53.
Proof.
  intros Hm. destruct m as [|q|q]; try lia. cbn [Zdigits2].
  rewrite digits2_pos_size. apply pos_size_unique; [lia|exact Hm].
Qed.

Lemma pos_iter_xO (p n : positive) : Zpos (Pos.iter xO p n) = Zpos p * 2 ^ Zpos n.
Proof.
  apply Pos.iter_ind with (P := fun n x => Zpos x = Zpos p * 2 ^ Zpos n).
  - rewrite Pos2Z.inj_xO. lia.
  - intros k x Hx. rewrite Pos2Z.inj_xO, Hx, Pos2Z.inj_succ, Z.pow_succ_r by lia. lia.
Qed.

Lemma shr_1_m (x : shr_record) : 0 <= shr_m x -> shr_m (shr_1 x) = Z.div2 (shr_m x).
Proof. destruct x as [[|[q|q|]|q] r st]; cbn; intros H; try reflexivity; lia. Qed.

Lemma iter_shr_1_m (k : positive) (x : shr_record) :
  0 <= shr_m x -> shr_m (iter_pos shr_1 k x) = Z.shiftr (shr_m x) (Zpos k).
Proof.
  revert x. induction k as [k IH|k IH|]; intros x Hx; cbn [iter_pos].
  - assert (H1 : shr_m (shr_1 x) = Z.div2 (shr_m x)) by (apply shr_1_m, Hx).
    assert (H2 : shr_m (iter_pos shr_1 k (shr_1 x)) = Z.shiftr (Z.div2 (shr_m x)) (Zpos k)).
    { rewrite IH; rewrite H1; [reflexivity|apply Z.div2_nonneg, Hx]. }
    rewrite IH by (rewrite H2; apply Z.shiftr_nonneg, Z.div2_nonneg, Hx).
    rewrite H2, Z.div2_spec, !Z.shiftr_shiftr by lia. f_equal. lia.
  - assert (H2 : shr_m (iter_pos shr_1 k x) = Z.shiftr (shr_m x) (Zpos k)) by (apply IH, Hx).
    rewrite IH by (rewrite H2; apply Z.shiftr_nonneg, Hx).
    rewrite H2, Z.shiftr_shiftr by lia. f_equal. lia.
  - rewrite shr_1_m, Z.div2_spec by exact Hx. reflexivity.
Qed.

Lemma round_nearest_even_range (m : Z) (l : location) :
  m <= round_nearest_even m l <= m + 1.
Proof. destruct l as [|[]]; cbn; try destruct (Z.even m); lia. Qed.

Lemma fexp_large (e : Z) : -1021 <= e -> fexp float_prec float_emax e = e - 53.
Proof. intros He. unfold fexp, emin, float_prec, float_emax. lia. Qed.

Lemma shr_fexp_normal (m e : Z) :
  2 ^ 52 <= m < 2 ^ 53 -> -1074 <= e ->
  shr_fexp float_prec float_emax m e loc_Exact = (Build_shr_record m false false, e).
Proof.
  intros Hm He. unfold shr_fexp. rewrite zdigits2_normal by exact Hm.
  replace (fexp float_prec float_emax (53 + e) - e) with 0
    by (unfold fexp, emin, float_prec, float_emax; lia).
  reflexivity.
Qed.

Lemma binary_round_aux_normal (s : bool) (m e : Z) :
  2 ^ 52 <= m < 2 ^ 53 -> -1074 <= e ->
  binary_round_aux float_prec float_emax s m e loc_Exact =
  if e <=? 971 then S754_finite s (Z.to_pos m) e else S754_infinity s.
Proof.
  intros Hm He. unfold binary_round_aux. rewrite shr_fexp_normal by assumption.
  cbn [shr_m loc_of_shr_record round_nearest_even].
  rewrite shr_fexp_normal by assumption. cbn [shr_m].
  destruct m as [|q|q]; try lia. reflexivity.
Qed.

(** The rounding of a positive integer [p]: a finite float or an
    infinity, with an exponent at most [size p - 52]. *)
Lemma binary_round_int (s : bool) (p : positive) :
  exists m e,
    binary_round float_prec float_emax s p 0 =
      (if e <=? 971 then S754_finite s m e else S754_infinity s) /\
    e <= Zpos (Pos.size p) - 52.
Proof.
  pose proof (pos_size_bounds p) as [Hlo Hhi].
  set (d := Zpos (Pos.size p)) in *.
  assert (Hd : 1 <= d) by (unfold d; lia).
  unfold binary_round. rewrite digits2_pos_size. fold d.
  rewrite Z.add_0_r, fexp_large by lia.
  unfold shl_align. rewrite Z.sub_0_r.
  destruct (Z.lt_trichotomy d 53) as [Hlt|[Heq|Hgt]].
  - destruct (d - 53) as [|n|n] eqn:Hn; try lia. cbn beta iota.
    assert (Hpow : Zpos (Pos.iter xO p n) = Zpos p * 2 ^ (53 - d)).
    { rewrite pos_iter_xO. replace (53 - d) with (Zpos n) by lia. reflexivity. }
    assert (Hrange : 2 ^ 52 <= Zpos (Pos.iter xO p n) < 2 ^ 53).
    { rewrite Hpow.
      replace (2 ^ 52) with (2 ^ (d - 1) * 2 ^ (53 - d))
        by (rewrite <- Z.pow_add_r by lia; f_equal; lia).
      replace (2 ^ 53) with (2 ^ d * 2 ^ (53 - d))
        by (rewrite <- Z.pow_add_r by lia; f_equal; lia).
      assert (0 < 2 ^ (53 - d)) by (apply Z.pow_pos_nonneg; lia). nia. }
    change (PosDef.Pos.iter xO p n) with (Pos.iter xO p n).
    rewrite <- Hn, binary_round_aux_normal; [|exact Hrange|lia].
    exists (Pos.iter xO p n), (d - 53). split; [reflexivity|lia].
  - assert (Hr : 2 ^ 52 <= Zpos p < 2 ^ 53) by (rewrite Heq in Hlo, Hhi; exact (conj Hlo Hhi)).
    replace (d - 53) with 0 by lia. cbn beta iota.
    rewrite binary_round_aux_normal; [|exact Hr|lia].
    exists p, 0. split; [reflexivity|lia].
  - destruct (d - 53) as [|k|k] eqn:Hk; try lia.
    cbn beta iota.
    assert (Hfirst : shr_fexp float_prec float_emax (Zpos p) 0 loc_Exact =
      (iter_pos shr_1 k {| shr_m := Zpos p; shr_r := false; shr_s := false |}, Zpos k)).
    { unfold shr_fexp. cbn [Zdigits2]. rewrite digits2_pos_size. fold d.
      rewrite Z.add_0_r, fexp_large, Z.sub_0_r, Hk by lia. reflexivity. }
    unfold binary_round_aux. rewrite Hfirst. cbn beta iota.
    set (mrs := iter_pos shr_1 k {| shr_m := Zpos p; shr_r := false; shr_s := false |}).
    assert (Hm1 : shr_m mrs = Zpos p / 2 ^ Zpos k).
    { unfold mrs. rewrite iter_shr_1_m by (cbn; lia). cbn [shr_m].
      apply Z.shiftr_div_pow2. lia. }
    assert (Hr1 : 2 ^ 52 <= shr_m mrs < 2 ^ 53).
    { rewrite Hm1. assert (Hk' : 0 < 2 ^ Zpos k) by (apply Z.pow_pos_nonneg; lia).
      replace (2 ^ 52) with (2 ^ (d - 1) / 2 ^ Zpos k).
      - split.
        + apply Z.div_le_mono; lia.
        + apply Z.div_lt_upper_bound; [lia|].
          replace (2 ^ Zpos k * 2 ^ 53) with (2 ^ d); [lia|].
          rewrite <- Z.pow_add_r by lia. f_equal. lia.
      - replace (d - 1) with (52 + Zpos k) by lia.
        rewrite Z.pow_add_r by lia. apply Z.div_mul. lia. }
    pose proof (round_nearest_even_range (shr_m mrs) (loc_of_shr_record mrs)) as Hr2.
    set (m2 := round_nearest_even (shr_m mrs) (loc_of_shr_record mrs)) in *.
    destruct (Z.eq_dec m2 (2 ^ 53)) as [Htop|Hin].
    + rewrite Htop. unfold shr_fexp.
      replace (Zdigits2 (2 ^ 53)) with 54 by reflexivity.
      rewrite fexp_large by lia.
      replace (54 + Zpos k - 53 - Zpos k) with 1 by lia.
      cbn [shr shr_record_of_loc iter_pos shr_1 shr_m].
      exists (Pos.pow 2 52), (Zpos k + 1). split; [reflexivity|lia].
    + rewrite shr_fexp_normal by lia. cbn [shr_m].
      destruct m2 as [|q|q] eqn:Hq; try lia.
      exists q, (Zpos k). split; [reflexivity|lia].
Qed.

Lemma size_below_1023 (p : positive) : Zpos p < 2 ^ 1023 -> Zpos (Pos.size p) <= 1023.
Proof.
  intros Hb. pose proof (pos_size_bounds p) as [Hlo _].
  destruct (Z.le_gt_cases (Zpos (Pos.size p)) 1023) as [|Hgt]; [assumption|].
  assert (2 ^ 1023 <= 2 ^ (Zpos (Pos.size p) - 1)) by (apply Z.pow_le_mono_r; lia). lia.
Qed.

Lemma float_of_int_shape (z : Z) :
  z <> 0 ->
  exists m e,
    float_of_int z = (if e <=? 971 then S754_finite (z <? 0) m e else S754_infinity (z <? 0)) /\
    (Z.abs z < 2 ^ 1023 -> e <= 971).
Proof.
  intros Hz. destruct z as [|p|p]; [congruence| |].
  - destruct (binary_round_int false p) as (m & e & Hr & He).
    exists m, e. split; [exact Hr|]. intros Hb. apply size_below_1023 in Hb. lia.
  - destruct (binary_round_int true p) as (m & e & Hr & He).
    exists m, e. split; [exact Hr|]. intros Hb. apply size_below_1023 in Hb. lia.
Qed.

(** [float(z)] succeeds for [|z| < 2^1023]. *)
Lemma py_float_small (z : Z) : Z.abs z < 2 ^ 1023 -> py_float z = Ok (float_of_int z).
Proof.
  intros Hb. destruct (Z.eq_dec z 0) as [->|Hz]; [reflexivity|].
  destruct (float_of_int_shape z Hz) as (m & e & Hf & He).
  unfold py_float. rewrite Hf. specialize (He Hb).
  destruct (Z.leb_spec e 971); [reflexivity|lia].
Qed.

(** [float(z)] raises only [OverflowError], and only for [|z| >= 2^1023]. *)
Lemma py_float_err (z : Z) (e : error) :
  py_float z = Err e -> e = OverflowError /\ 2 ^ 1023 <= Z.abs z.
Proof.
  intros H. destruct (Z.lt_ge_cases (Z.abs z) (2 ^ 1023)) as [Hb|Hb].
  - rewrite py_float_small in H by exact Hb. discriminate.
  - split; [|exact Hb]. unfold py_float in H.
    destruct (float_of_int z); congruence.
Qed.

(** A nonzero [int] never converts to [0.0]. *)
Lemma float_of_int_nonzero (z : Z) :
  z <> 0 -> SFeqb (float_of_int z) float_zero = false.
Proof.
  intros Hz. destruct (float_of_int_shape z Hz) as (m & e & Hf & _). rewrite Hf.
  destruct (e <=? 971), (z <? 0); reflexivity.
Qed.

(** ** summarize_counts: ordering *)

Definition by_count_desc (a b : string * Z) : Prop := snd b <= snd a.

Lemma insert_desc_perm x l : Permutation (insert_desc x l) (x :: l).
Proof.
  induction l as [|y l IH]; simpl; [reflexivity|].
  destruct (snd y <=? snd x); [reflexivity|].
  rewrite IH. apply perm_swap.
Qed.

Lemma sort_desc_perm l : Permutation (sort_desc l) l.
Proof.
  induction l as [|x l IH]; simpl; [reflexivity|].
  rewrite insert_desc_perm. constructor. exact IH.
Qed.

Lemma insert_desc_hdrel x y l :
  HdRel by_count_desc y l -> by_count_desc y x -> HdRel by_count_desc y (insert_desc x l).
Proof.
  destruct l as [|z l]; simpl; intros Hhd Hyx; [constructor; exact Hyx|].
  destruct (snd z <=? snd x); constructor; [exact Hyx|].
  inversion Hhd; assumption.
Qed.

Lemma insert_desc_sorted x l :
  Sorted by_count_desc l -> Sorted by_count_desc (insert_desc x l).
Proof.
  induction l as [|y l IH]; simpl; intros Hs; [repeat constructor|].
  inversion Hs as [|? ? Hl Hhd]; subst.
  destruct (Z.leb_spec (snd y) (snd x)).
  - constructor; [exact Hs|constructor; unfold by_count_desc; lia].
  - constructor; [apply IH, Hl|].
    apply insert_desc_hdrel; [exact Hhd|unfold by_count_desc; lia].
Qed.

Lemma sort_desc_sorted l : Sorted by_count_desc (sort_desc l).
Proof.
  induction l as [|x l IH]; simpl; [constructor|]. apply insert_desc_sorted, IH.
Qed.

Lemma insert_desc_stable x l k :
  filter (fun p => Z.eqb (snd p) k) (insert_desc x l) =
  filter (fun p => Z.eqb (snd p) k) (x :: l).
Proof.
  induction l as [|y l IH]; simpl; [reflexivity|].
  destruct (Z.leb_spec (snd y) (snd x)); [reflexivity|].
  simpl. rewrite IH. simpl.
  destruct (Z.eqb_spec (snd x) k); destruct (Z.eqb_spec (snd y) k); try reflexivity; lia.
Qed.

Lemma sort_desc_stable l k :
  filter (fun p => Z.eqb (snd p) k) (sort_desc l) = filter (fun p => Z.eqb (snd p) k) l.
Proof.
  induction l as [|x l IH]; simpl; [reflexivity|].
  rewrite insert_desc_stable. simpl. rewrite IH. reflexivity.
Qed.

(** ** summarize_counts: the rows *)

Lemma map_result_ok_map {A B} (f : A -> result B) (g : A -> B) (l : list A) :
  (forall x, In x l -> f x = Ok (g x)) -> map_result f l = Ok (map g l).
Proof.
  induction l as [|x l IH]; intros H; [reflexivity|].
  cbn [map_result map]. rewrite (H x (or_introl eq_refl)). cbn [bind].
  rewrite IH by (intros y Hy; apply H; right; exact Hy). reflexivity.
Qed.

Lemma map_result_err {A B} (f : A -> result B) (l : list A) (e : error) :
  map_result f l = Err e -> exists x, In x l /\ f x = Err e.
Proof.
  induction l as [|x l IH]; cbn [map_result]; [discriminate|].
  destruct (f x) as [y|e'] eqn:Hx; cbn [bind].
  - destruct (map_result f l) as [ys|e''] eqn:Hl; cbn [bind]; [discriminate|].
    intros He. injection He as <-. destruct (IH eq_refl) as (z & Hz & Hfz).
    exists z. split; [right; exact Hz|exact Hfz].
  - intros He. injection He as <-. exists x. split; [left; reflexivity|exact Hx].
Qed.

Lemma most_common_incl (c : list (string * Z)) (n_values : option Z) (p : string * Z) :
  In p (most_common c n_values) -> In p c.
Proof.
  unfold most_common. intros H.
  apply (Permutation_in _ (sort_desc_perm c)).
  destruct n_values as [n|]; [|exact H].
  rewrite <- (firstn_skipn (Z.to_nat n) (sort_desc c)). apply in_or_app. left. exact H.
Qed.

Lemma barcode_set_counts_incl (r : results) (barcode_set : string) (p : string * Z) :
  In p (barcode_set_counts r barcode_set) -> In p (barcode_counts r).
Proof.
  unfold barcode_set_counts, known_barcode_counts, unknown_barcode_counts.
  destruct (String.eqb barcode_set "known"); [|destruct (String.eqb barcode_set "unknown")];
    intros H; [apply filter_In in H|apply filter_In in H|]; tauto.
Qed.

(** [percent] of ints below [2^1023] with a nonzero total. *)
Lemma percent_ok (count total : Z) :
  Z.abs count < 2 ^ 1023 -> Z.abs total < 2 ^ 1023 -> total <> 0 ->
  percent count total = Ok (percent_value count total).
Proof.
  intros Hc Ht Hz. unfold percent.
  rewrite (py_float_small count Hc). cbn [bind].
  rewrite (py_float_small total Ht). cbn [bind].
  rewrite float_of_int_nonzero by exact Hz. reflexivity.
Qed.

(** The errors of [percent]: [ZeroDivisionError] for a zero total,
    [OverflowError] for an int of [2^1023] or more. *)
Lemma percent_err (count total : Z) (e : error) :
  percent count total = Err e ->
  (e = ZeroDivisionError /\ total = 0) \/
  (e = OverflowError /\ (2 ^ 1023 <= Z.abs count \/ 2 ^ 1023 <= Z.abs total)).
Proof.
  unfold percent. destruct (py_float count) as [fc|ec] eqn:Hc; cbn [bind].
  2: { intros H. injection H as <-. apply py_float_err in Hc. right. tauto. }
  destruct (py_float total) as [ft|et] eqn:Ht; cbn [bind].
  2: { intros H. injection H as <-. apply py_float_err in Ht. right. tauto. }
  destruct (SFeqb ft float_zero) eqn:Hz; [|discriminate].
  intros H. injection H as <-. left. split; [reflexivity|].
  destruct (Z.eq_dec total 0) as [|Hn]; [assumption|]. exfalso.
  pose proof (float_of_int_nonzero total Hn) as Hnz.
  unfold py_float in Ht. destruct (float_of_int total) eqn:Hf; congruence.
Qed.

(** With the ints below [2^1023] and a nonzero total, every row is
    computed. *)
Lemma summarize_counts_rows (r : results) (barcode_set : string) (n_values : option Z) :
  counter_total (barcode_counts r) <> 0 ->
  Z.abs (counter_total (barcode_counts r)) < 2 ^ 1023 ->
  Forall (fun p => Z.abs (snd p) < 2 ^ 1023) (barcode_counts r) ->
  summarize_counts r barcode_set n_values =
  Ok (map (fun p => (fst p, snd p, percent_value (snd p) (counter_total (barcode_counts r))))
         (most_common (barcode_set_counts r barcode_set) n_values)).
Proof.
  intros Hz Ht Hcs. unfold summarize_counts. fold (barcode_set_counts r barcode_set).
  apply map_result_ok_map. intros p Hp.
  apply most_common_incl, barcode_set_counts_incl in Hp.
  rewrite Forall_forall in Hcs.
  rewrite percent_ok by (exact (Hcs p Hp) || assumption). reflexivity.
Qed.

(** C10 (amended): with a nonzero grand total, and the total and every
    count below [2^1023] in absolute value (so that [float()] of them does
    not raise [OverflowError]), [summarize_counts] returns one row per
    entry of a list [full] that holds exactly the counts of the requested
    subset, ordered by count descending and, among equal counts, in
    first-seen order; it is cut to [n_values] rows when given, and each
    row carries [round(100. * count / total, 1)] in double precision with
    [total] the count over all barcodes. *)
Theorem summarize_counts_sorted_rows (r : results) (barcode_set : string) (n_values : option Z) :
  counter_total (barcode_counts r) <> 0 ->
  Z.abs (counter_total (barcode_counts r)) < 2 ^ 1023 ->
  Forall (fun p => Z.abs (snd p) < 2 ^ 1023) (barcode_counts r) ->
  exists full,
    summarize_counts r barcode_set n_values =
      Ok (map (fun p => (fst p, snd p, percent_value (snd p) (counter_total (barcode_counts r))))
             (match n_values with None => full | Some n => firstn (Z.to_nat n) full end)) /\
    Permutation full (barcode_set_counts r barcode_set) /\
    Sorted by_count_desc full /\
    (forall k, filter (fun p => Z.eqb (snd p) k) full =
               filter (fun p => Z.eqb (snd p) k) (barcode_set_counts r barcode_set)).
Proof.
  intros Htot Hb Hcs.
  exists (sort_desc (barcode_set_counts r barcode_set)).
  split; [|split; [apply sort_desc_perm|split; [apply sort_desc_sorted|apply sort_desc_stable]]].
  rewrite summarize_counts_rows by assumption.
  unfold most_common. destruct n_values; reflexivity.
Qed.

Lemma summarize_counts_sorted_rows_witness :
  counter_total (barcode_counts two_barcode_results) <> 0 /\
  Z.abs (counter_total (barcode_counts two_barcode_results)) < 2 ^ 1023 /\
  Forall (fun p => Z.abs (snd p) < 2 ^ 1023) (barcode_counts two_barcode_results) /\
  (exists full,
    summarize_counts two_barcode_results "all" None =
      Ok (map (fun p => (fst p, snd p,
                 percent_value (snd p) (counter_total (barcode_counts two_barcode_results)))) full) /\
    Permutation full (barcode_set_counts two_barcode_results "all") /\
    Sorted by_count_desc full /\
    (forall k, filter (fun p => Z.eqb (snd p) k) full =
               filter (fun p => Z.eqb (snd p) k) (barcode_set_counts two_barcode_results "all"))) /\
  summarize_counts two_barcode_results "all" None =
    Ok [("A"%string, 2, percent_value 2 3); ("B"%string, 1, percent_value 1 3)].
Proof.
  split; [discriminate|]. split; [vm_compute; reflexivity|].
  split; [repeat constructor; vm_compute; reflexivity|].
  split; [|vm_compute; reflexivity].
  apply (summarize_counts_sorted_rows two_barcode_results "all" None).
  - discriminate.
  - vm_compute. reflexivity.
  - repeat constructor; vm_compute; reflexivity.
Defined.

(** C10, the bound on the sum: six barcodes counted once each give six
    rows of [round(100/6, 1) = 16.7], whose float sum exceeds 100.0. *)
Lemma summarize_counts_sum_exceeds_100 :
  exists rows,
    summarize_counts six_barcode_results "all" None = Ok rows /\
    counter_total (barcode_counts six_barcode_results) = 6 /\
    SFleb (py_sum (map (fun row => snd row) rows)) (float_of_int 100) = false.
Proof.
  eexists. split; [vm_compute; reflexivity|]. split; [reflexivity|]. vm_compute. reflexivity.
Qed.

(** ** Dicts built by repeated assignment *)

Lemma find_app {A} (f : A -> bool) (l1 l2 : list A) :
  find f (l1 ++ l2) = match find f l1 with Some x => Some x | None => find f l2 end.
Proof.
  induction l1 as [|x l1 IH]; simpl; [reflexivity|]. destruct (f x); [reflexivity|exact IH].
Qed.

Lemma find_none_forall {A} (f : A -> bool) (l : list A) :
  (forall x, In x l -> f x = false) -> find f l = None.
Proof.
  induction l as [|x l IH]; simpl; intros H; [reflexivity|].
  rewrite (H x (or_introl eq_refl)). apply IH. intros y Hy. apply H. right. exact Hy.
Qed.

Lemma existsb_map_fn {A B} (f : B -> bool) (g : A -> B) (l : list A) :
  existsb f (map g l) = existsb (fun x => f (g x)) l.
Proof. induction l as [|x l IH]; simpl; [reflexivity|]. rewrite IH. reflexivity. Qed.

Section AssocFold.
Context {K V : Type} (eqb : K -> K -> bool).
Hypothesis eqb_spec : forall x y, reflect (x = y) (eqb x y).

Lemma assoc_set_keys (m : list (K * V)) k v :
  map fst (assoc_set eqb m k v) = if assoc_mem eqb m k then map fst m else map fst m ++ [k].
Proof.
  unfold assoc_mem. induction m as [|[k' v'] m IH]; simpl; [reflexivity|].
  destruct (eqb_spec k' k) as [->|Hne]; simpl; [reflexivity|].
  rewrite IH. destruct (existsb _ m); reflexivity.
Qed.

Lemma assoc_mem_in (m : list (K * V)) k :
  assoc_mem eqb m k = true <-> In k (map fst m).
Proof.
  unfold assoc_mem. rewrite existsb_exists. split.
  - intros [[k0 v0] [Hin Hk]]. simpl in Hk.
    destruct (eqb_spec k0 k) as [<-|]; [|discriminate].
    apply in_map_iff. exists (k0, v0). split; [reflexivity|exact Hin].
  - intros Hin. apply in_map_iff in Hin as [[k0 v0] [Hk Hin]]. simpl in Hk. subst k0.
    exists (k, v0). split; [exact Hin|]. simpl. destruct (eqb_spec k k); congruence.
Qed.

Lemma assoc_set_nodup (m : list (K * V)) k v :
  NoDup (map fst m) -> NoDup (map fst (assoc_set eqb m k v)).
Proof.
  intros Hnd. rewrite assoc_set_keys.
  destruct (assoc_mem eqb m k) eqn:Hmem; [exact Hnd|].
  apply Permutation_NoDup with (k :: map fst m); [apply Permutation_cons_append|].
  constructor; [|exact Hnd].
  rewrite <- assoc_mem_in. congruence.
Qed.

Lemma assoc_get_in (m : list (K * V)) k v :
  assoc_get eqb m k = Some v -> In (k, v) m.
Proof.
  induction m as [|[k0 v0] m IH]; simpl; [discriminate|].
  destruct (eqb_spec k0 k) as [->|]; [intros H; injection H as ->; left; reflexivity|].
  intros H. right. apply IH, H.
Qed.

Lemma assoc_get_nodup_in (m : list (K * V)) k v :
  NoDup (map fst m) -> In (k, v) m -> assoc_get eqb m k = Some v.
Proof.
  induction m as [|[k0 v0] m IH]; simpl; [contradiction|].
  intros Hnd Hin. inversion Hnd as [|? ? Hnotin Hnd']; subst.
  destruct Hin as [Heq|Hin].
  - injection Heq as -> ->. destruct (eqb_spec k k); congruence.
  - destruct (eqb_spec k0 k) as [->|]; [|apply IH; assumption].
    exfalso. apply Hnotin. apply in_map_iff. exists (k, v). split; [reflexivity|exact Hin].
Qed.

Lemma assoc_get_fold_set {A} (key : A -> K) (val : A -> V) (l : list A) (d0 : list (K * V)) k :
  assoc_get eqb (fold_left (fun d p => assoc_set eqb d (key p) (val p)) l d0) k =
  match find (fun p => eqb (key p) k) (rev l) with
  | Some p => Some (val p)
  | None => assoc_get eqb d0 k
  end.
Proof.
  revert d0. induction l as [|p l IH]; intros d0; simpl; [reflexivity|].
  rewrite IH, find_app. simpl.
  destruct (find _ (rev l)); [reflexivity|].
  destruct (eqb_spec (key p) k) as [<-|Hne].
  - apply (assoc_get_set_same eqb eqb_spec).
  - apply (assoc_get_set_other eqb eqb_spec). intros Heq. apply Hne. symmetry. exact Heq.
Qed.

Lemma fold_set_nodup {A} (key : A -> K) (val : A -> V) (l : list A) (d0 : list (K * V)) :
  NoDup (map fst d0) ->
  NoDup (map fst (fold_left (fun d p => assoc_set eqb d (key p) (val p)) l d0)).
Proof.
  revert d0. induction l as [|p l IH]; intros d0 Hnd; simpl; [exact Hnd|].
  apply IH, assoc_set_nodup, Hnd.
Qed.

Lemma assoc_mem_keys (m : list (K * V)) k :
  assoc_mem eqb m k = existsb (fun x => eqb x k) (map fst m).
Proof. unfold assoc_mem. rewrite existsb_map_fn. reflexivity. Qed.

Lemma assoc_mem_set (m : list (K * V)) k v k' :
  assoc_mem eqb (assoc_set eqb m k v) k' = assoc_mem eqb m k' || eqb k k'.
Proof.
  rewrite !assoc_mem_keys, assoc_set_keys.
  destruct (assoc_mem eqb m k) eqn:Hmem.
  - destruct (eqb_spec k k') as [<-|]; [|rewrite orb_false_r; reflexivity].
    rewrite <- assoc_mem_keys, Hmem. reflexivity.
  - rewrite existsb_app. simpl. rewrite orb_false_r. reflexivity.
Qed.

Lemma fold_set_keys {A} (key : A -> K) (val : A -> V) (l : list A) (d0 : list (K * V)) k :
  assoc_mem eqb (fold_left (fun d p => assoc_set eqb d (key p) (val p)) l d0) k =
  assoc_mem eqb d0 k || existsb (fun p => eqb (key p) k) l.
Proof.
  revert d0. induction l as [|p l IH]; intros d0; simpl; [symmetry; apply orb_false_r|].
  rewrite IH, assoc_mem_set, orb_assoc. reflexivity.
Qed.
End AssocFold.

Lemma find_rev_nodup {V} (l : list (string * V)) k :
  NoDup (map fst l) ->
  find (fun p => String.eqb (fst p) k) (rev l) = find (fun p => String.eqb (fst p) k) l.
Proof.
  induction l as [|p l IH]; simpl; intros Hnd; [reflexivity|].
  inversion Hnd as [|? ? Hnotin Hnd']; subst.
  rewrite find_app, IH by exact Hnd'. simpl.
  destruct (String.eqb_spec (fst p) k) as [Hk|Hk].
  - rewrite find_none_forall; [reflexivity|].
    intros x Hx. destruct (String.eqb_spec (fst x) k); [|reflexivity].
    exfalso. apply Hnotin. rewrite Hk, <- e. apply in_map, Hx.
  - destruct (find _ l); reflexivity.
Qed.

(** ** Strings: split and join *)

Lemma str_append_assoc (a b c : string) :
  String.append (String.append a b) c = String.append a (String.append b c).
Proof. induction a as [|x a IH]; simpl; [reflexivity|]. rewrite IH. reflexivity. Qed.

Lemma str_append_nil (a : string) : String.append a EmptyString = a.
Proof. induction a as [|x a IH]; simpl; [reflexivity|]. rewrite IH. reflexivity. Qed.

Lemma split_aux_lacks (c : ascii) (x s cur : string) :
  lacks c x -> split_aux c (String.append x s) cur = split_aux c s (String.append cur x).
Proof.
  unfold lacks. revert cur. induction x as [|d x IH]; intros cur Hx; simpl.
  - rewrite str_append_nil. reflexivity.
  - destruct (Ascii.eqb_spec d c) as [->|Hne]; [exfalso; apply Hx; left; reflexivity|].
    rewrite IH by (intros H; apply Hx; right; exact H).
    rewrite str_append_assoc. reflexivity.
Qed.

Lemma split_lacks (c : ascii) (x : string) : lacks c x -> split c x = [x].
Proof.
  intros Hx. unfold split. rewrite <- (str_append_nil x) at 1.
  rewrite split_aux_lacks by exact Hx. reflexivity.
Qed.

Lemma split_join (c : ascii) (l : list string) :
  l <> [] -> Forall (lacks c) l -> split c (join (String c EmptyString) l) = l.
Proof.
  induction l as [|x l IH]; intros Hne Hl; [congruence|].
  inversion Hl as [|? ? Hx Hl']; subst.
  destruct l as [|y l].
  - apply split_lacks, Hx.
  - change (join (String c EmptyString) (x :: y :: l))
      with (String.append x (String.append (String c EmptyString)
              (join (String c EmptyString) (y :: l)))).
    unfold split. rewrite split_aux_lacks by exact Hx. simpl.
    rewrite Ascii.eqb_refl. f_equal. apply IH; [discriminate|exact Hl'].
Qed.

Lemma split_aux_last_sep (c : ascii) (b : string) :
  forall s cur, exists pre,
    split_aux c (String.append s (String c b)) cur = pre ++ split_aux c b EmptyString.
Proof.
  induction s as [|d s IH]; intros cur; simpl.
  - rewrite Ascii.eqb_refl. exists [cur]. reflexivity.
  - destruct (Ascii.eqb d c).
    + destruct (IH EmptyString) as [pre Hpre]. exists (cur :: pre). rewrite Hpre. reflexivity.
    + apply IH.
Qed.

Lemma last_split_after_sep (c : ascii) (h b : string) :
  lacks c b -> last (split c (String.append h (String c b))) EmptyString = b.
Proof.
  intros Hb. unfold split. destruct (split_aux_last_sep c b h EmptyString) as [pre ->].
  fold (split c b). rewrite split_lacks by exact Hb. apply last_last.
Qed.

(** ** SampleSheetParser *)

Lemma get_mapping_entries_from (rows : list string) (m : list (string * string)) :
  fold_left (fun m row =>
      match samplesheet_entry row with
      | Some (barcode, sample) => assoc_set String.eqb m barcode sample
      | None => m
      end) rows m =
  fold_left (fun d p => assoc_set String.eqb d (fst p) (snd p)) (samplesheet_entries rows) m.
Proof.
  unfold samplesheet_entries. revert m.
  induction rows as [|row rows IH]; intros m; simpl; [reflexivity|].
  rewrite fold_left_app. destruct (samplesheet_entry row) as [[b v]|]; simpl; apply IH.
Qed.

Lemma get_mapping_entries (rows : list string) :
  get_barcode_to_sample_mapping rows =
  fold_left (fun d p => assoc_set String.eqb d (fst p) (snd p)) (samplesheet_entries rows) [].
Proof. apply get_mapping_entries_from. Qed.

Lemma get_mapping_nodup (rows : list string) :
  NoDup (map fst (get_barcode_to_sample_mapping rows)).
Proof.
  rewrite get_mapping_entries. apply (fold_set_nodup String.eqb string_eqb_spec). constructor.
Qed.

(** X1: in the mapping read from a sample sheet, a barcode maps to the
    sample of the last usable row (at least two tab-separated fields, none
    empty after stripping) whose fields after the first join with ["+"] to
    that barcode; a barcode no usable row produces is absent. *)
Theorem samplesheet_last_row_wins (rows : list string) (barcode : string) :
  assoc_get String.eqb (get_barcode_to_sample_mapping rows) barcode =
  option_map snd (find (fun e => String.eqb (fst e) barcode) (rev (samplesheet_entries rows))).
Proof.
  rewrite get_mapping_entries, (assoc_get_fold_set String.eqb string_eqb_spec).
  destruct (find _ _); reflexivity.
Qed.

(** X2: a row the sample sheet parser uses is split into its fields; the
    sample is the first field and, when no field contains ["+"], splitting
    the barcode key on ["+"] (as [match_mismatched_barcode] does with the
    known barcodes) gives back the remaining fields: one segment per index
    column. *)
Theorem samplesheet_key_segments (row barcode sample : string) :
  samplesheet_entry row = Some (barcode, sample) ->
  Forall (lacks plus_char) (samplesheet_fields row) ->
  sample = hd EmptyString (samplesheet_fields row) /\
  split plus_char barcode = tl (samplesheet_fields row) /\
  (1 <= length (split plus_char barcode))%nat.
Proof.
  unfold samplesheet_entry.
  destruct (Nat.ltb_spec 1 (length (samplesheet_fields row))) as [Hlen|]; simpl;
    [|discriminate].
  destruct (forallb _ _); [|discriminate].
  intros H; injection H as <- <-. intros Hplus.
  assert (Htl : tl (samplesheet_fields row) <> []).
  { destruct (samplesheet_fields row) as [|x [|y l]]; simpl in *; [lia|lia|discriminate]. }
  assert (Hsplit : split plus_char (join plus_str (tl (samplesheet_fields row)))
                   = tl (samplesheet_fields row)).
  { apply split_join; [exact Htl|].
    destruct (samplesheet_fields row); [constructor|]. inversion Hplus; assumption. }
  split; [reflexivity|]. split; [exact Hsplit|].
  rewrite Hsplit. destruct (tl _); [congruence|simpl; lia].
Qed.

Lemma samplesheet_key_segments_witness :
  let row := String.append "S1" (String tab_char (String.append "AAAA"
               (String tab_char (String.append "CCCC" newline_str)))) in
  samplesheet_entry row = Some ("AAAA+CCCC"%string, "S1"%string) /\
  Forall (lacks plus_char) (samplesheet_fields row) /\
  "S1"%string = hd EmptyString (samplesheet_fields row) /\
  split plus_char "AAAA+CCCC" = tl (samplesheet_fields row) /\
  (1 <= length (split plus_char "AAAA+CCCC"))%nat.
Proof.
  intros row.
  assert (Hf : samplesheet_fields row = ["S1"; "AAAA"; "CCCC"]%string) by reflexivity.
  assert (He : samplesheet_entry row = Some ("AAAA+CCCC"%string, "S1"%string)) by reflexivity.
  assert (Hp : Forall (lacks plus_char) (samplesheet_fields row)).
  { rewrite Hf. repeat constructor; unfold lacks; simpl; intuition discriminate. }
  split; [exact He|]. split; [exact Hp|].
  apply (samplesheet_key_segments row); [exact He|exact Hp].
Defined.

(** ** Sums of integers *)

Lemma fold_add_shift (l : list Z) (a b : Z) :
  fold_left Z.add l (a + b) = a + fold_left Z.add l b.
Proof.
  revert b. induction l as [|x l IH]; intros b; simpl; [reflexivity|].
  rewrite <- Z.add_assoc. apply IH.
Qed.

Lemma sum_z_acc (l : list Z) (a : Z) : fold_left Z.add l a = a + sum_z l.
Proof. unfold sum_z. rewrite <- fold_add_shift, Z.add_0_r. reflexivity. Qed.

Lemma sum_z_nil : sum_z [] = 0.
Proof. reflexivity. Qed.

Lemma sum_z_cons (x : Z) (l : list Z) : sum_z (x :: l) = x + sum_z l.
Proof. unfold sum_z at 1. simpl. rewrite sum_z_acc. lia. Qed.

Lemma sum_z_app (l1 l2 : list Z) : sum_z (l1 ++ l2) = sum_z l1 + sum_z l2.
Proof.
  induction l1 as [|x l1 IH]; [rewrite sum_z_nil; reflexivity|].
  rewrite <- app_comm_cons, !sum_z_cons, IH. lia.
Qed.

Lemma sum_z_perm (l1 l2 : list Z) : Permutation l1 l2 -> sum_z l1 = sum_z l2.
Proof.
  induction 1; rewrite ?sum_z_cons; lia.
Qed.

Lemma sum_z_map_plus {A} (f g : A -> Z) (l : list A) :
  sum_z (map (fun x => f x + g x) l) = sum_z (map f l) + sum_z (map g l).
Proof.
  induction l as [|x l IH]; [reflexivity|]. simpl map. rewrite !sum_z_cons, IH. lia.
Qed.

Lemma sum_z_map_zero {A} (l : list A) : sum_z (map (fun _ => 0) l) = 0.
Proof. induction l as [|x l IH]; [reflexivity|]. simpl map. rewrite sum_z_cons, IH. lia. Qed.

Lemma sum_z_map_ext {A} (f g : A -> Z) (l : list A) :
  (forall x, In x l -> f x = g x) -> sum_z (map f l) = sum_z (map g l).
Proof. intros H. f_equal. apply map_ext_in, H. Qed.

Lemma counter_total_sum {K} (c : list (K * Z)) : counter_total c = sum_z (map snd c).
Proof.
  induction c as [|p c IH]; [reflexivity|]. simpl map. rewrite sum_z_cons, <- IH.
  reflexivity.
Qed.

Lemma sum_seq_indicator (k v : Z) (n : nat) :
  sum_z (map (fun d => if Z.eqb k (Z.of_nat d) then v else 0) (seq 0 n)) =
  if (0 <=? k) && (k <? Z.of_nat n) then v else 0.
Proof.
  induction n as [|n IH].
  - simpl. rewrite sum_z_nil. destruct (Z.leb_spec 0 k); destruct (Z.ltb_spec k 0); simpl; lia.
  - rewrite seq_S, map_app, sum_z_app, IH. simpl map. rewrite sum_z_cons, sum_z_nil.
    destruct (Z.eqb_spec k (Z.of_nat n)); destruct (Z.leb_spec 0 k);
      destruct (Z.ltb_spec k (Z.of_nat n)); destruct (Z.ltb_spec k (Z.of_nat (S n)));
      simpl; lia.
Qed.

Lemma fold_max_bounds (l : list Z) (a : Z) :
  a <= fold_left Z.max l a /\ Forall (fun x => x <= fold_left Z.max l a) l.
Proof.
  revert a. induction l as [|x l IH]; intros a; simpl; [split; [lia|constructor]|].
  destruct (IH (Z.max a x)) as [Ha Hl]. split; [lia|]. constructor; [lia|exact Hl].
Qed.

Lemma assoc_get_mem_some {V} (m : list (string * V)) k :
  assoc_mem String.eqb m k = true -> exists v, assoc_get String.eqb m k = Some v.
Proof.
  intros Hmem. destruct (assoc_get String.eqb m k) as [v|] eqn:Hget; [eauto|].
  apply (assoc_get_none_mem String.eqb) in Hget. congruence.
Qed.

Lemma counter_get_cons_nodup (k v : Z) (c : list (Z * Z)) (d : Z) :
  ~ In k (map fst c) ->
  counter_get Z.eqb ((k, v) :: c) d = (if Z.eqb k d then v else 0) + counter_get Z.eqb c d.
Proof.
  intros Hk. unfold counter_get. simpl.
  destruct (Z.eqb_spec k d) as [<-|]; [|lia].
  destruct (assoc_get Z.eqb c k) as [w|] eqn:Hget; [|lia].
  exfalso. apply Hk. apply (assoc_get_in Z.eqb z_eqb_spec) in Hget.
  apply in_map_iff. exists (k, w). split; [reflexivity|exact Hget].
Qed.

(** Summing a histogram over the distances [0 .. n-1] that cover its keys
    gives its total. *)
Lemma counter_sum_seq (c : list (Z * Z)) (n : nat) :
  NoDup (map fst c) -> Forall (fun d => 0 <= d < Z.of_nat n) (map fst c) ->
  sum_z (map (fun d => counter_get Z.eqb c (Z.of_nat d)) (seq 0 n)) = counter_total c.
Proof.
  induction c as [|[k v] c IH]; intros Hnd Hrange.
  - unfold counter_get. simpl. apply sum_z_map_zero.
  - inversion Hnd as [|? ? Hk Hnd']; subst. inversion Hrange as [|? ? Hkr Hr']; subst.
    rewrite (sum_z_map_ext _ (fun d => (if Z.eqb k (Z.of_nat d) then v else 0) +
                                        counter_get Z.eqb c (Z.of_nat d)))
      by (intros d _; apply counter_get_cons_nodup, Hk).
    rewrite sum_z_map_plus, sum_seq_indicator, IH by assumption. simpl in Hkr.
    destruct (Z.leb_spec 0 k); destruct (Z.ltb_spec k (Z.of_nat n)); simpl; lia.
Qed.

Lemma nth_map_seq_z (f : nat -> Z) (n i : nat) :
  (i < n)%nat -> nth i (map f (seq 0 n)) 0 = f i.
Proof.
  intros H. rewrite nth_indep with (d' := f 0%nat) by (rewrite length_map, length_seq; exact H).
  rewrite map_nth, seq_nth by exact H. reflexivity.
Qed.

(** ** DemultiplexResults.barcode_mismatch_counts *)

(** X3: [barcode_mismatch_counts] raises [KeyError] for a barcode without
    a histogram; otherwise it returns a nonempty list whose entry at every
    distance [d >= 0] is the histogram's count for [d] (counts beyond the
    list's end are 0), so no counted distance is left out. *)
Theorem barcode_mismatch_counts_histogram (r : results) (barcode : string) :
  (assoc_mem String.eqb (barcode_mismatches_count r) barcode = false ->
   barcode_mismatch_counts r barcode = Err KeyError) /\
  (forall c, assoc_get String.eqb (barcode_mismatches_count r) barcode = Some c ->
   exists l, barcode_mismatch_counts r barcode = Ok l /\ (1 <= length l)%nat /\
     forall d, 0 <= d -> nth (Z.to_nat d) l 0 = counter_get Z.eqb c d).
Proof.
  unfold barcode_mismatch_counts. split.
  - intros Hmem. apply (assoc_get_none_mem String.eqb) in Hmem. rewrite Hmem. reflexivity.
  - intros c Hc. rewrite Hc.
    destruct (fold_max_bounds (map fst c) 0) as [Hm0 Hmax].
    set (M := fold_left Z.max (map fst c) 0) in *.
    eexists. split; [reflexivity|]. rewrite length_map, length_seq. split; [lia|].
    intros d Hd.
    destruct (Nat.ltb_spec (Z.to_nat d) (Z.to_nat (M + 1))) as [Hlt|Hge].
    + rewrite (nth_map_seq_z (fun d => counter_get Z.eqb c (Z.of_nat d))) by exact Hlt.
      rewrite Z2Nat.id by lia. reflexivity.
    + rewrite nth_overflow by (rewrite length_map, length_seq; exact Hge).
      unfold counter_get. destruct (assoc_get Z.eqb c d) as [v|] eqn:Hget; [|reflexivity].
      apply (assoc_get_in Z.eqb z_eqb_spec) in Hget.
      assert (Hin : In d (map fst c)) by (apply in_map_iff; exists (d, v); split; auto).
      rewrite Forall_forall in Hmax. specialize (Hmax d Hin). lia.
Qed.

Lemma barcode_mismatch_counts_histogram_witness :
  let r := add (add (init_results sample_mapping) "ACGT"%string 1 2) "ACGT"%string 3 0 in
  barcode_mismatch_counts r "TTTT"%string = Err KeyError /\
  exists l, barcode_mismatch_counts r "ACGT"%string = Ok l /\ (1 <= length l)%nat /\
    forall d, 0 <= d -> nth (Z.to_nat d) l 0 = counter_get Z.eqb [(2, 1); (0, 3)] d.
Proof.
  intros r. split.
  - apply (proj1 (barcode_mismatch_counts_histogram r "TTTT"%string)). reflexivity.
  - apply (proj2 (barcode_mismatch_counts_histogram r "ACGT"%string)). reflexivity.
Defined.

(** ** Histogram invariant of a run *)

Lemma hist_inv_init (m : list (string * string)) : hist_inv (init_results m).
Proof.
  split; [constructor|]. intros b c Hb. simpl in Hb.
  apply (assoc_get_in String.eqb string_eqb_spec) in Hb.
  apply in_map_iff in Hb as [p [Hp _]]. injection Hp as _ <-.
  split; [constructor|]. split; [constructor|]. reflexivity.
Qed.

Lemma hist_inv_add (r : results) (barcode : string) (n distance : Z) :
  0 <= distance -> hist_inv r -> hist_inv (add r barcode n distance).
Proof.
  intros Hd [Hnd Hh]. unfold add. split; cbn [barcode_counts].
  - apply (assoc_set_nodup String.eqb string_eqb_spec), Hnd.
  - intros b c. cbn [barcode_mismatches_count].
    assert (Hother : b <> barcode ->
              assoc_get String.eqb (barcode_mismatches_count r) b = Some c ->
              NoDup (map fst c) /\ Forall (fun d => 0 <= d) (map fst c) /\
              counter_total c = counter_get String.eqb
                (counter_add String.eqb (barcode_counts r) barcode n) b).
    { intros Hne Hb. destruct (Hh b c Hb) as (H1 & H2 & H3).
      split; [exact H1|]. split; [exact H2|].
      rewrite (counter_get_add_other String.eqb string_eqb_spec) by exact Hne. exact H3. }
    destruct (assoc_get String.eqb (barcode_mismatches_count r) barcode) as [c0|] eqn:Hb0.
    + destruct (String.eqb_spec b barcode) as [->|Hne].
      * rewrite (assoc_get_set_same String.eqb string_eqb_spec). intros H; injection H as <-.
        destruct (Hh barcode c0 Hb0) as (H1 & H2 & H3).
        split; [apply (assoc_set_nodup Z.eqb z_eqb_spec), H1|].
        split.
        -- unfold counter_add. rewrite (assoc_set_keys Z.eqb z_eqb_spec).
           destruct (assoc_mem _ _ _); [exact H2|].
           apply Forall_app. split; [exact H2|constructor; [exact Hd|constructor]].
        -- rewrite (counter_total_add Z.eqb), (counter_get_add_same String.eqb string_eqb_spec).
           lia.
      * rewrite (assoc_get_set_other String.eqb string_eqb_spec) by exact Hne.
        apply Hother, Hne.
    + destruct (String.eqb_spec b barcode) as [->|Hne]; [congruence|].
      apply Hother, Hne.
Qed.

Lemma hist_keys_ok_add (r : results) (barcode : string) (n distance : Z) :
  hist_keys_ok r -> hist_keys_ok (add r barcode n distance).
Proof.
  unfold hist_keys_ok, in_mapping, add. cbn [barcode_mismatches_count barcode_to_sample_mapping].
  intros Hk b.
  destruct (assoc_get String.eqb (barcode_mismatches_count r) barcode) as [c|] eqn:Hb;
    [|apply Hk].
  rewrite (assoc_mem_set String.eqb string_eqb_spec).
  destruct (String.eqb_spec barcode b) as [<-|]; [|rewrite orb_false_r; apply Hk].
  rewrite orb_true_r, <- Hk. symmetry.
  destruct (assoc_mem String.eqb _ barcode) eqn:Hm; [reflexivity|].
  apply (assoc_get_none_mem String.eqb) in Hm. congruence.
Qed.

Lemma match_segments_distance_ge u mm keys sindexes :
  forall ix mk dist mk' dist',
  match_segments u mm keys ix sindexes mk dist = Ok (mk', dist') -> dist <= dist'.
Proof.
  induction sindexes as [|x rest IH]; intros ix mk dist mk' dist'; simpl.
  - intros H; injection H as _ <-. lia.
  - destruct (known_segments u keys ix) as [known|]; cbn [bind]; [|discriminate].
    destruct (match_mismatched_single_barcode mm x known) as [md|]; cbn [bind];
      [|discriminate].
    intros H. apply IH in H. lia.
Qed.

Lemma mismatched_resolution_distance_nonneg u mm keys barcode matched distance counted :
  mismatched_resolution u mm keys barcode = Ok (matched, distance, counted) -> 0 <= distance.
Proof.
  unfold mismatched_resolution.
  destruct (match_segments u mm keys O (split plus_char barcode) [] 0) as [[mk d]|] eqn:Hm;
    cbn [bind]; [|discriminate].
  apply match_segments_distance_ge in Hm.
  destruct (existsb _ keys); intros H; injection H as _ <- _; simpl; lia.
Qed.

Lemma demultiplex_record_step_inv d s record barcode s' :
  run_memo_ok d s -> demultiplex_record d s record barcode = Ok s' ->
  run_memo_ok d s' /\
  exists counted distance, 0 <= distance /\
    demultiplex_results s' = add (demultiplex_results s) counted 1 distance.
Proof.
  destruct d as [e|e]; unfold demultiplex_record, run_memo_ok; intros Hok H.
  - apply demultiplex_record_exact_results in H. split; [exact I|].
    exists barcode, 0. split; [lia|exact H].
  - destruct (demultiplex_record_mismatch_memo _ e s record barcode s' Hok H)
      as (Hok' & _ & _ & matched & distance & counted & Hres & _ & Hr & _).
    split; [exact Hok'|]. exists counted, distance. split; [|exact Hr].
    eapply mismatched_resolution_distance_nonneg, Hres.
Qed.

Lemma demultiplex_inv d s records s' :
  run_memo_ok d s -> hist_inv (demultiplex_results s) -> hist_keys_ok (demultiplex_results s) ->
  demultiplex d s records = Ok s' ->
  hist_inv (demultiplex_results s') /\ hist_keys_ok (demultiplex_results s') /\
  barcode_to_sample_mapping (demultiplex_results s') =
    barcode_to_sample_mapping (demultiplex_results s).
Proof.
  revert s. induction records as [|[record barcode] records IH]; intros s Hok Hh Hk; simpl.
  - intros H; injection H as <-. auto.
  - destruct (demultiplex_record d s record barcode) as [s1|] eqn:Hrec; cbn [bind];
      [|discriminate].
    intros H.
    destruct (demultiplex_record_step_inv d s record barcode s1 Hok Hrec)
      as (Hok1 & counted & distance & Hd & Hr).
    destruct (IH s1 Hok1) as (H1 & H2 & H3).
    + rewrite Hr. apply hist_inv_add; assumption.
    + rewrite Hr. apply hist_keys_ok_add, Hk.
    + exact H.
    + split; [exact H1|]. split; [exact H2|]. rewrite H3, Hr. reflexivity.
Qed.

Lemma run_memo_ok_init d m : run_memo_ok d (init_state m).
Proof.
  destruct d; simpl; [exact I|]. intros b v H. discriminate H.
Qed.

Lemma demultiplex_init_inv d m records s :
  demultiplex d (init_state m) records = Ok s ->
  hist_inv (demultiplex_results s) /\ hist_keys_ok (demultiplex_results s) /\
  barcode_to_sample_mapping (demultiplex_results s) = m.
Proof.
  intros H. apply demultiplex_inv in H;
    [exact H|apply run_memo_ok_init|apply hist_inv_init|apply init_results_hist_keys_ok].
Qed.

Lemma mismatch_counts_sum (r : results) (barcode : string) (c : list (Z * Z)) :
  hist_inv r -> assoc_get String.eqb (barcode_mismatches_count r) barcode = Some c ->
  exists l, barcode_mismatch_counts r barcode = Ok l /\
    l = map (fun d => counter_get Z.eqb c (Z.of_nat d)) (seq 0 (length l)) /\
    sum_z l = counter_get String.eqb (barcode_counts r) barcode.
Proof.
  intros [_ Hh] Hc. destruct (Hh barcode c Hc) as (Hnd & Hnn & Htot).
  unfold barcode_mismatch_counts. rewrite Hc.
  destruct (fold_max_bounds (map fst c) 0) as [Hm0 Hmax].
  eexists. split; [reflexivity|]. split; [rewrite length_map, length_seq; reflexivity|].
  rewrite counter_sum_seq; [exact Htot|exact Hnd|].
  rewrite Forall_forall in *. intros d Hin.
  specialize (Hmax d Hin). specialize (Hnn d Hin). lia.
Qed.

(** X4: after any run of either demultiplexer from a fresh state, for each
    barcode of the mapping [barcode_mismatch_counts] succeeds and its
    entries add up to the barcode's count: every read counted for a known
    barcode lies in exactly one mismatch bin.  For any other barcode it
    raises [KeyError]. *)
Theorem demultiplex_mismatch_counts_sum (d : demultiplexer) (m : list (string * string))
    (records : list (fastq_record * string)) (s : state) :
  demultiplex d (init_state m) records = Ok s ->
  forall barcode,
    (assoc_mem String.eqb m barcode = true ->
     exists l, barcode_mismatch_counts (demultiplex_results s) barcode = Ok l /\
       sum_z l = counter_get String.eqb (barcode_counts (demultiplex_results s)) barcode) /\
    (assoc_mem String.eqb m barcode = false ->
     barcode_mismatch_counts (demultiplex_results s) barcode = Err KeyError).
Proof.
  intros Hrun barcode.
  destruct (demultiplex_init_inv d m records s Hrun) as (Hinv & Hk & Hm).
  specialize (Hk barcode). unfold in_mapping in Hk. rewrite Hm in Hk.
  split.
  - intros Hmem. rewrite <- Hk in Hmem. apply assoc_get_mem_some in Hmem as [c Hc].
    destruct (mismatch_counts_sum _ barcode c Hinv Hc) as (l & Hl & _ & Hsum). eauto.
  - intros Hmem. rewrite <- Hk in Hmem. unfold barcode_mismatch_counts.
    apply (assoc_get_none_mem String.eqb) in Hmem. rewrite Hmem. reflexivity.
Qed.

Lemma demultiplex_mismatch_counts_sum_witness :
  exists s,
    demultiplex (create_fastq_demultiplexer sample_writers "Unknown"%string 1)
      (init_state sample_mapping) sample_records = Ok s /\
    (exists l, barcode_mismatch_counts (demultiplex_results s) "ACGT"%string = Ok l /\
       sum_z l = counter_get String.eqb (barcode_counts (demultiplex_results s)) "ACGT"%string) /\
    barcode_mismatch_counts (demultiplex_results s) "TTTT"%string = Err KeyError.
Proof.
  eexists. split; [reflexivity|]. split.
  - apply (proj1 (demultiplex_mismatch_counts_sum
                    (create_fastq_demultiplexer sample_writers "Unknown"%string 1)
                    sample_mapping sample_records _ eq_refl "ACGT"%string)).
    reflexivity.
  - apply (proj2 (demultiplex_mismatch_counts_sum
                    (create_fastq_demultiplexer sample_writers "Unknown"%string 1)
                    sample_mapping sample_records _ eq_refl "TTTT"%string)).
    reflexivity.
Defined.

(** ** DemultiplexResults.stats_json *)

Lemma map_result_forall2 {A B} (f : A -> result B) (l : list A) (ys : list B) :
  map_result f l = Ok ys <-> Forall2 (fun x y => f x = Ok y) l ys.
Proof.
  revert ys. induction l as [|x l IH]; intros ys; simpl.
  - split; [intros H; injection H as <-; constructor|intros H; inversion H; reflexivity].
  - split.
    + destruct (f x) as [y|] eqn:Hx; cbn [bind]; [|discriminate].
      destruct (map_result f l) as [ys'|] eqn:Hl; cbn [bind]; [|discriminate].
      intros H; injection H as <-. constructor; [exact Hx|apply IH; reflexivity].
    + intros H. inversion H as [|? y ? ys' Hx Hl]; subst.
      rewrite Hx. cbn [bind]. apply IH in Hl. rewrite Hl. reflexivity.
Qed.

Lemma map_result_exists {A B} (f : A -> result B) (l : list A) :
  (forall x, In x l -> exists y, f x = Ok y) -> exists ys, map_result f l = Ok ys.
Proof.
  induction l as [|x l IH]; intros H; simpl; [eauto|].
  destruct (H x (or_introl eq_refl)) as [y Hy]. rewrite Hy. cbn [bind].
  destruct IH as [ys Hys]; [intros z Hz; apply H; right; exact Hz|].
  rewrite Hys. cbn [bind]. eauto.
Qed.

Lemma forall2_in_right {A B} (R : A -> B -> Prop) (l1 : list A) (l2 : list B) y :
  Forall2 R l1 l2 -> In y l2 -> exists x, In x l1 /\ R x y.
Proof.
  induction 1 as [|x y' l1 l2 Hxy _ IH]; simpl; [contradiction|].
  intros [<-|Hin]; [exists x; split; [left; reflexivity|exact Hxy]|].
  destruct (IH Hin) as [x' [Hx' Hr]]. exists x'. split; [right; exact Hx'|exact Hr].
Qed.

Lemma forall2_map_left {A A' B} (R : A' -> B -> Prop) (f : A -> A') (l : list A) (ys : list B) :
  Forall2 R (map f l) ys -> Forall2 (fun x y => R (f x) y) l ys.
Proof.
  revert ys. induction l as [|x l IH]; intros ys H; simpl in H;
    inversion H; subst; constructor; [assumption|apply IH; assumption].
Qed.

Lemma assoc_get_map_order {A} (f : string -> A) (order : list string) k :
  In k order -> assoc_get String.eqb (map (fun s => (s, f s)) order) k = Some (f k).
Proof.
  induction order as [|s order IH]; simpl; [contradiction|].
  intros Hk. destruct (String.eqb_spec s k) as [->|Hne]; [reflexivity|].
  apply IH. destruct Hk; [congruence|assumption].
Qed.

Lemma assoc_set_map_order {A} (f : string -> A) (order : list string) k v :
  NoDup order -> In k order ->
  assoc_set String.eqb (map (fun s => (s, f s)) order) k v =
  map (fun s => (s, if String.eqb s k then v else f s)) order.
Proof.
  induction order as [|s order IH]; simpl; [contradiction|].
  intros Hnd Hk. inversion Hnd as [|? ? Hs Hnd']; subst.
  destruct (String.eqb_spec s k) as [->|Hne].
  - f_equal. apply map_ext_in. intros s' Hs'.
    destruct (String.eqb_spec s' k) as [->|]; [contradiction|reflexivity].
  - f_equal. apply IH; [exact Hnd'|]. destruct Hk; [congruence|assumption].
Qed.

(** The groups [_sample_to_barcode] builds: each sample of the order with
    its barcodes in mapping order. *)
Lemma sample_to_barcode_groups (r : results) (order : list string) :
  NoDup order ->
  (forall p, In p (barcode_to_sample_mapping r) -> In (snd p) order) ->
  sample_to_barcode r order =
  Ok (map (fun s => (s, map fst (filter (fun p => String.eqb (snd p) s)
                                   (barcode_to_sample_mapping r)))) order).
Proof.
  intros Hnd. unfold sample_to_barcode.
  induction (barcode_to_sample_mapping r) as [|p l IH] using rev_ind; intros Hcov.
  - simpl. reflexivity.
  - rewrite fold_left_app, IH by (intros q Hq; apply Hcov, in_or_app; left; exact Hq).
    cbn [fold_left bind].
    assert (Hp : In (snd p) order) by (apply Hcov, in_or_app; right; left; reflexivity).
    rewrite (assoc_get_map_order (fun s => map fst (filter (fun q => String.eqb (snd q) s) l)))
      by exact Hp.
    rewrite (assoc_set_map_order (fun s => map fst (filter (fun q => String.eqb (snd q) s) l)))
      by assumption.
    f_equal. apply map_ext. intros s. rewrite filter_app, map_app. simpl.
    destruct (String.eqb_spec s (snd p)) as [->|Hne].
    + rewrite String.eqb_refl. reflexivity.
    + destruct (String.eqb_spec (snd p) s); [congruence|]. rewrite app_nil_r. reflexivity.
Qed.

Lemma mismatch_counts_dict_ok (r : results) (barcode : string) (c : list (Z * Z)) :
  hist_inv r -> assoc_get String.eqb (barcode_mismatches_count r) barcode = Some c ->
  exists mc, mismatch_counts_dict r barcode = Ok mc /\
    sum_z (map snd mc) = counter_get String.eqb (barcode_counts r) barcode.
Proof.
  intros Hinv Hc. destruct (mismatch_counts_sum r barcode c Hinv Hc) as (l & Hl & Heq & Hsum).
  unfold mismatch_counts_dict. rewrite Hl. cbn [bind]. rewrite Hc.
  eexists. split; [reflexivity|]. rewrite map_map. simpl. rewrite <- Heq. exact Hsum.
Qed.

Lemma flat_map_ext_in {A B} (f g : A -> list B) (l : list A) :
  (forall x, In x l -> f x = g x) -> flat_map f l = flat_map g l.
Proof.
  induction l as [|x l IH]; simpl; intros H; [reflexivity|].
  rewrite H by (left; reflexivity). f_equal. apply IH. intros y Hy. apply H. right. exact Hy.
Qed.

Lemma filter_eq_filter_ne (m : list (string * string)) (s s' : string) :
  s' <> s ->
  filter (fun p => String.eqb (snd p) s') (filter (fun p => negb (String.eqb (snd p) s)) m) =
  filter (fun p => String.eqb (snd p) s') m.
Proof.
  intros Hne. induction m as [|p m IH]; simpl; [reflexivity|].
  destruct (String.eqb_spec (snd p) s) as [Hs|Hs]; simpl.
  - destruct (String.eqb_spec (snd p) s'); [congruence|exact IH].
  - destruct (String.eqb (snd p) s'); [f_equal|]; exact IH.
Qed.

(** Grouping the mapping by sample, over an order listing every sample
    once, is a rearrangement of the mapping. *)
Lemma regroup_perm (m : list (string * string)) (order : list string) :
  NoDup order -> (forall p, In p m -> In (snd p) order) ->
  Permutation (flat_map (fun s => filter (fun p => String.eqb (snd p) s) m) order) m.
Proof.
  revert m. induction order as [|s order IH]; intros m Hnd Hcov; simpl.
  - destruct m as [|p m]; [constructor|]. exfalso. apply (Hcov p). left. reflexivity.
  - inversion Hnd as [|? ? Hs Hnd']; subst.
    set (m' := filter (fun p => negb (String.eqb (snd p) s)) m).
    rewrite (flat_map_ext_in _ (fun s' => filter (fun p => String.eqb (snd p) s') m')).
    + eapply Permutation_trans; [|apply (filter_partition_perm (fun p => String.eqb (snd p) s) m)].
      apply Permutation_app_head. apply IH; [exact Hnd'|].
      intros p Hp. unfold m' in Hp. apply filter_In in Hp as [Hp Hne].
      destruct (Hcov p Hp) as [Heq|Hin]; [|exact Hin].
      rewrite Heq, String.eqb_refl in Hne. discriminate.
    + intros s' Hs'. unfold m'. symmetry. apply filter_eq_filter_ne.
      intros ->. contradiction.
Qed.

Lemma sum_z_flat_map {A B} (g : B -> Z) (h : A -> list B) (l : list A) :
  sum_z (map g (flat_map h l)) = sum_z (map (fun x => sum_z (map g (h x))) l).
Proof.
  induction l as [|x l IH]; simpl; [reflexivity|].
  rewrite map_app, sum_z_app, sum_z_cons, IH. reflexivity.
Qed.

Lemma sum_indicator_nodup (k : string) (v : Z) (ks : list string) :
  NoDup ks ->
  sum_z (map (fun b => if String.eqb k b then v else 0) ks) =
  if existsb (fun b => String.eqb b k) ks then v else 0.
Proof.
  induction ks as [|b ks IH]; intros Hnd; [reflexivity|].
  inversion Hnd as [|? ? Hb Hnd']; subst. simpl map. rewrite sum_z_cons, IH by exact Hnd'.
  simpl. destruct (String.eqb_spec k b) as [->|Hne].
  - rewrite String.eqb_refl. simpl.
    destruct (existsb (fun x => String.eqb x b) ks) eqn:Hex; [|lia].
    apply existsb_exists in Hex as [x [Hx Hxb]].
    destruct (String.eqb_spec x b); [subst; contradiction|discriminate].
  - destruct (String.eqb_spec b k); [congruence|]. simpl. lia.
Qed.

Lemma counter_get_cons_string (k : string) (v : Z) (c : list (string * Z)) (b : string) :
  ~ In k (map fst c) ->
  counter_get String.eqb ((k, v) :: c) b =
  (if String.eqb k b then v else 0) + counter_get String.eqb c b.
Proof.
  intros Hk. unfold counter_get. simpl.
  destruct (String.eqb_spec k b) as [<-|]; [|lia].
  destruct (assoc_get String.eqb c k) as [w|] eqn:Hget; [|lia].
  exfalso. apply Hk. apply (assoc_get_in String.eqb string_eqb_spec) in Hget.
  apply in_map_iff. exists (k, w). split; [reflexivity|exact Hget].
Qed.

(** Reading a Counter at distinct keys adds up the entries it holds for
    them. *)
Lemma sum_counter_get_keys (c : list (string * Z)) (ks : list string) :
  NoDup ks -> NoDup (map fst c) ->
  sum_z (map (counter_get String.eqb c) ks) =
  counter_total (filter (fun p => existsb (fun k => String.eqb k (fst p)) ks) c).
Proof.
  intros Hks. induction c as [|[k v] c IH]; intros Hnd.
  - unfold counter_get. simpl. apply sum_z_map_zero.
  - inversion Hnd as [|? ? Hk Hnd']; subst.
    rewrite (sum_z_map_ext _ (fun b => (if String.eqb k b then v else 0) +
                                        counter_get String.eqb c b))
      by (intros b _; apply counter_get_cons_string, Hk).
    rewrite sum_z_map_plus, sum_indicator_nodup, IH by assumption.
    simpl. destruct (existsb _ ks); simpl; lia.
Qed.

(** What [stats_json] reports after a run from a fresh state. *)
Lemma stats_json_run_facts (d : demultiplexer) (m : list (string * string))
    (records : list (fastq_record * string)) (s : state) (sample_order : list string) :
  demultiplex d (init_state m) records = Ok s ->
  NoDup sample_order ->
  (forall sample, In sample sample_order <-> In sample (map snd m)) ->
  let r := demultiplex_results s in
  exists st, stats_json r sample_order = Ok st /\
    Forall2 (fun sample sr =>
       SampleId sr = sample /\
       map IndexSequence (IndexMetrics sr) =
         map fst (filter (fun p => String.eqb (snd p) sample) m) /\
       NumberReads sr =
         sum_z (map (counter_get String.eqb (barcode_counts r))
                  (map fst (filter (fun p => String.eqb (snd p) sample) m))) /\
       Forall (fun im => sum_z (map snd (MismatchCounts im)) =
                         counter_get String.eqb (barcode_counts r) (IndexSequence im))
         (IndexMetrics sr))
      sample_order (DemuxResults st) /\
    Undetermined_NumberReads st = counter_total (unknown_barcode_counts r) /\
    UnknownBarcodes st = unknown_barcode_counts r.
Proof.
  intros Hrun Hnd Hcov r.
  destruct (demultiplex_init_inv d m records s Hrun) as (Hinv & Hk & Hm).
  fold r in Hinv, Hk, Hm.
  assert (Hgroups := sample_to_barcode_groups r sample_order Hnd).
  rewrite Hm in Hgroups. specialize (Hgroups (fun p Hp => proj2 (Hcov _) (in_map snd _ _ Hp))).
  (* every barcode of a group has a histogram *)
  assert (Hhist : forall b, In b (map fst m) ->
            exists c, assoc_get String.eqb (barcode_mismatches_count r) b = Some c).
  { intros b Hb. apply assoc_get_mem_some. rewrite Hk. unfold in_mapping. rewrite Hm.
    apply (assoc_mem_in String.eqb string_eqb_spec), Hb. }
  set (g := fun barcode => mc <- mismatch_counts_dict r barcode ;;
                           Ok (mkIndexMetrics barcode mc)).
  assert (Hg : forall b im, In b (map fst m) -> g b = Ok im ->
            IndexSequence im = b /\
            sum_z (map snd (MismatchCounts im)) =
              counter_get String.eqb (barcode_counts r) b).
  { intros b im Hb Hgb. destruct (Hhist b Hb) as [c Hc].
    destruct (mismatch_counts_dict_ok r b c Hinv Hc) as (mc & Hmc & Hsum).
    unfold g in Hgb. rewrite Hmc in Hgb. cbn [bind] in Hgb. injection Hgb as <-.
    split; [reflexivity|exact Hsum]. }
  assert (Hsr : forall sample, exists sr,
            sample_result_of r sample
              (map fst (filter (fun p => String.eqb (snd p) sample) m)) = Ok sr /\
            SampleId sr = sample /\
            map IndexSequence (IndexMetrics sr) =
              map fst (filter (fun p => String.eqb (snd p) sample) m) /\
            NumberReads sr =
              sum_z (map (counter_get String.eqb (barcode_counts r))
                       (map fst (filter (fun p => String.eqb (snd p) sample) m))) /\
            Forall (fun im => sum_z (map snd (MismatchCounts im)) =
                              counter_get String.eqb (barcode_counts r) (IndexSequence im))
              (IndexMetrics sr)).
  { intros sample.
    set (bs := map fst (filter (fun p => String.eqb (snd p) sample) m)).
    assert (Hbs : forall b, In b bs -> In b (map fst m)).
    { intros b Hb. unfold bs in Hb. apply in_map_iff in Hb as [p [<- Hp]].
      apply filter_In in Hp as [Hp _]. apply in_map, Hp. }
    destruct (map_result_exists g bs) as [metrics Hmetrics].
    { intros b Hb. destruct (Hhist b (Hbs b Hb)) as [c Hc].
      destruct (mismatch_counts_dict_ok r b c Hinv Hc) as (mc & Hmc & _).
      unfold g. rewrite Hmc. cbn [bind]. eauto. }
    exists (mkSampleResult sample (sum_z (map (counter_get String.eqb (barcode_counts r)) bs))
              metrics).
    unfold sample_result_of. fold g. rewrite Hmetrics. cbn [bind].
    split; [reflexivity|]. split; [reflexivity|]. cbn [IndexMetrics NumberReads].
    apply map_result_forall2 in Hmetrics.
    split; [|split; [reflexivity|]].
    - clear - Hmetrics Hg Hbs. induction Hmetrics as [|b im bs' ims Hb Hrest IH];
        [reflexivity|]. simpl. f_equal.
      + apply (Hg b im); [apply Hbs; left; reflexivity|exact Hb].
      + apply IH. intros x Hx. apply Hbs. right. exact Hx.
    - apply Forall_forall. intros im Him.
      destruct (forall2_in_right _ _ _ _ Hmetrics Him) as [b [Hb Hgb]].
      destruct (Hg b im (Hbs b Hb) Hgb) as [Hseq Hsum]. rewrite Hseq. exact Hsum. }
  destruct (map_result_exists (fun p => sample_result_of r (fst p) (snd p))
              (map (fun s0 => (s0, map fst (filter (fun p => String.eqb (snd p) s0) m)))
                 sample_order)) as [demux Hdemux].
  { intros [sample bs] Hin. apply in_map_iff in Hin as [sample' [Heq _]].
    injection Heq as <- <-. destruct (Hsr sample') as [sr [Hsr' _]]. eauto. }
  exists (mkStats demux (sum_z (map snd (unknown_barcode_counts r))) (unknown_barcode_counts r)).
  unfold stats_json. rewrite Hgroups. cbn [bind]. rewrite Hdemux. cbn [bind].
  split; [reflexivity|]. cbn [DemuxResults Undetermined_NumberReads UnknownBarcodes].
  split; [|split; [symmetry; apply counter_total_sum|reflexivity]].
  apply map_result_forall2, forall2_map_left in Hdemux.
  (* Forall2 over the order *)
  clear Hgroups Hnd Hcov. induction Hdemux as [|sample sr order' demux' Hone Hrest IH];
    [constructor|].
  constructor; [|exact IH].
  destruct (Hsr sample) as (sr' & Hsr' & H1 & H2 & H3 & H4).
  cbn [fst snd] in Hone. rewrite Hsr' in Hone. injection Hone as <-.
  split; [exact H1|]. split; [exact H2|]. split; [exact H3|exact H4].
Qed.

Lemma forall2_map_eq {A B C} (f : A -> C) (g : B -> C) (l : list A) (ys : list B) :
  Forall2 (fun x y => g y = f x) l ys -> map g ys = map f l.
Proof. induction 1; simpl; congruence. Qed.

Lemma map_flat_map_fst {A B C} (h : A -> list (B * C)) (l : list A) :
  map fst (flat_map h l) = flat_map (fun x => map fst (h x)) l.
Proof. induction l as [|x l IH]; simpl; [reflexivity|]. rewrite map_app, IH. reflexivity. Qed.

(** The known counts of a run add up the counts read at the mapping's
    barcodes. *)
Lemma known_total_keys (r : results) :
  NoDup (map fst (barcode_to_sample_mapping r)) -> NoDup (map fst (barcode_counts r)) ->
  sum_z (map (counter_get String.eqb (barcode_counts r)) (map fst (barcode_to_sample_mapping r))) =
  counter_total (known_barcode_counts r).
Proof.
  intros Hm Hc. rewrite sum_counter_get_keys by assumption.
  unfold known_barcode_counts, in_mapping.
  f_equal. apply filter_ext. intros p. rewrite (assoc_mem_keys String.eqb). reflexivity.
Qed.

Lemma known_unknown_total (r : results) :
  counter_total (known_barcode_counts r) + counter_total (unknown_barcode_counts r) =
  counter_total (barcode_counts r).
Proof.
  unfold known_barcode_counts, unknown_barcode_counts.
  rewrite <- (counter_total_app (K:=string)). apply counter_total_perm.
  apply filter_partition_perm.
Qed.

Ltac nodup_strings :=
  repeat (apply NoDup_cons; [simpl; intuition discriminate|]); apply NoDup_nil.

(** X5: after a run from a fresh state over a mapping with distinct
    barcodes, [stats_json] with any enumeration of the mapping's samples
    succeeds; it lists the samples in that order, each with its barcodes in
    mapping order, and the reads of the samples plus the undetermined reads
    make up every record of the run. *)
Theorem stats_json_reads_add_up (d : demultiplexer) (m : list (string * string))
    (records : list (fastq_record * string)) (s : state) (sample_order : list string) :
  demultiplex d (init_state m) records = Ok s ->
  NoDup (map fst m) -> NoDup sample_order ->
  (forall sample, In sample sample_order <-> In sample (map snd m)) ->
  exists st, stats_json (demultiplex_results s) sample_order = Ok st /\
    map (fun sr => (SampleId sr, map IndexSequence (IndexMetrics sr))) (DemuxResults st) =
      map (fun sample => (sample, map fst (filter (fun p => String.eqb (snd p) sample) m)))
        sample_order /\
    sum_z (map NumberReads (DemuxResults st)) + Undetermined_NumberReads st =
      Z.of_nat (length records) /\
    Undetermined_NumberReads st = counter_total (unknown_barcode_counts (demultiplex_results s)) /\
    UnknownBarcodes st = unknown_barcode_counts (demultiplex_results s).
Proof.
  intros Hrun Hkeys Hnd Hcov.
  destruct (stats_json_run_facts d m records s sample_order Hrun Hnd Hcov)
    as (st & Hst & Hf & Hund & Hunk).
  destruct (demultiplex_init_inv d m records s Hrun) as ([Hnc _] & _ & Hm).
  set (r := demultiplex_results s) in *.
  exists st. split; [exact Hst|]. split; [|split; [|split; [exact Hund|exact Hunk]]].
  - apply forall2_map_eq. eapply Forall2_impl; [|exact Hf].
    intros sample sr (H1 & H2 & _). cbn beta. rewrite H1, H2. reflexivity.
  - rewrite (forall2_map_eq
               (fun sample => sum_z (map (counter_get String.eqb (barcode_counts r))
                                  (map fst (filter (fun p => String.eqb (snd p) sample) m))))
               NumberReads sample_order (DemuxResults st))
      by (eapply Forall2_impl; [|exact Hf]; intros sample sr (_ & _ & H3 & _); exact H3).
    rewrite <- sum_z_flat_map, <- map_flat_map_fst.
    rewrite (sum_z_perm _ (map (counter_get String.eqb (barcode_counts r)) (map fst m))).
    2:{ apply Permutation_map, Permutation_map, regroup_perm; [exact Hnd|].
        intros p Hp. apply Hcov, in_map, Hp. }
    rewrite <- Hm in Hkeys |- *. rewrite known_total_keys by assumption.
    rewrite Hund, known_unknown_total.
    destruct (demultiplex_total d (init_state m) records s Hrun) as [Htot _].
    fold r in Htot. rewrite Htot. simpl. reflexivity.
Qed.

Lemma stats_json_reads_add_up_witness :
  exists s st,
    demultiplex (create_fastq_demultiplexer sample_writers "Unknown"%string 1)
      (init_state sample_mapping) sample_records = Ok s /\
    stats_json (demultiplex_results s) ["sample1"; "barcode"]%string = Ok st /\
    map (fun sr => (SampleId sr, map IndexSequence (IndexMetrics sr))) (DemuxResults st) =
      [("sample1", ["ACGT"]); ("barcode", ["Unknown"])]%string /\
    sum_z (map NumberReads (DemuxResults st)) + Undetermined_NumberReads st = 3.
Proof.
  destruct (stats_json_reads_add_up (create_fastq_demultiplexer sample_writers "Unknown"%string 1)
              sample_mapping sample_records _ ["sample1"; "barcode"]%string eq_refl)
    as (st & Hst & Hmap & Hsum & _).
  - nodup_strings.
  - nodup_strings.
  - intros x. simpl. tauto.
  - eexists. exists st. split; [reflexivity|]. split; [exact Hst|].
    split; [exact Hmap|exact Hsum].
Defined.

(** X6: in the [stats_json] report of a run from a fresh state, the
    mismatch counts of each index add up to the reads of that barcode, and
    the reads of each sample are the sum of the mismatch counts of its
    indexes. *)
Theorem stats_json_mismatch_counts_consistent (d : demultiplexer)
    (m : list (string * string)) (records : list (fastq_record * string)) (s : state)
    (sample_order : list string) :
  demultiplex d (init_state m) records = Ok s ->
  NoDup sample_order ->
  (forall sample, In sample sample_order <-> In sample (map snd m)) ->
  exists st, stats_json (demultiplex_results s) sample_order = Ok st /\
    forall sr, In sr (DemuxResults st) ->
      (forall im, In im (IndexMetrics sr) ->
         sum_z (map snd (MismatchCounts im)) =
         counter_get String.eqb (barcode_counts (demultiplex_results s)) (IndexSequence im)) /\
      NumberReads sr = sum_z (map (fun im => sum_z (map snd (MismatchCounts im))) (IndexMetrics sr)).
Proof.
  intros Hrun Hnd Hcov.
  destruct (stats_json_run_facts d m records s sample_order Hrun Hnd Hcov)
    as (st & Hst & Hf & _).
  exists st. split; [exact Hst|]. intros sr Hsr.
  destruct (forall2_in_right _ _ _ _ Hf Hsr) as (sample & _ & H1 & H2 & H3 & H4).
  rewrite Forall_forall in H4. split; [exact H4|].
  rewrite H3, <- H2, map_map. apply sum_z_map_ext. intros im Him. symmetry. apply H4, Him.
Qed.

Lemma stats_json_mismatch_counts_consistent_witness :
  exists s st,
    demultiplex (create_fastq_demultiplexer sample_writers "Unknown"%string 1)
      (init_state sample_mapping) sample_records = Ok s /\
    stats_json (demultiplex_results s) ["barcode"; "sample1"]%string = Ok st /\
    map (fun sr => (NumberReads sr, map (fun im => MismatchCounts im) (IndexMetrics sr)))
      (DemuxResults st) = [(0, [[(0, 0)]]); (2, [[(0, 1); (1, 1)]])].
Proof.
  destruct (stats_json_mismatch_counts_consistent
              (create_fastq_demultiplexer sample_writers "Unknown"%string 1)
              sample_mapping sample_records _ ["barcode"; "sample1"]%string eq_refl)
    as (st & Hst & _).
  - nodup_strings.
  - intros x. simpl. tauto.
  - eexists. exists st. split; [reflexivity|]. split; [exact Hst|].
    vm_compute in Hst. injection Hst as <-. reflexivity.
Defined.

(** ** FastqFileWriterHandler *)

Lemma str_length_append (a b : string) :
  String.length (String.append a b) = (String.length a + String.length b)%nat.
Proof. induction a as [|x a IH]; simpl; [reflexivity|]. rewrite IH. reflexivity. Qed.

Lemma substring_append_l (a b : string) (n k : nat) :
  substring (String.length a + n) k (String.append a b) = substring n k b.
Proof. induction a as [|x a IH]; simpl; [reflexivity|]. exact IH. Qed.

(** [endswith] only looks at the end of a string. *)
Lemma ends_with_append (suffix a b : string) :
  (String.length suffix <= String.length b)%nat ->
  ends_with suffix (String.append a b) = ends_with suffix b.
Proof.
  intros Hle. unfold ends_with. rewrite str_length_append.
  replace (String.length a + String.length b - String.length suffix)%nat
    with (String.length a + (String.length b - String.length suffix))%nat by lia.
  rewrite substring_append_l.
  replace (String.length suffix <=? String.length a + String.length b)%nat with true
    by (symmetry; apply Nat.leb_le; lia).
  replace (String.length suffix <=? String.length b)%nat with true
    by (symmetry; apply Nat.leb_le; lia).
  reflexivity.
Qed.

(** [os.path.join(a, b)] ends with [b]. *)
Lemma path_join_suffix (a b : string) : exists x, path_join a b = String.append x b.
Proof.
  unfold path_join.
  assert (Hgen : exists x, (if String.eqb a EmptyString || ends_with "/" a then String.append a b
                            else String.append a (String.append "/" b)) = String.append x b).
  { destruct (_ || _); [exists a; reflexivity|].
    exists (String.append a "/"). rewrite str_append_assoc. reflexivity. }
  destruct b as [|c rest]; [exact Hgen|].
  destruct (Ascii.eqb_spec c "/"%char) as [->|Hne]; [exists EmptyString; reflexivity|].
  destruct c as [[] [] [] [] [] [] [] []]; try exact Hgen; congruence.
Qed.

Lemma str_append_cancel_l (a b1 b2 : string) :
  String.append a b1 = String.append a b2 -> b1 = b2.
Proof. induction a as [|x a IH]; simpl; intros H; [exact H|]. injection H as H. apply IH, H. Qed.

Lemma list_ascii_of_string_append (a b : string) :
  list_ascii_of_string (String.append a b) = list_ascii_of_string a ++ list_ascii_of_string b.
Proof. induction a as [|x a IH]; simpl; [reflexivity|]. rewrite IH. reflexivity. Qed.

Lemma str_append_cancel_r (a1 a2 b : string) :
  String.append a1 b = String.append a2 b -> a1 = a2.
Proof.
  intros H. apply (f_equal list_ascii_of_string) in H.
  rewrite !list_ascii_of_string_append in H. apply app_inv_tail in H.
  rewrite <- (string_of_list_ascii_of_string a1), <- (string_of_list_ascii_of_string a2), H.
  reflexivity.
Qed.

Lemma path_join_cases (a b : string) :
  path_join a b = if starts_slash b then b
                  else if String.eqb a EmptyString || ends_with "/" a then String.append a b
                  else String.append a (String.append "/" b).
Proof.
  unfold path_join, starts_slash. destruct b as [|c rest]; [reflexivity|].
  destruct (Ascii.eqb_spec c "/"%char) as [->|Hne]; [reflexivity|].
  destruct c as [[] [] [] [] [] [] [] []]; try reflexivity; congruence.
Qed.

(** [os.path.join(a, b)] tells apart the [b]s that are both relative or
    both absolute. *)
Lemma path_join_inj (a b1 b2 : string) :
  starts_slash b1 = starts_slash b2 -> path_join a b1 = path_join a b2 -> b1 = b2.
Proof.
  rewrite !path_join_cases. intros <-. destruct (starts_slash b1); [tauto|].
  destruct (_ || _); intros H; apply str_append_cancel_l in H; [exact H|].
  apply str_append_cancel_l in H. exact H.
Qed.

Lemma starts_slash_append (p x y : string) :
  starts_slash x = starts_slash y ->
  starts_slash (String.append p x) = starts_slash (String.append p y).
Proof. destruct p; simpl; auto. Qed.

Lemma fastq_file_name_from_sample_id_eq (h : writer_handler) (sample_id barcode : string) :
  fastq_file_name_from_sample_id h sample_id barcode =
  if is_single_end h then [path_join (outdir h) (fastq_base_name h sample_id barcode 1)]
  else [path_join (outdir h) (fastq_base_name h sample_id barcode 1);
        path_join (outdir h) (fastq_base_name h sample_id barcode 2)].
Proof. unfold fastq_file_name_from_sample_id. destruct (is_single_end h); reflexivity. Qed.

Lemma fastq_base_name_split (h : writer_handler) (sample_id barcode : string) (read_no : nat) :
  fastq_base_name h sample_id barcode read_no =
  String.append (String.append (prefix h) (String.append sample_id "_"))
    (String.append (replace_plus barcode)
       (String.append "_R" (String.append (digit_str read_no)
          (String.append "." (if negb (no_gzip_compression h) then "fastq.gz" else "fastq"))))).
Proof. unfold fastq_base_name. rewrite !str_append_assoc. reflexivity. Qed.

Lemma starts_slash_nonempty (p x y : string) :
  p <> EmptyString -> starts_slash (String.append p x) = starts_slash (String.append p y).
Proof. destruct p; simpl; [congruence|reflexivity]. Qed.

Lemma open_func_fastq_name (h : writer_handler) (sample_id barcode : string) (read_no : nat) :
  open_func (path_join (outdir h) (fastq_base_name h sample_id barcode read_no)) =
  negb (no_gzip_compression h).
Proof.
  destruct (path_join_suffix (outdir h) (fastq_base_name h sample_id barcode read_no))
    as [x ->].
  rewrite fastq_base_name_split, !str_append_assoc.
  set (tail := String.append "." (if negb (no_gzip_compression h) then "fastq.gz" else "fastq")).
  assert (Htail : forall pre, String.append x (String.append (prefix h) (String.append sample_id
            (String.append "_" (String.append (replace_plus barcode) (String.append "_R"
              (String.append (digit_str read_no) tail)))))) = String.append pre tail ->
            open_func (String.append pre tail) = negb (no_gzip_compression h)).
  { intros pre _. unfold open_func. simpl existsb.
    rewrite !ends_with_append by (unfold tail; destruct (no_gzip_compression h); simpl; lia).
    unfold tail. destruct (no_gzip_compression h); reflexivity. }
  erewrite <- (Htail (String.append x (String.append (prefix h) (String.append sample_id
            (String.append "_" (String.append (replace_plus barcode) (String.append "_R"
              (digit_str read_no))))))));
    rewrite !str_append_assoc; reflexivity.
Qed.

(** X7: a writer handler names one file per read (one for single-end
    data, two otherwise), the names of the two reads differ, and the
    writer of each file opens it with [gzip.open] exactly when gzip
    compression is on. *)
Theorem fastq_file_names_per_read (h : writer_handler) (sample_id barcode : string) :
  let names := fastq_file_name_from_sample_id h sample_id barcode in
  length names = (if is_single_end h then 1 else 2)%nat /\ NoDup names /\
  Forall (fun name => open_func name = negb (no_gzip_compression h)) names.
Proof.
  cbv zeta. rewrite fastq_file_name_from_sample_id_eq.
  destruct (is_single_end h).
  - split; [reflexivity|]. split; [repeat constructor; simpl; tauto|].
    repeat constructor. apply open_func_fastq_name.
  - split; [reflexivity|]. split.
    + constructor; [|repeat constructor; simpl; tauto].
      intros [Heq|[]]. apply path_join_inj in Heq.
      * rewrite !fastq_base_name_split in Heq. apply str_append_cancel_l in Heq.
        apply str_append_cancel_l in Heq. simpl in Heq. discriminate.
      * rewrite !fastq_base_name_split. apply starts_slash_append, starts_slash_append.
        reflexivity.
    + repeat constructor; apply open_func_fastq_name.
Qed.

(** X8: for one writer handler and one sample, two barcodes get the same
    file names exactly when they agree once every ['+'] is replaced by
    ['-'] (so [AC+GT] and [AC-GT] would share files). *)
Theorem fastq_file_names_same_iff (h : writer_handler) (sample_id b1 b2 : string) :
  fastq_file_name_from_sample_id h sample_id b1 = fastq_file_name_from_sample_id h sample_id b2 <->
  replace_plus b1 = replace_plus b2.
Proof.
  rewrite !fastq_file_name_from_sample_id_eq. split.
  - intros H. assert (H1 : path_join (outdir h) (fastq_base_name h sample_id b1 1) =
                           path_join (outdir h) (fastq_base_name h sample_id b2 1))
      by (destruct (is_single_end h); injection H; auto).
    rewrite !fastq_base_name_split in H1. apply path_join_inj in H1.
    + apply str_append_cancel_l, str_append_cancel_r in H1. exact H1.
    + apply starts_slash_nonempty. intros He. apply (f_equal String.length) in He.
      rewrite !str_length_append in He. simpl in He. lia.
  - intros H. unfold fastq_base_name. rewrite H. reflexivity.
Qed.

Lemma assoc_get_find_string {V} (m : list (string * V)) (k : string) :
  assoc_get String.eqb m k = option_map snd (find (fun p => String.eqb (fst p) k) m).
Proof.
  induction m as [|[k' v] m IH]; simpl; [reflexivity|].
  destruct (String.eqb k' k); [reflexivity|exact IH].
Qed.

(** X9: building the writers from a mapping with distinct barcodes, on a
    handler with no writers yet (or an empty dict of them), stores and
    returns for each barcode of the mapping the files named after its
    sample, and nothing for other barcodes; once that registry is not empty,
    every later call returns it unchanged, whatever mapping it is given. *)
Theorem fastq_file_writers_from_mapping_registry (h : writer_handler)
    (m : list (string * string)) :
  (fastq_file_writers h = None \/ fastq_file_writers h = Some []) ->
  NoDup (map fst m) ->
  let res := fastq_file_writers_from_mapping h m in
  fastq_file_writers (fst res) = Some (snd res) /\
  (forall barcode, assoc_get String.eqb (snd res) barcode =
     option_map (fun sample_id => fastq_file_name_from_sample_id h sample_id barcode)
       (assoc_get String.eqb m barcode)) /\
  (m <> [] -> forall m', fastq_file_writers_from_mapping (fst res) m' = res).
Proof.
  intros Hnone Hnd. cbv zeta.
  assert (Hres : fastq_file_writers_from_mapping h m =
    (mkWriterHandler (prefix h) (outdir h) (is_single_end h) (no_gzip_compression h)
       (Some (fold_left (fun d p => assoc_set String.eqb d (fst p)
                (fastq_file_name_from_sample_id h (snd p) (fst p))) m [])),
     fold_left (fun d p => assoc_set String.eqb d (fst p)
       (fastq_file_name_from_sample_id h (snd p) (fst p))) m []))
    by (unfold fastq_file_writers_from_mapping; destruct Hnone as [-> | ->]; reflexivity).
  rewrite Hres. cbn [fst snd fastq_file_writers].
  set (fw := fold_left (fun d p => assoc_set String.eqb d (fst p)
               (fastq_file_name_from_sample_id h (snd p) (fst p))) m []).
  split; [reflexivity|]. split.
  - intros barcode. unfold fw.
    rewrite (assoc_get_fold_set String.eqb string_eqb_spec fst), find_rev_nodup by exact Hnd.
    rewrite (assoc_get_find_string m).
    destruct (find (fun p => String.eqb (fst p) barcode) m) as [p|] eqn:Hf; [|reflexivity].
    apply find_some in Hf as [_ Hf]. apply String.eqb_eq in Hf. subst barcode. reflexivity.
  - intros Hm m'. destruct m as [|p m0]; [contradiction|].
    assert (Hmem : assoc_mem String.eqb fw (fst p) = true).
    { unfold fw. rewrite (fold_set_keys String.eqb string_eqb_spec). simpl.
      rewrite String.eqb_refl. reflexivity. }
    unfold fastq_file_writers_from_mapping. cbn [fastq_file_writers].
    destruct fw as [|q fw']; [discriminate|reflexivity].
Qed.

Lemma fastq_file_writers_from_mapping_registry_witness :
  let h := mkWriterHandler "" "out" true true None in
  let res := fastq_file_writers_from_mapping h sample_mapping in
  assoc_get String.eqb (snd res) "ACGT"%string = Some ["out/sample1_ACGT_R1.fastq"%string] /\
  fastq_file_writers_from_mapping (fst res) dual_mapping = res.
Proof.
  cbv zeta.
  destruct (fastq_file_writers_from_mapping_registry (mkWriterHandler "" "out" true true None)
              sample_mapping (or_introl eq_refl) ltac:(nodup_strings)) as (_ & Hget & Hagain).
  split.
  - rewrite Hget. reflexivity.
  - apply Hagain. discriminate.
Defined.

(** ** FastqFileParser on complete files *)

Lemma next_lines_block (b rest : list string) :
  length b = 4%nat -> next_lines 4 (b ++ rest) = (Some (map strip b), rest).
Proof. destruct b as [|x1 [|x2 [|x3 [|x4 [|]]]]]; simpl; try discriminate; reflexivity. Qed.

Lemma records_from_list_blocks (fs : list block_file) :
  Forall (fun f => match snd f with b :: _ => length b = 4%nat | [] => False end) fs ->
  records_from_list (map mk_handle fs) =
  (Some (nth_records fs 0), map (fun f => mk_handle (fst f, tl (snd f))) fs).
Proof.
  induction 1 as [|[name [|b rest]] fs Hf _ IH]; [reflexivity|contradiction|].
  cbn [map records_from_list]. unfold record_from_handle, mk_handle at 1. cbn [fst snd concat].
  rewrite next_lines_block by exact Hf. rewrite IH. reflexivity.
Qed.

Lemma records_from_list_exhausted (fs : list block_file) :
  fs <> [] -> Forall (fun f => snd f = []) fs ->
  records_from_list (map mk_handle fs) = (None, map (fun f => (fst f, [])) fs).
Proof.
  intros Hne Hall. destruct fs as [|[name B] fs]; [congruence|].
  inversion Hall as [|? ? HB Hall']; subst. cbn [snd] in HB. subst B. clear Hall. rename Hall' into Hall. cbn [map records_from_list]. unfold record_from_handle, mk_handle.
  simpl. f_equal. f_equal. apply map_ext_in. intros f Hf.
  rewrite Forall_forall in Hall. unfold mk_handle. rewrite (Hall f Hf). reflexivity.
Qed.

Lemma nth_records_tl (fs : list block_file) (i : nat) :
  Forall (fun f => snd f <> []) fs ->
  nth_records (map (fun f => (fst f, tl (snd f))) fs) i = nth_records fs (S i).
Proof.
  induction 1 as [|[name [|b rest]] fs Hf _ IH]; [reflexivity|simpl in Hf; congruence|].
  unfold nth_records in *. simpl. f_equal. exact IH.
Qed.

(** The generator loop over read and index files holding [n] complete
    records each. *)
Lemma yield_records_blocks (n fuel : nat) (k : parser_class) (rb ib : list block_file) :
  (n < fuel)%nat -> rb <> [] -> (is_header_kind k = true -> ib = []) ->
  Forall (well_formed_file n) (rb ++ ib) ->
  yield_records fuel k (map mk_handle rb) (map mk_handle ib) =
  (map (fun i => (nth_records rb i,
                  barcode_from_record k
                    (if is_header_kind k then nth_records rb i else nth_records ib i)))
       (seq 0 n),
   (map (fun f => (fst f, [])) rb, map (fun f => (fst f, [])) ib)).
Proof.
  revert fuel rb ib. induction n as [|n IH]; intros fuel rb ib Hfuel Hrb Hk Hwf;
    destruct fuel as [|fuel]; try lia; rewrite Forall_forall in Hwf.
  - assert (Hnil : forall f, In f (rb ++ ib) -> snd f = []).
    { intros f Hf. destruct (Hwf f Hf) as [Hl _]. destruct (snd f); [reflexivity|discriminate]. }
    cbn [yield_records]. unfold records_from_handles.
    rewrite records_from_list_exhausted
      by (auto; apply Forall_forall; intros f Hf; apply Hnil, in_or_app; left; exact Hf).
    cbn [seq map]. f_equal. f_equal. apply map_ext_in. intros f Hf. unfold mk_handle.
    rewrite (Hnil f) by (apply in_or_app; right; exact Hf). reflexivity.
  - assert (Hcons : forall f, In f (rb ++ ib) ->
              match snd f with b :: _ => length b = 4%nat | [] => False end).
    { intros f Hf. destruct (Hwf f Hf) as [Hl Hb]. destruct (snd f) as [|b rest];
        [discriminate|]. inversion Hb; assumption. }
    assert (Hne : forall f, In f (rb ++ ib) -> snd f <> []).
    { intros f Hf. specialize (Hcons f Hf). destruct (snd f); [contradiction|discriminate]. }
    assert (Hwf' : Forall (well_formed_file n)
                     (map (fun f => (fst f, tl (snd f))) rb ++ map (fun f => (fst f, tl (snd f))) ib)).
    { rewrite <- map_app. apply Forall_forall. intros f' Hf'. apply in_map_iff in Hf' as [f [<- Hf]].
      destruct (Hwf f Hf) as [Hl Hb]. unfold well_formed_file. cbn [snd].
      destruct (snd f) as [|b rest]; [discriminate|]. simpl in Hl |- *.
      inversion Hb; subst. split; [lia|assumption]. }
    assert (Hrb4 : Forall (fun f => match snd f with b :: _ => length b = 4%nat | [] => False end) rb)
      by (apply Forall_forall; intros f Hf; apply Hcons, in_or_app; left; exact Hf).
    assert (Hib : Forall (fun f => match snd f with b :: _ => length b = 4%nat | [] => False end) ib)
      by (apply Forall_forall; intros f Hf; apply Hcons, in_or_app; right; exact Hf).
    assert (Hrbne : Forall (fun f => snd f <> []) rb)
      by (apply Forall_forall; intros f Hf; apply Hne, in_or_app; left; exact Hf).
    assert (Hibne : Forall (fun f => snd f <> []) ib)
      by (apply Forall_forall; intros f Hf; apply Hne, in_or_app; right; exact Hf).
    cbn [yield_records]. unfold records_from_handles. rewrite records_from_list_blocks by exact Hrb4.
    assert (Hrest : forall ihs, map mk_handle (map (fun f => (fst f, tl (snd f))) ib) = ihs ->
      yield_records fuel k (map mk_handle (map (fun f => (fst f, tl (snd f))) rb)) ihs =
      (map (fun i => (nth_records rb i, barcode_from_record k
                        (if is_header_kind k then nth_records rb i else nth_records ib i)))
           (seq 1 n),
       (map (fun f => (fst f, [])) rb, map (fun f => (fst f, [])) ib))).
    { intros ihs <-. rewrite IH; [|lia|intros He; apply map_eq_nil in He; contradiction
                                  |intros Hh; rewrite (Hk Hh); reflexivity|exact Hwf'].
      f_equal; [|rewrite !map_map; reflexivity].
      rewrite <- (seq_shift n 0), (map_map S). apply map_ext. intros i.
      rewrite !nth_records_tl by assumption. reflexivity. }
    assert (Hmk : forall g, map (fun f => mk_handle (fst f, tl (snd f))) g =
                            map mk_handle (map (fun f => (fst f, tl (snd f))) g))
      by (intros g; rewrite map_map; reflexivity).
    destruct k; cbn [is_header_kind] in *.
    + rewrite (Hk eq_refl) in Hrest |- *. rewrite Hmk, Hrest by reflexivity. reflexivity.
    + rewrite records_from_list_blocks by exact Hib. rewrite !Hmk, Hrest by reflexivity.
      reflexivity.
    + rewrite records_from_list_blocks by exact Hib. rewrite !Hmk, Hrest by reflexivity.
      reflexivity.
Qed.

Lemma length_concat_blocks (n : nat) (f : block_file) :
  well_formed_file n f -> length (concat (snd f)) = (4 * n)%nat.
Proof.
  unfold well_formed_file. destruct f as [name B]. cbn [snd]. intros [<- Hb].
  induction Hb as [|b B Hb _ IH]; simpl; [reflexivity|]. rewrite length_app, IH. lia.
Qed.

Lemma ensure_filehandles_empty_blank (fs : list block_file) :
  ensure_filehandles_empty (map (fun f => (fst f, [])) fs) = true.
Proof. induction fs as [|f fs IH]; [reflexivity|exact IH]. Qed.

(** [fastq_records] of a parser whose read and index handles hold [n]
    complete records each. *)
Lemma fastq_records_blocks (p : fastq_parser) (n : nat) (r1 : block_file) (rb ib : list block_file) :
  get_file_handles p = (map mk_handle (r1 :: rb), map mk_handle ib) ->
  fastq_r1 p = mk_handle r1 ->
  (is_header_kind (parser_kind p) = true -> ib = []) ->
  Forall (well_formed_file n) ((r1 :: rb) ++ ib) ->
  fastq_records p =
  (map (fun i => (nth_records (r1 :: rb) i,
                  barcode_from_record (parser_kind p)
                    (if is_header_kind (parser_kind p) then nth_records (r1 :: rb) i
                     else nth_records ib i)))
       (seq 0 n), None).
Proof.
  intros Hh Hr1 Hk Hwf. unfold fastq_records. rewrite Hh, Hr1.
  assert (Hlen : length (snd (mk_handle r1)) = (4 * n)%nat).
  { apply length_concat_blocks. inversion Hwf; assumption. }
  rewrite Hlen, (yield_records_blocks n) by (try lia; auto; discriminate).
  cbn [fst snd]. rewrite <- map_app, ensure_filehandles_empty_blank. reflexivity.
Qed.

(** X10: a parser created for files that all hold [n] complete four-line
    records yields [n] records, the [i]-th made of the [i]-th record of
    each read file with its lines stripped, and ends without error; its
    barcode comes from the R1 header without index files, from the I1
    sequence line with one index file, and from both index sequence lines
    with two (an I2 file without I1 is not read). *)
Theorem fastq_records_complete_files (r1 : block_file) (r2 i1 i2 : option block_file) (n : nat) :
  Forall (well_formed_file n)
    ([r1] ++ opt_list r2 ++ opt_list i1 ++ match i1 with Some _ => opt_list i2 | None => [] end) ->
  fastq_records (create_fastq_file_parser (mk_handle r1) (option_map mk_handle r2)
                   (option_map mk_handle i1) (option_map mk_handle i2)) =
  (map (fun i =>
          let reads := nth_records (r1 :: opt_list r2) i in
          (reads, match i1, i2 with
                  | None, _ => barcode_from_record FastqFileParserHeaderIndex reads
                  | Some a, None => barcode_from_record FastqFileParserI1 (nth_records [a] i)
                  | Some a, Some b =>
                      barcode_from_record FastqFileParserI2 (nth_records [a; b] i)
                  end))
       (seq 0 n), None).
Proof.
  intros Hwf.
  destruct i1 as [a|]; [destruct i2 as [b|]|].
  - rewrite (fastq_records_blocks _ n r1 (opt_list r2) [a; b]);
      [reflexivity|destruct r2; reflexivity|reflexivity|discriminate|].
    destruct r2; exact Hwf.
  - rewrite (fastq_records_blocks _ n r1 (opt_list r2) [a]);
      [reflexivity|destruct r2; reflexivity|reflexivity|discriminate|].
    destruct r2; exact Hwf.
  - rewrite (fastq_records_blocks _ n r1 (opt_list r2) []);
      [reflexivity|destruct r2; reflexivity|reflexivity|reflexivity|].
    destruct r2; exact Hwf.
Qed.

Lemma fastq_records_complete_files_witness :
  fastq_records (create_fastq_file_parser
                   (mk_handle ("r1.fastq", [["@a 1:N:0:AAAA"; "ACGT"; "+"; "IIII"];
                                            ["@b 1:N:0:CCCC"; "TTGA"; "+"; "IIII"]]))
                   None
                   (Some (mk_handle ("i1.fastq", [["@a"; "GGTT "; "+"; "II"];
                                                 ["@b"; "CCAA"; "+"; "II"]])))
                   (Some (mk_handle ("i2.fastq", [["@a"; "AC"; "+"; "II"];
                                                 ["@b"; "GT"; "+"; "II"]]))))%string =
  ([([["@a 1:N:0:AAAA"; "ACGT"; "+"; "IIII"]], "GGTT+AC");
    ([["@b 1:N:0:CCCC"; "TTGA"; "+"; "IIII"]], "CCAA+GT")]%string, None).
Proof.
  refine (eq_trans (fastq_records_complete_files ("r1.fastq"%string, _) None
                     (Some ("i1.fastq"%string, _)) (Some ("i2.fastq"%string, _)) 2 _) _).
  - repeat constructor.
  - reflexivity.
Defined.

(** X11: without index files the barcode of a record is the text after
    the last [':'] of its R1 header line, and the whole header line when
    that line has no [':']; the R2 read plays no part. *)
Theorem header_barcode_after_last_colon (h b : string) (lines : list string)
    (mates : list (list string)) :
  lacks ":"%char b ->
  barcode_from_record FastqFileParserHeaderIndex
    ((String.append h (String ":"%char b) :: lines) :: mates) = b /\
  barcode_from_record FastqFileParserHeaderIndex ((b :: lines) :: mates) = b.
Proof.
  intros Hb. unfold barcode_from_record, last_str. cbn [nth]. split.
  - apply last_split_after_sep, Hb.
  - rewrite split_lacks by exact Hb. reflexivity.
Qed.

Lemma header_barcode_after_last_colon_witness :
  barcode_from_record FastqFileParserHeaderIndex
    [["@r1 1:N:0:ACGT"; "AAAA"; "+"; "IIII"]; ["@r1 2:N:0:GGGG"; "CCCC"; "+"; "IIII"]]%string
  = "ACGT"%string.
Proof.
  apply (header_barcode_after_last_colon "@r1 1:N:0" "ACGT" ["AAAA"; "+"; "IIII"]
           [["@r1 2:N:0:GGGG"; "CCCC"; "+"; "IIII"]])%string.
  unfold lacks. simpl. intuition discriminate.
Defined.

(** ** Writing records, then parsing them back *)

Lemma join_cons_nonempty (sep x : string) (l : list string) :
  l <> [] -> join sep (x :: l) = String.append x (String.append sep (join sep l)).
Proof. destruct l; [congruence|reflexivity]. Qed.

(** [write_record] ends every line with a newline. *)
Lemma write_record_text_lines (record : list string) :
  write_record_text record = concat_str (map (fun l => String.append l newline_str) record).
Proof.
  unfold write_record_text. induction record as [|x record IH]; [reflexivity|].
  cbn [app map concat_str]. rewrite join_cons_nonempty by (destruct record; discriminate).
  rewrite IH, str_append_assoc. reflexivity.
Qed.

Lemma concat_str_app (a b : list string) :
  concat_str (a ++ b) = String.append (concat_str a) (concat_str b).
Proof. induction a as [|x a IH]; simpl; [reflexivity|]. rewrite IH, str_append_assoc. reflexivity. Qed.

Lemma file_lines_aux_line (l rest cur : string) :
  lacks newline_char l ->
  file_lines_aux (String.append l (String newline_char rest)) cur =
  String.append cur (String.append l newline_str) :: file_lines_aux rest EmptyString.
Proof.
  revert cur. induction l as [|c l IH]; intros cur Hl.
  - reflexivity.
  - cbn [String.append file_lines_aux].
    destruct (Ascii.eqb_spec c newline_char) as [->|Hne].
    + exfalso. apply Hl. left. reflexivity.
    + rewrite IH by (intros H; apply Hl; right; exact H).
      rewrite str_append_assoc. reflexivity.
Qed.

Lemma file_lines_terminated (ls : list string) :
  Forall (lacks newline_char) ls ->
  file_lines_aux (concat_str (map (fun l => String.append l newline_str) ls)) EmptyString =
  map (fun l => String.append l newline_str) ls.
Proof.
  induction 1 as [|l ls Hl _ IH]; [reflexivity|].
  cbn [map concat_str]. rewrite str_append_assoc. unfold newline_str at 1. cbn [String.append].
  rewrite file_lines_aux_line by exact Hl. rewrite IH. reflexivity.
Qed.

Lemma lacks_append (c : ascii) (a b : string) :
  lacks c a -> lacks c b -> lacks c (String.append a b).
Proof.
  unfold lacks. rewrite list_ascii_of_string_append. intros Ha Hb Hin.
  apply in_app_or in Hin. tauto.
Qed.

(** Text without a carriage return is read as it was written. *)
Lemma translate_newlines_id (s : string) : lacks cr_char s -> translate_newlines s = s.
Proof.
  induction s as [|c s IH]; intros H; [reflexivity|].
  cbn [translate_newlines]. destruct (Ascii.eqb_spec c cr_char) as [->|Hne].
  - exfalso. apply H. left. reflexivity.
  - rewrite IH; [reflexivity|]. intros Hin. apply H. right. exact Hin.
Qed.

Lemma lacks_terminated_lines (c : ascii) (ls : list string) :
  c <> newline_char -> Forall (lacks c) ls ->
  lacks c (concat_str (map (fun l => String.append l newline_str) ls)).
Proof.
  intros Hc. induction 1 as [|l ls Hl _ IH]; [intros []|].
  cbn [map concat_str]. apply lacks_append; [apply lacks_append; [exact Hl|]|exact IH].
  intros [Heq|[]]. apply Hc. symmetry. exact Heq.
Qed.

(** The lines of a file written record by record. *)
Lemma file_lines_written (recs : list (list string)) :
  Forall (Forall (lacks newline_char)) recs ->
  Forall (Forall (lacks cr_char)) recs ->
  file_lines (concat_str (map write_record_text recs)) =
  concat (map (map (fun l => String.append l newline_str)) recs).
Proof.
  intros H Hcr. unfold file_lines.
  assert (Hc : concat_str (map write_record_text recs) =
               concat_str (map (fun l => String.append l newline_str) (concat recs))).
  { clear H Hcr. induction recs as [|r recs IH]; [reflexivity|].
    cbn [map concat concat_str]. rewrite write_record_text_lines, IH, map_app, concat_str_app.
    reflexivity. }
  rewrite Hc, translate_newlines_id.
  - rewrite file_lines_terminated, concat_map; [reflexivity|]. apply Forall_concat, H.
  - apply lacks_terminated_lines; [discriminate|]. apply Forall_concat, Hcr.
Qed.

Lemma lstrip_app_space (s : string) (c : ascii) :
  is_space c = true ->
  lstrip (String.append s (String c EmptyString)) =
  if String.eqb (lstrip s) EmptyString then EmptyString
  else String.append (lstrip s) (String c EmptyString).
Proof.
  intros Hc. induction s as [|d s IH]; cbn [String.append lstrip].
  - rewrite Hc. reflexivity.
  - destruct (is_space d); [exact IH|reflexivity].
Qed.

(** [str.strip()] ignores a trailing whitespace character. *)
Lemma strip_app_space (s : string) (c : ascii) :
  is_space c = true -> strip (String.append s (String c EmptyString)) = strip s.
Proof.
  intros Hc. unfold strip. rewrite lstrip_app_space by exact Hc.
  destruct (String.eqb_spec (lstrip s) EmptyString) as [He|Hne].
  - rewrite He. reflexivity.
  - rewrite list_ascii_of_string_append. simpl list_ascii_of_string.
    rewrite rev_unit. cbn [string_of_list_ascii lstrip]. rewrite Hc. reflexivity.
Qed.

Lemma map_nth_seq_self {A} (l : list A) (d : A) :
  map (fun i => nth i l d) (seq 0 (length l)) = l.
Proof.
  induction l as [|a l IH]; [reflexivity|].
  cbn [length seq map nth]. f_equal.
  rewrite <- seq_shift, map_map. exact IH.
Qed.

(** X12: records written one after the other by [write_record] into one
    file are read back unchanged by a parser over that file alone, each
    with the barcode of its header, as long as every record has four lines
    and no line holds a newline, a carriage return or surrounding
    whitespace. *)
Theorem write_then_parse_round_trip (name : string) (recs : list (list string)) :
  Forall (fun record => length record = 4%nat /\
            Forall (fun l => lacks newline_char l /\ lacks cr_char l /\ strip l = l) record) recs ->
  fastq_records (create_fastq_file_parser
                   (name, file_lines (concat_str (map write_record_text recs))) None None None) =
  (map (fun record => ([record], barcode_from_record FastqFileParserHeaderIndex [record])) recs,
   None).
Proof.
  intros Hrecs.
  assert (Hnl : Forall (Forall (lacks newline_char)) recs).
  { eapply Forall_impl; [|exact Hrecs]. intros r [_ Hr].
    eapply Forall_impl; [|exact Hr]. intros l [Hl _]. exact Hl. }
  assert (Hcr : Forall (Forall (lacks cr_char)) recs).
  { eapply Forall_impl; [|exact Hrecs]. intros r [_ Hr].
    eapply Forall_impl; [|exact Hr]. intros l [_ [Hl _]]. exact Hl. }
  rewrite file_lines_written by assumption.
  set (B := map (map (fun l => String.append l newline_str)) recs).
  rewrite (fastq_records_blocks _ (length recs) (name, B) [] []);
    [|reflexivity|reflexivity|reflexivity|].
  - f_equal. symmetry. rewrite <- (map_nth_seq_self recs []) at 1. rewrite map_map. symmetry.
    apply map_ext_in. intros i Hi. apply in_seq in Hi.
    assert (Hnth : nth i B [] = map (fun l => String.append l newline_str) (nth i recs [])).
    { unfold B. rewrite <- (map_nth (map (fun l => String.append l newline_str)) recs [] i).
      reflexivity. }
    assert (Hstrip : map strip (nth i B []) = nth i recs []).
    { rewrite Hnth, map_map.
      assert (Hin : In (nth i recs []) recs) by (apply nth_In; lia).
      rewrite Forall_forall in Hrecs. destruct (Hrecs _ Hin) as [_ Hl].
      rewrite <- (map_id (nth i recs [])) at 2. apply map_ext_in. intros l Hl'.
      rewrite Forall_forall in Hl. destruct (Hl l Hl') as [_ [_ Hs]].
      cbv beta. unfold newline_str. rewrite strip_app_space by reflexivity. exact Hs. }
    unfold nth_records. cbn [map snd is_header_kind parser_kind create_fastq_file_parser].
    rewrite Hstrip. reflexivity.
  - constructor; [|constructor]. unfold well_formed_file, B. cbn [snd].
    split; [apply length_map|]. apply Forall_map.
    eapply Forall_impl; [|exact Hrecs]. intros r [Hr _]. rewrite length_map. exact Hr.
Qed.

Lemma write_then_parse_round_trip_witness :
  fastq_records (create_fastq_file_parser
    ("out_R1.fastq"%string,
     file_lines (concat_str (map write_record_text
       [["@r1 1:N:0:ACGT"; "ACGT"; "+"; "IIII"]; ["@r2 1:N:0:GGCC"; "TTTT"; "+"; "JJJJ"]]%string)))
    None None None) =
  ([([["@r1 1:N:0:ACGT"; "ACGT"; "+"; "IIII"]], "ACGT");
    ([["@r2 1:N:0:GGCC"; "TTTT"; "+"; "JJJJ"]], "GGCC")]%string, None).
Proof.
  rewrite write_then_parse_round_trip.
  - reflexivity.
  - repeat (constructor; [split; [reflexivity|];
      repeat (constructor; [split; [unfold lacks; simpl; intuition discriminate|
                                    split; [unfold lacks; simpl; intuition discriminate|reflexivity]]|])|]);
      constructor.
Defined.

(** ** DemultiplexResults.summarize_counts: composition and edges *)

(** X13: with a nonzero total and ints below [2^1023], the full
    summaries of the known and of the unknown barcodes together hold the
    same rows as the full summary of all barcodes, which any barcode set
    other than ["known"] and ["unknown"] produces. *)
Theorem summarize_counts_known_unknown_split (r : results) (other : string) :
  counter_total (barcode_counts r) <> 0 ->
  Z.abs (counter_total (barcode_counts r)) < 2 ^ 1023 ->
  Forall (fun p => Z.abs (snd p) < 2 ^ 1023) (barcode_counts r) ->
  other <> "known"%string -> other <> "unknown"%string ->
  exists known unknown all,
    summarize_counts r "known" None = Ok known /\
    summarize_counts r "unknown" None = Ok unknown /\
    summarize_counts r other None = Ok all /\
    Permutation (known ++ unknown) all.
Proof.
  intros Htot Hb Hcs Hk Hu. do 3 eexists.
  split; [apply summarize_counts_rows; assumption|].
  split; [apply summarize_counts_rows; assumption|].
  split; [apply summarize_counts_rows; assumption|].
  unfold most_common, barcode_set_counts. cbn [String.eqb Ascii.eqb Bool.eqb andb].
  destruct (String.eqb_spec other "known"); [contradiction|].
  destruct (String.eqb_spec other "unknown"); [contradiction|].
  rewrite <- map_app. apply Permutation_map.
  eapply Permutation_trans; [apply Permutation_app; apply sort_desc_perm|].
  eapply Permutation_trans; [|symmetry; apply sort_desc_perm].
  unfold known_barcode_counts, unknown_barcode_counts. apply filter_partition_perm.
Qed.

Lemma summarize_counts_known_unknown_split_witness :
  (exists known unknown all,
    summarize_counts mixed_results "known" None = Ok known /\
    summarize_counts mixed_results "unknown" None = Ok unknown /\
    summarize_counts mixed_results "all" None = Ok all /\
    Permutation (known ++ unknown) all) /\
  summarize_counts mixed_results "known" None =
    Ok [("A"%string, 2, percent_value 2 4); ("B"%string, 1, percent_value 1 4)] /\
  summarize_counts mixed_results "unknown" None = Ok [("C"%string, 1, percent_value 1 4)].
Proof.
  split; [|split; vm_compute; reflexivity].
  apply (summarize_counts_known_unknown_split mixed_results "all").
  - discriminate.
  - vm_compute. reflexivity.
  - repeat constructor; vm_compute; reflexivity.
  - discriminate.
  - discriminate.
Defined.

(** X14: [summarize_counts] returns no rows when [n_values] is zero or
    negative and when nothing has been counted; it raises
    [ZeroDivisionError] only for a zero total and [OverflowError] only
    when the total or a count is [2^1023] or more in absolute value. *)
Theorem summarize_counts_edges (r : results) (barcode_set : string) (n_values : option Z) :
  (forall n, n <= 0 -> summarize_counts r barcode_set (Some n) = Ok []) /\
  (barcode_counts r = [] -> summarize_counts r barcode_set n_values = Ok []) /\
  (forall e, summarize_counts r barcode_set n_values = Err e ->
     (e = ZeroDivisionError /\ counter_total (barcode_counts r) = 0) \/
     (e = OverflowError /\
      (2 ^ 1023 <= Z.abs (counter_total (barcode_counts r)) \/
       exists p, In p (barcode_counts r) /\ 2 ^ 1023 <= Z.abs (snd p)))).
Proof.
  split; [|split].
  - intros n Hn. unfold summarize_counts, most_common.
    replace (Z.to_nat n) with 0%nat by lia. reflexivity.
  - intros Hc. unfold summarize_counts, most_common, known_barcode_counts,
      unknown_barcode_counts. rewrite Hc.
    destruct (String.eqb barcode_set "known"); [|destruct (String.eqb barcode_set "unknown")];
      destruct n_values; cbn [filter sort_desc]; rewrite ?firstn_nil; reflexivity.
  - intros e H. unfold summarize_counts in H. fold (barcode_set_counts r barcode_set) in H.
    apply map_result_err in H. destruct H as (p & Hin & Hp).
    apply most_common_incl, barcode_set_counts_incl in Hin.
    destruct (percent (snd p) (counter_total (barcode_counts r))) as [pc|e'] eqn:Hpc;
      cbn [bind] in Hp; [discriminate|].
    injection Hp as <-. apply percent_err in Hpc.
    destruct Hpc as [Hz|[He [Hc|Ht]]]; [left; exact Hz| |].
    + right. split; [exact He|]. right. exists p. split; assumption.
    + right. split; [exact He|]. left. exact Ht.
Qed.

Lemma summarize_counts_edges_witness :
  summarize_counts two_barcode_results "known" (Some 0) = Ok [] /\
  summarize_counts (init_results sample_mapping) "all" None = Ok [] /\
  summarize_counts huge_count_results "all" None = Err OverflowError.
Proof.
  split; [|split].
  - apply (proj1 (summarize_counts_edges two_barcode_results "known" None)). lia.
  - apply (proj1 (proj2 (summarize_counts_edges (init_results sample_mapping) "all" None))).
    reflexivity.
  - vm_compute. reflexivity.
Defined.

(** ** The [demultiplex] command *)

Lemma assoc_mem_get_string {V} (m : list (string * V)) k :
  assoc_mem String.eqb m k = match assoc_get String.eqb m k with Some _ => true | None => false end.
Proof.
  destruct (assoc_get String.eqb m k) eqn:Hget.
  - apply (assoc_get_in String.eqb string_eqb_spec) in Hget.
    apply (assoc_mem_in String.eqb string_eqb_spec). apply in_map_iff. exists (k, v). auto.
  - apply (assoc_get_none_mem String.eqb), Hget.
Qed.

Lemma assoc_get_writer_counts (fw : list (string * list string)) b :
  assoc_get String.eqb (writer_counts fw) b = option_map (@length string) (assoc_get String.eqb fw b).
Proof.
  induction fw as [|[k v] fw IH]; simpl; [reflexivity|]. destruct (String.eqb k b); [reflexivity|exact IH].
Qed.

Lemma write_reads_out fw barcode nwriters read_no reads out :
  assoc_get String.eqb fw barcode = Some nwriters ->
  (read_no + length reads <= nwriters)%nat ->
  write_reads fw barcode read_no reads out =
  Ok (out ++ map (fun p => (barcode, fst p, snd p)) (combine (seq read_no (length reads)) reads)).
Proof.
  intros Hget. revert read_no out.
  induction reads as [|r reads IH]; intros read_no out Hlen; cbn [write_reads].
  - rewrite app_nil_r. reflexivity.
  - rewrite Hget. simpl in Hlen. destruct (Nat.ltb_spec read_no nwriters); [|lia].
    rewrite IH by lia. rewrite <- app_assoc. reflexivity.
Qed.

(** A run of the exact-match demultiplexer over writers that all have
    [nw] files and records of [nw] reads: every record is written, read by
    read, to its barcode's writers when it has some, to the unknown
    barcode's otherwise. *)
Lemma exact_run_writes (fw : writers) (unknown : string) (s : state)
    (records : list (fastq_record * string)) (nw : nat) :
  (forall b n, assoc_get String.eqb fw b = Some n -> n = nw) ->
  assoc_mem String.eqb fw unknown = true ->
  Forall (fun y => fst y <> [] /\ length (fst y) = nw) records ->
  exists s', demultiplex (create_fastq_demultiplexer fw unknown 0) s records = Ok s' /\
    written s' = written s ++
      flat_map (fun y => record_writes
                  (if assoc_mem String.eqb fw (snd y) then snd y else unknown) (fst y)) records.
Proof.
  intros Hnw Hunk Hrec. revert s.
  induction Hrec as [|[record barcode] records [Hne Hlen] _ IH]; intros s.
  - exists s. split; [reflexivity|]. rewrite app_nil_r. reflexivity.
  - cbn [fst] in Hne, Hlen.
    destruct (exact_step fw unknown s record barcode Hne) as (s1 & Hs1 & Hw & _); [|exact Hunk|].
    { intros b n Hb. rewrite (Hnw b n Hb), Hlen. lia. }
    destruct (IH s1) as (s2 & Hs2 & Hw2).
    exists s2. cbn [demultiplex]. rewrite Hs1. cbn [bind]. split; [exact Hs2|].
    rewrite Hw2. cbn [flat_map fst snd]. rewrite app_assoc. f_equal. f_equal.
    set (target := if assoc_mem String.eqb fw barcode then barcode else unknown) in *.
    assert (Hget : exists n, assoc_get String.eqb fw target = Some n).
    { apply assoc_get_mem_some. unfold target.
      destruct (assoc_mem String.eqb fw barcode) eqn:Hm; [exact Hm|exact Hunk]. }
    destruct Hget as [n Hget]. unfold write_fastq_record in Hw.
    rewrite (write_reads_out _ _ n) in Hw by (try exact Hget; rewrite (Hnw _ _ Hget); lia).
    injection Hw as Hw. rewrite <- Hw. reflexivity.
Qed.

Lemma records_from_list_length (hs : list handle) :
  match records_from_list hs with
  | (Some rs, hs') => length rs = length hs /\ length hs' = length hs
  | (None, _) => True
  end.
Proof.
  induction hs as [|h hs IH]; simpl; [auto|].
  destruct (record_from_handle h) as [[r|] h']; [|exact I].
  destruct (records_from_list hs) as [[rs|] hs']; [|exact I].
  simpl. destruct IH as [-> ->]. auto.
Qed.

Lemma yield_records_length (fuel : nat) (k : parser_class) (rh ih : list handle) :
  Forall (fun y => length (fst y) = length rh) (fst (yield_records fuel k rh ih)).
Proof.
  revert rh ih. induction fuel as [|fuel IH]; intros rh ih; [constructor|].
  cbn [yield_records]. unfold records_from_handles.
  assert (Hl := records_from_list_length rh).
  destruct (records_from_list rh) as [[recs|] rh']; [|exact (Forall_nil _)].
  destruct Hl as [Hrecs Hrh'].
  assert (Hgo : forall y ih', let (ys, hs) := yield_records fuel k rh' ih' in
              Forall (fun y => length (fst y) = length rh) (fst (y :: ys, hs))
              \/ length (fst y) <> length rh).
  { intros y ih'. specialize (IH rh' ih').
    destruct (yield_records fuel k rh' ih') as [ys hs]. cbn [fst] in IH |- *.
    destruct (Nat.eq_dec (length (fst y)) (length rh)) as [E|E]; [left|right; exact E].
    constructor; [exact E|]. rewrite <- Hrh'. exact IH. }
  destruct k.
  - specialize (Hgo (recs, barcode_from_record FastqFileParserHeaderIndex recs) ih).
    destruct (yield_records fuel _ rh' ih) as [ys hs]. destruct Hgo as [H|H]; [exact H|].
    exfalso. apply H. exact Hrecs.
  - destruct (records_from_list ih) as [[idx|] ih']; [|exact (Forall_nil _)].
    specialize (Hgo (recs, barcode_from_record FastqFileParserI1 idx) ih').
    destruct (yield_records fuel _ rh' ih') as [ys hs]. destruct Hgo as [H|H]; [exact H|].
    exfalso. apply H. exact Hrecs.
  - destruct (records_from_list ih) as [[idx|] ih']; [|exact (Forall_nil _)].
    specialize (Hgo (recs, barcode_from_record FastqFileParserI2 idx) ih').
    destruct (yield_records fuel _ rh' ih') as [ys hs]. destruct Hgo as [H|H]; [exact H|].
    exfalso. apply H. exact Hrecs.
Qed.

(** Every record [fastq_records] yields has one read per read file. *)
Lemma fastq_records_reads (p : fastq_parser) :
  Forall (fun y => length (fst y) = (1 + match fastq_r2 p with Some _ => 1 | None => 0 end)%nat)
    (fst (fastq_records p)).
Proof.
  unfold fastq_records, get_file_handles.
  assert (H := yield_records_length (S (length (snd (fastq_r1 p)))) (parser_kind p)
                 ([fastq_r1 p] ++ match fastq_r2 p with Some h => [h] | None => [] end)
                 (match fastq_i1 p with Some h => [h] | None => [] end
                  ++ match fastq_i2 p with Some h => [h] | None => [] end)).
  destruct (yield_records _ _ _ _) as [ys hs].
  cbn [fst] in H. destruct (ensure_filehandles_empty _); cbn [fst];
    (eapply Forall_impl; [|exact H]); intros y Hy; rewrite Hy; destruct (fastq_r2 p); reflexivity.
Qed.

Lemma writers_from_mapping_lookup (h : writer_handler) (m : list (string * string)) b :
  fastq_file_writers h = None -> NoDup (map fst m) ->
  assoc_get String.eqb (snd (fastq_file_writers_from_mapping h m)) b =
  option_map (fun sample_id => fastq_file_name_from_sample_id h sample_id b)
    (assoc_get String.eqb m b).
Proof.
  intros Hnone Hnd. unfold fastq_file_writers_from_mapping. rewrite Hnone. cbn [snd].
  rewrite (assoc_get_fold_set String.eqb string_eqb_spec fst), find_rev_nodup by exact Hnd.
  rewrite (assoc_get_find_string m).
  destruct (find (fun p => String.eqb (fst p) b) m) as [p|] eqn:Hf; [|reflexivity].
  apply find_some in Hf as [_ Hf]. apply String.eqb_eq in Hf. subst b. reflexivity.
Qed.

Lemma cli_mapping_nodup (rows : list string) (unknown : string) :
  NoDup (map fst (cli_mapping rows unknown)).
Proof.
  unfold cli_mapping. apply (assoc_set_nodup String.eqb string_eqb_spec), get_mapping_nodup.
Qed.

(** X15: the [demultiplex] command, with the exact-match demultiplexer,
    never fails on a writer: whatever the sample sheet and the input files,
    every record the parser yields is written, read [i] to file [i], to the
    files of its barcode when the mapping (the sample sheet's plus the
    unknown barcode) has it and to those of the unknown barcode otherwise,
    each record is counted once, and the command ends with the parser's
    error when the files disagree in length. *)
Theorem cli_demultiplex_routes (rows : list string) (prefix outdir unknown : string)
    (no_gzip : bool) (r1 : handle) (r2 i1 i2 : option handle) :
  let m := cli_mapping rows unknown in
  let parsed := fastq_records (create_fastq_file_parser r1 r2 i1 i2) in
  exists s,
    cli_demultiplex rows prefix outdir unknown no_gzip r1 r2 i1 i2 =
      match snd parsed with None => Ok s | Some e => Err e end /\
    barcode_to_sample_mapping (demultiplex_results s) = m /\
    written s =
      flat_map (fun y => record_writes
                  (if assoc_mem String.eqb m (snd y) then snd y else unknown) (fst y))
        (fst parsed) /\
    counter_total (barcode_counts (demultiplex_results s)) = Z.of_nat (length (fst parsed)).
Proof.
  intros m parsed. unfold cli_demultiplex. fold m.
  set (h := mkWriterHandler prefix outdir (match r2 with None => true | Some _ => false end)
              no_gzip None).
  assert (Hlook := fun b => writers_from_mapping_lookup h m b eq_refl (cli_mapping_nodup rows unknown)).
  destruct (fastq_file_writers_from_mapping h m) as [h' fw]. cbn [snd] in Hlook.
  set (nw := (1 + match r2 with Some _ => 1 | None => 0 end)%nat).
  assert (Hnw : forall b n, assoc_get String.eqb (writer_counts fw) b = Some n -> n = nw).
  { intros b n Hb. rewrite assoc_get_writer_counts, Hlook in Hb.
    destruct (assoc_get String.eqb m b) as [sid|]; [|discriminate].
    injection Hb as <-. rewrite fastq_file_name_from_sample_id_eq. unfold nw, h.
    destruct r2; reflexivity. }
  assert (Hmem : forall b, assoc_mem String.eqb (writer_counts fw) b = assoc_mem String.eqb m b).
  { intros b. rewrite !assoc_mem_get_string, assoc_get_writer_counts, Hlook.
    destruct (assoc_get String.eqb m b); reflexivity. }
  assert (Hunk : assoc_mem String.eqb (writer_counts fw) unknown = true).
  { rewrite Hmem, assoc_mem_get_string. unfold m, cli_mapping.
    rewrite (assoc_get_set_same String.eqb string_eqb_spec). reflexivity. }
  assert (Hrec := fastq_records_reads (create_fastq_file_parser r1 r2 i1 i2)).
  fold parsed in Hrec.
  replace (fastq_r2 (create_fastq_file_parser r1 r2 i1 i2)) with r2 in Hrec
    by (destruct i1, i2; reflexivity).
  unfold parsed in *. clear parsed.
  destruct (fastq_records (create_fastq_file_parser r1 r2 i1 i2)) as [records err].
  cbn [fst snd] in Hrec |- *.
  destruct (exact_run_writes (writer_counts fw) unknown (init_state m) records nw Hnw Hunk)
    as (s & Hrun & Hw).
  { eapply Forall_impl; [|exact Hrec]. intros y Hy. cbv beta in Hy |- *. split; [|exact Hy].
    intros He. rewrite He in Hy. discriminate. }
  destruct (demultiplex_total _ _ _ _ Hrun) as [Htot Hmap].
  exists s. cbn [create_fastq_demultiplexer Z.eqb] in Hrun. rewrite Hrun.
  split; [reflexivity|]. split; [exact Hmap|]. split.
  - rewrite Hw. cbn [written init_state app]. apply flat_map_ext_in.
    intros y _. rewrite Hmem. reflexivity.
  - rewrite Htot. reflexivity.
Qed.
